(** * CKAN MCP server: request cache, response envelope and derived operations

    A shallow embedding of [mcp_ckan_server.py] (the [CKANAPIClient] class,
    [StandardResponse], the declared tools, the tool dispatcher
    [handle_call_tool] and the start of [main]) and of the reading methods
    of [ckan_cli.py] ([CKANExplorer] and [format_size]).

    Conventions of the embedding:
    - a Python [str] is a [string] over the ASCII range (its UTF-8 bytes are
      its characters); text outside that range is not part of the model;
    - a JSON value, as [response.json()] or the tool arguments carry it, is a
      [pyval]; a Python [dict] is an association list in insertion order;
    - a Python [float] is an exact rational ([Q]): rounding to binary64 is
      not part of the model;
    - a method that awaits the network is a function of the client and of the
      world outside the process (the clock and the portal), returning a
      result or a raised exception together with the new state;
    - the messages of the built-in exceptions are those of CPython 3.11. *)

From Stdlib Require Import String Ascii List ZArith QArith Lia Bool.
From Stdlib Require Import Permutation Sorted OrdersEx.
From stdpp Require Import base gmap strings.
Import ListNotations.

Local Open Scope Z_scope.

(** ** Python strings *)

Module PyStr.

Definition is_upper (c : ascii) : bool :=
  let n := nat_of_ascii c in ((65 <=? n) && (n <=? 90))%nat.

Definition is_lower (c : ascii) : bool :=
  let n := nat_of_ascii c in ((97 <=? n) && (n <=? 122))%nat.

Definition is_digit (c : ascii) : bool :=
  let n := nat_of_ascii c in ((48 <=? n) && (n <=? 57))%nat.

Definition lower_char (c : ascii) : ascii :=
  if is_upper c then ascii_of_nat (nat_of_ascii c + 32) else c.

Definition upper_char (c : ascii) : ascii :=
  if is_lower c then ascii_of_nat (nat_of_ascii c - 32) else c.

Fixpoint map_chars (f : ascii -> ascii) (s : string) : string :=
  match s with
  | EmptyString => EmptyString
  | String c r => String (f c) (map_chars f r)
  end.

(** [s.lower()] and [s.upper()]. *)
Definition lower : string -> string := map_chars lower_char.
Definition upper : string -> string := map_chars upper_char.

(** [needle in hay] for two strings. *)
Fixpoint contains (needle hay : string) : bool :=
  String.prefix needle hay ||
  match hay with
  | EmptyString => false
  | String _ r => contains needle r
  end.

(** The characters [str.strip()] removes (ASCII whitespace, with the four
    separators 0x1c to 0x1f that Python counts as whitespace). *)
Definition is_space (c : ascii) : bool :=
  let n := nat_of_ascii c in
  (((9 <=? n) && (n <=? 13)) || ((28 <=? n) && (n <=? 32)))%nat.

Fixpoint lstrip_by (p : ascii -> bool) (s : string) : string :=
  match s with
  | EmptyString => EmptyString
  | String c r => if p c then lstrip_by p r else s
  end.

Fixpoint rstrip_by (p : ascii -> bool) (s : string) : string :=
  match s with
  | EmptyString => EmptyString
  | String c r =>
      match rstrip_by p r with
      | EmptyString => if p c then EmptyString else String c EmptyString
      | r' => String c r'
      end
  end.

(** [s.strip()]. *)
Definition strip (s : string) : string := rstrip_by is_space (lstrip_by is_space s).

(** [s.rstrip('/')]. *)
Definition rstrip_slash : string -> string :=
  rstrip_by (fun c => Ascii.eqb c "/"%char).

(** [s.split(sep)] for a one-character separator: never an empty list. *)
Fixpoint split (sep : ascii) (s : string) : list string :=
  match s with
  | EmptyString => [EmptyString]
  | String c r =>
      if Ascii.eqb c sep then EmptyString :: split sep r
      else match split sep r with
           | [] => [String c EmptyString]
           | w :: ws => String c w :: ws
           end
  end.

(** [sep.join(parts)]. *)
Definition join (sep : string) (parts : list string) : string :=
  String.concat sep parts.

Definition hex_digit (upper_case : bool) (n : nat) : ascii :=
  if (n <? 10)%nat then ascii_of_nat (48 + n)
  else ascii_of_nat ((if upper_case then 55 else 87) + n).

(** Two hexadecimal digits of a byte. *)
Definition hex2 (upper_case : bool) (n : nat) : string :=
  String (hex_digit upper_case (n / 16)) (String (hex_digit upper_case (n mod 16)) EmptyString).

Fixpoint digits_of (fuel : nat) (n : N) (acc : string) : string :=
  match fuel with
  | O => acc
  | S f =>
      let acc' := String (ascii_of_N (48 + n mod 10)) acc in
      if (n / 10 =? 0)%N then acc' else digits_of f (n / 10)%N acc'
  end.

(** [str(n)] for an [int]. *)
Definition of_Z (z : Z) : string :=
  let n := Z.to_N (Z.abs z) in
  let d := digits_of (S (N.to_nat (N.log2 n))) n EmptyString in
  if z <? 0 then String "-"%char d else d.

(** The characters [urllib.parse.quote] leaves as they are with its default
    [safe='/']: letters, digits and [_.-~/]. *)
Definition quote_safe (c : ascii) : bool :=
  is_upper c || is_lower c || is_digit c ||
  existsb (Ascii.eqb c) ["_"; "."; "-"; "~"; "/"]%char.

(** [urllib.parse.quote(s)]. *)
Fixpoint quote (s : string) : string :=
  match s with
  | EmptyString => EmptyString
  | String c r =>
      if quote_safe c then String c (quote r)
      else String "%"%char (hex2 true (nat_of_ascii c) +:+ quote r)
  end.

End PyStr.

(** ** MD5, as [hashlib.md5(...).hexdigest()] computes it (RFC 1321) *)

Module MD5.

Definition w32 (x : Z) : Z := x mod 2 ^ 32.

Definition rotl (x c : Z) : Z :=
  w32 (Z.lor (Z.shiftl x c) (Z.shiftr x (32 - c))).

Definition not32 (x : Z) : Z := Z.lxor x 0xffffffff.

Definition K : list Z :=
  [ 0xd76aa478; 0xe8c7b756; 0x242070db; 0xc1bdceee;
    0xf57c0faf; 0x4787c62a; 0xa8304613; 0xfd469501;
    0x698098d8; 0x8b44f7af; 0xffff5bb1; 0x895cd7be;
    0x6b901122; 0xfd987193; 0xa679438e; 0x49b40821;
    0xf61e2562; 0xc040b340; 0x265e5a51; 0xe9b6c7aa;
    0xd62f105d; 0x02441453; 0xd8a1e681; 0xe7d3fbc8;
    0x21e1cde6; 0xc33707d6; 0xf4d50d87; 0x455a14ed;
    0xa9e3e905; 0xfcefa3f8; 0x676f02d9; 0x8d2a4c8a;
    0xfffa3942; 0x8771f681; 0x6d9d6122; 0xfde5380c;
    0xa4beea44; 0x4bdecfa9; 0xf6bb4b60; 0xbebfbc70;
    0x289b7ec6; 0xeaa127fa; 0xd4ef3085; 0x04881d05;
    0xd9d4d039; 0xe6db99e5; 0x1fa27cf8; 0xc4ac5665;
    0xf4292244; 0x432aff97; 0xab9423a7; 0xfc93a039;
    0x655b59c3; 0x8f0ccc92; 0xffeff47d; 0x85845dd1;
    0x6fa87e4f; 0xfe2ce6e0; 0xa3014314; 0x4e0811a1;
    0xf7537e82; 0xbd3af235; 0x2ad7d2bb; 0xeb86d391 ].

Definition shifts : list Z :=
  [ 7; 12; 17; 22; 7; 12; 17; 22; 7; 12; 17; 22; 7; 12; 17; 22;
    5;  9; 14; 20; 5;  9; 14; 20; 5;  9; 14; 20; 5;  9; 14; 20;
    4; 11; 16; 23; 4; 11; 16; 23; 4; 11; 16; 23; 4; 11; 16; 23;
    6; 10; 15; 21; 6; 10; 15; 21; 6; 10; 15; 21; 6; 10; 15; 21 ].

Record digest := { dA : Z; dB : Z; dC : Z; dD : Z }.

Definition init : digest :=
  {| dA := 0x67452301; dB := 0xefcdab89; dC := 0x98badcfe; dD := 0x10325476 |}.

(** The 64-bit message length and the four state words leave as
    little-endian bytes. *)
Fixpoint le_bytes (n : nat) (x : Z) : list Z :=
  match n with
  | O => []
  | S n' => x mod 256 :: le_bytes n' (x / 256)
  end.

Fixpoint le_word (bs : list Z) : Z :=
  match bs with
  | [] => 0
  | b :: r => b + 256 * le_word r
  end.

Definition pad (msg : list Z) : list Z :=
  let len := Z.of_nat (length msg) in
  msg ++ [0x80] ++ repeat 0 (Z.to_nat ((55 - len) mod 64))
      ++ le_bytes 8 ((8 * len) mod 2 ^ 64).

Fixpoint blocks (n : nat) (size : nat) (bs : list Z) : list (list Z) :=
  match n with
  | O => []
  | S n' => firstn size bs :: blocks n' size (skipn size bs)
  end.

Definition words (block : list Z) : list Z :=
  map le_word (blocks 16 4 block).

Definition step (M : list Z) (st : digest) (i : nat) : digest :=
  let '(Build_digest a b c d) := st in
  let iz := Z.of_nat i in
  let '(f, g) :=
    if (i <? 16)%nat then (Z.lor (Z.land b c) (Z.land (not32 b) d), iz)
    else if (i <? 32)%nat then (Z.lor (Z.land d b) (Z.land (not32 d) c), (5 * iz + 1) mod 16)
    else if (i <? 48)%nat then (Z.lxor (Z.lxor b c) d, (3 * iz + 5) mod 16)
    else (Z.lxor c (Z.lor b (not32 d)), (7 * iz) mod 16) in
  let f' := w32 (f + a + nth i K 0 + nth (Z.to_nat g) M 0) in
  {| dA := d; dB := w32 (b + rotl f' (nth i shifts 0)); dC := b; dD := c |}.

Definition compress (st : digest) (block : list Z) : digest :=
  let r := fold_left (step (words block)) (seq 0 64) st in
  {| dA := w32 (dA st + dA r); dB := w32 (dB st + dB r);
     dC := w32 (dC st + dC r); dD := w32 (dD st + dD r) |}.

Definition digest_bytes (msg : list Z) : list Z :=
  let p := pad msg in
  let d := fold_left compress (blocks (length p / 64) 64 p) init in
  le_bytes 4 (dA d) ++ le_bytes 4 (dB d) ++ le_bytes 4 (dC d) ++ le_bytes 4 (dD d).

(** [hashlib.md5(s.encode()).hexdigest()]. *)
Definition hexdigest (s : string) : string :=
  let msg := map (fun c => Z.of_nat (nat_of_ascii c)) (list_ascii_of_string s) in
  String.concat EmptyString (map (fun b => PyStr.hex2 false (Z.to_nat b)) (digest_bytes msg)).

End MD5.

(** ** Python values *)

(** What [json.loads] produces and what the operations build: [None],
    [bool], [int], [float], [str], [list] and [dict] with [str] keys. *)
#[warnings="-register-all"]
Inductive pyval : Type :=
| PNone
| PBool (b : bool)
| PInt (z : Z)
| PFloat (q : Q)
| PStr (s : string)
| PList (l : list pyval)
| PDict (d : list (string * pyval)).

Abbreviation pydict := (list (string * pyval)).

(** The library functions the repository calls and does not define: how a
    [float] prints, and [datetime.utcnow().isoformat()] at a clock reading. *)
Class PyRuntime := {
  float_repr : Q -> string;
  utc_isoformat : Q -> string
}.

(** Exceptions: every class below derives from [Exception]; [str(e)] is
    [exn_msg e]. *)
Inductive exn_class :=
| ExException | ExClientError | ExTimeoutError
| ExKeyError | ExAttributeError | ExTypeError | ExIndexError.

Record PyExn := { exn_cls : exn_class; exn_msg : string }.

Inductive result (A : Type) : Type :=
| Ok (a : A)
| Raise (e : PyExn).
Arguments Ok {A} a.
Arguments Raise {A} e.

Definition rbind {A B} (r : result A) (k : A -> result B) : result B :=
  match r with
  | Ok a => k a
  | Raise e => Raise e
  end.

Notation "'let+' x ':=' c 'in' k" := (rbind c (fun x => k))
  (at level 10, x name, c at level 100, k at level 200).

Definition Qltb (x y : Q) : bool := (Qnum x * QDen y <? Qnum y * QDen x)%Z.

Module Py.

Definition type_name (v : pyval) : string :=
  match v with
  | PNone => "NoneType"
  | PBool _ => "bool"
  | PInt _ => "int"
  | PFloat _ => "float"
  | PStr _ => "str"
  | PList _ => "list"
  | PDict _ => "dict"
  end.

Definition quot_ (s : string) : string := "'" +:+ s +:+ "'".

Definition attribute_error {A} (v : pyval) (attr : string) : result A :=
  Raise {| exn_cls := ExAttributeError;
           exn_msg := quot_ (type_name v) +:+ " object has no attribute " +:+ quot_ attr |}.

Definition type_error {A} (msg : string) : result A :=
  Raise {| exn_cls := ExTypeError; exn_msg := msg |}.

(** [bool(v)]. *)
Definition truthy (v : pyval) : bool :=
  match v with
  | PNone => false
  | PBool b => b
  | PInt z => negb (z =? 0)
  | PFloat q => negb (Qeq_bool q 0)
  | PStr s => negb (String.eqb s "")
  | PList l => negb (Nat.eqb (length l) 0)
  | PDict d => negb (Nat.eqb (length d) 0)
  end.

(** [a or b]. *)
Definition or_ (a b : pyval) : pyval := if truthy a then a else b.

Fixpoint dict_get (k : string) (d : pydict) : option pyval :=
  match d with
  | [] => None
  | (k', v) :: r => if String.eqb k' k then Some v else dict_get k r
  end.

(** [d[k] = v]: an existing key keeps its place, a new one goes last. *)
Fixpoint dict_set (k : string) (v : pyval) (d : pydict) : pydict :=
  match d with
  | [] => [(k, v)]
  | (k', v') :: r => if String.eqb k' k then (k, v) :: r else (k', v') :: dict_set k v r
  end.

Definition has_key (k : string) (d : pydict) : bool :=
  match dict_get k d with Some _ => true | None => false end.

(** [v.get(k, default)]. *)
Definition get (v : pyval) (k : string) (default : pyval) : result pyval :=
  match v with
  | PDict d => Ok (match dict_get k d with Some x => x | None => default end)
  | _ => attribute_error v "get"
  end.

Definition as_number (v : pyval) : option Q :=
  match v with
  | PBool b => Some (if b then 1 else 0)%Q
  | PInt z => Some (inject_Z z)
  | PFloat q => Some q
  | _ => None
  end.

(** [a == b]. *)
Fixpoint eq (a b : pyval) {struct a} : bool :=
  match a, b with
  | PNone, PNone => true
  | PStr s, PStr t => String.eqb s t
  | PList la, PList lb =>
      (fix go (la lb : list pyval) {struct la} : bool :=
         match la, lb with
         | [], [] => true
         | x :: xs, y :: ys => eq x y && go xs ys
         | _, _ => false
         end) la lb
  | PDict da, PDict db =>
      Nat.eqb (length da) (length db) &&
      forallb (fun kv => match kv with
                         | (k, v) => match dict_get k db with
                                     | Some w => eq v w
                                     | None => false
                                     end
                         end) da
  | _, _ =>
      match as_number a, as_number b with
      | Some x, Some y => Qeq_bool x y
      | _, _ => false
      end
  end.

Definition eq_str (v : pyval) (s : string) : bool := eq v (PStr s).

(** The escapes of [repr] of a [str] between the quote character [q]. *)
Fixpoint repr_chars (q : ascii) (s : string) : string :=
  match s with
  | EmptyString => EmptyString
  | String c r =>
      let n := nat_of_ascii c in
      (if Ascii.eqb c "\"%char then "\\"
       else if Ascii.eqb c q then String "\"%char (String q EmptyString)
       else if Nat.eqb n 10 then "\n"
       else if Nat.eqb n 13 then "\r"
       else if Nat.eqb n 9 then "\t"
       else if ((n <? 32) || Nat.eqb n 127)%nat then "\x" +:+ PyStr.hex2 false n
       else String c EmptyString) +:+ repr_chars q r
  end.

Definition dquote : ascii := ascii_of_nat 34.
Definition squote : ascii := ascii_of_nat 39.

Definition has_char (c : ascii) (s : string) : bool :=
  PyStr.contains (String c EmptyString) s.

(** [repr(s)] for a [str]: single quotes, unless the text has a single
    quote and no double quote. *)
Definition repr_str (s : string) : string :=
  let q := if has_char squote s && negb (has_char dquote s) then dquote else squote in
  String q (repr_chars q s +:+ String q EmptyString).

(** The escapes of [json.dumps]; with [ensure_ascii] every character
    outside the printable ASCII range is escaped, without it only the
    control characters are. *)
Fixpoint json_chars (ensure_ascii : bool) (s : string) : string :=
  match s with
  | EmptyString => EmptyString
  | String c r =>
      let n := nat_of_ascii c in
      (if Ascii.eqb c "\"%char then "\\"
       else if Ascii.eqb c dquote then String "\"%char (String dquote EmptyString)
       else if Nat.eqb n 10 then "\n"
       else if Nat.eqb n 13 then "\r"
       else if Nat.eqb n 9 then "\t"
       else if Nat.eqb n 8 then "\b"
       else if Nat.eqb n 12 then "\f"
       else if ((n <? 32) || (ensure_ascii && (126 <? n)))%nat then "\u00" +:+ PyStr.hex2 false n
       else String c EmptyString) +:+ json_chars ensure_ascii r
  end.

Definition json_str (ensure_ascii : bool) (s : string) : string :=
  String dquote (json_chars ensure_ascii s +:+ String dquote EmptyString).

Definition newline : string := String (ascii_of_nat 10) EmptyString.

Fixpoint spaces (n : nat) : string :=
  match n with
  | O => EmptyString
  | S n' => String " "%char (spaces n')
  end.

(** Insertion of a rendered item by its key: [sorted(d.items())] when the
    keys are strings. *)
Fixpoint insert_by_key (x : string * string) (l : list (string * string)) : list (string * string) :=
  match l with
  | [] => [x]
  | y :: r => if String.leb (fst x) (fst y) then x :: l else y :: insert_by_key x r
  end.

Definition sort_by_key (l : list (string * string)) : list (string * string) :=
  fold_right insert_by_key [] l.

Section WithRuntime.
Context `{PyRuntime}.

(** [repr(v)]. *)
Fixpoint repr (v : pyval) : string :=
  match v with
  | PNone => "None"
  | PBool b => if b then "True" else "False"
  | PInt z => PyStr.of_Z z
  | PFloat q => float_repr q
  | PStr s => repr_str s
  | PList l => "[" +:+ PyStr.join ", " (map repr l) +:+ "]"
  | PDict d =>
      "{" +:+ PyStr.join ", "
                (map (fun kv => match kv with
                                | (k, x) => repr_str k +:+ ": " +:+ repr x
                                end) d) +:+ "}"
  end.

(** [str(v)], which an f-string applies to each value it renders. *)
Definition str (v : pyval) : string :=
  match v with
  | PStr s => s
  | _ => repr v
  end.

(** The encoder behind [json.dumps(v, ensure_ascii=.., indent=.., sort_keys=..)],
    at nesting depth [level]. *)
Fixpoint json_encode (ensure_ascii sort_keys : bool) (indent : option nat)
    (level : nat) (v : pyval) : string :=
  let opening := match indent with
                 | Some n => newline +:+ spaces (n * S level)
                 | None => EmptyString
                 end in
  let separator := match indent with
                   | Some n => "," +:+ newline +:+ spaces (n * S level)
                   | None => ", "
                   end in
  let closing := match indent with
                 | Some n => newline +:+ spaces (n * level)
                 | None => EmptyString
                 end in
  match v with
  | PNone => "null"
  | PBool b => if b then "true" else "false"
  | PInt z => PyStr.of_Z z
  | PFloat q => float_repr q
  | PStr s => json_str ensure_ascii s
  | PList l =>
      match map (json_encode ensure_ascii sort_keys indent (S level)) l with
      | [] => "[]"
      | items => "[" +:+ opening +:+ PyStr.join separator items +:+ closing +:+ "]"
      end
  | PDict d =>
      let items := map (fun kv => match kv with
                                  | (k, x) => (k, json_encode ensure_ascii sort_keys indent (S level) x)
                                  end) d in
      let items := if sort_keys then sort_by_key items else items in
      match items with
      | [] => "{}"
      | _ => "{" +:+ opening
                 +:+ PyStr.join separator
                       (map (fun kx => json_str ensure_ascii (fst kx) +:+ ": " +:+ snd kx) items)
                 +:+ closing +:+ "}"
      end
  end.

(** [json.dumps(v, sort_keys=True)]. *)
Definition json_dumps_sorted : pyval -> string := json_encode true true None 0.

(** [json.dumps(v)]. *)
Definition json_dumps : pyval -> string := json_encode true false None 0.

End WithRuntime.

(** [v[k]] for a [str] key. *)
Definition getitem (v : pyval) (k : string) : result pyval :=
  match v with
  | PDict d =>
      match dict_get k d with
      | Some x => Ok x
      | None => Raise {| exn_cls := ExKeyError; exn_msg := repr_str k |}
      end
  | PList _ => type_error "list indices must be integers or slices, not str"
  | PStr _ => type_error "string indices must be integers, not 'str'"
  | _ => type_error (quot_ (type_name v) +:+ " object is not subscriptable")
  end.

Definition index_error {A} (what : string) : result A :=
  Raise {| exn_cls := ExIndexError; exn_msg := what +:+ " index out of range" |}.

(** [v[i]] for an [int] index; a negative index counts from the end. *)
Definition getitem_int (v : pyval) (i : Z) : result pyval :=
  match v with
  | PList l =>
      let n := Z.of_nat (length l) in
      let j := if i <? 0 then i + n else i in
      if (0 <=? j) && (j <? n)
      then match nth_error l (Z.to_nat j) with
           | Some x => Ok x
           | None => index_error "list"
           end
      else index_error "list"
  | PStr s =>
      let n := Z.of_nat (String.length s) in
      let j := if i <? 0 then i + n else i in
      if (0 <=? j) && (j <? n)
      then Ok (PStr (String.substring (Z.to_nat j) 1 s))
      else index_error "string"
  | PDict _ => Raise {| exn_cls := ExKeyError; exn_msg := PyStr.of_Z i |}
  | _ => type_error (quot_ (type_name v) +:+ " object is not subscriptable")
  end.

(** [k in v] for a [str] [k]. *)
Definition contains (k : string) (v : pyval) : result bool :=
  match v with
  | PList l => Ok (existsb (fun x => eq x (PStr k)) l)
  | PDict d => Ok (has_key k d)
  | PStr s => Ok (PyStr.contains k s)
  | _ => type_error ("argument of type " +:+ quot_ (type_name v) +:+ " is not iterable")
  end.

(** [len(v)]. *)
Definition len (v : pyval) : result Z :=
  match v with
  | PList l => Ok (Z.of_nat (length l))
  | PDict d => Ok (Z.of_nat (length d))
  | PStr s => Ok (Z.of_nat (String.length s))
  | _ => type_error ("object of type " +:+ quot_ (type_name v) +:+ " has no len()")
  end.

Fixpoint chars (s : string) : list pyval :=
  match s with
  | EmptyString => []
  | String c r => PStr (String c EmptyString) :: chars r
  end.

(** The values [for x in v] binds [x] to. *)
Definition iter (v : pyval) : result (list pyval) :=
  match v with
  | PList l => Ok l
  | PDict d => Ok (map (fun kv => PStr (fst kv)) d)
  | PStr s => Ok (chars s)
  | _ => type_error (quot_ (type_name v) +:+ " object is not iterable")
  end.

(** [v.upper()]. *)
Definition upper (v : pyval) : result string :=
  match v with
  | PStr s => Ok (PyStr.upper s)
  | _ => attribute_error v "upper"
  end.

(** [v.items()]. *)
Definition items (v : pyval) : result pydict :=
  match v with
  | PDict d => Ok d
  | _ => attribute_error v "items"
  end.

(** [l[:n]] for a list [l] and an [int] [n]. *)
Definition take {A} (n : Z) (l : list A) : list A :=
  if n <? 0 then firstn (Z.to_nat (Z.of_nat (length l) + n)) l
  else firstn (Z.to_nat n) l.

(** [l[:n]] for a list [l] and any value [n]. *)
Definition slice_to (l : list pyval) (n : pyval) : result (list pyval) :=
  match n with
  | PNone => Ok l
  | PInt z => Ok (take z l)
  | PBool b => Ok (take (if b then 1 else 0) l)
  | _ => type_error "slice indices must be integers or None or have an __index__ method"
  end.

(** [v[:n]] for any value [v] and a literal [n] (a dict refuses the slice
    as unhashable, as it does before CPython 3.12). *)
Definition slice_val (v : pyval) (n : Z) : result pyval :=
  match v with
  | PList l => Ok (PList (take n l))
  | PStr s => Ok (PStr (string_of_list_ascii (take n (list_ascii_of_string s))))
  | PDict _ => type_error "unhashable type: 'slice'"
  | _ => type_error (quot_ (type_name v) +:+ " object is not subscriptable")
  end.

End Py.
(** ** The client and the world around it *)

(** [MCPErrorType]. *)
Inductive MCPErrorType :=
| INVALID_PARAMS | CKAN_API_ERROR | NETWORK_ERROR | PERMISSION_DENIED | DATA_NOT_FOUND.

Definition MCPErrorType_value (t : MCPErrorType) : string :=
  match t with
  | INVALID_PARAMS => "invalid_parameters"
  | CKAN_API_ERROR => "ckan_api_error"
  | NETWORK_ERROR => "network_error"
  | PERMISSION_DENIED => "permission_denied"
  | DATA_NOT_FOUND => "data_not_found"
  end.

(** A cache entry, the dict [{"timestamp": ..., "data": ...}]. *)
Record CacheEntry := { entry_timestamp : Q; entry_data : pyval }.

(** [CKANAPIClient]; [session] tells whether [__aenter__] has opened the
    HTTP session. *)
Record CKANAPIClient := {
  base_url : string;
  api_key : option string;
  session : bool;
  cache : gmap string CacheEntry;
  cache_ttl : Q
}.

(** What [session.request] sends. *)
Record Request := {
  req_method : string;
  req_url : string;
  req_headers : list (string * string);
  req_json : option pydict
}.

(** What comes back: the decoded body of the response, an
    [aiohttp.ClientError], or another exception (a timeout, say). *)
Inductive Reply :=
| ReplyJson (body : pyval)
| ReplyClientError (msg : string)
| ReplyTimeout (msg : string).

(** The world outside the process: the clock [time.time()] reads, the
    portal (its reply to a request sent at a given instant, and the seconds
    the exchange takes) and the requests sent so far, oldest first. *)
Record World := {
  now : Q;
  portal : Q -> Request -> Reply * Q;
  sent : list Request
}.

Record State := { client : CKANAPIClient; world : World }.

(** A method of the client: a result or an exception, and the new state. *)
Definition M (A : Type) : Type := State -> result A * State.

Definition ret {A} (a : A) : M A := fun st => (Ok a, st).

Definition bind {A B} (m : M A) (k : A -> M B) : M B :=
  fun st =>
    match m st with
    | (Ok a, st') => k a st'
    | (Raise e, st') => (Raise e, st')
    end.

Definition raise {A} (e : PyExn) : M A := fun st => (Raise e, st).

(** A pure step that may raise. *)
Definition lift {A} (r : result A) : M A := fun st => (r, st).

(** [try: body / except Exception as e: handler(e)]. *)
Definition try_except {A} (body : M A) (handler : PyExn -> M A) : M A :=
  fun st =>
    match body st with
    | (Ok a, st') => (Ok a, st')
    | (Raise e, st') => handler e st'
    end.

Notation "'let*' x ':=' c 'in' k" := (bind c (fun x => k))
  (at level 10, x name, c at level 100, k at level 200).

(** [raise Exception(msg)]. *)
Definition Exception_ (msg : string) : PyExn :=
  {| exn_cls := ExException; exn_msg := msg |}.

(** [CKANAPIClient(base_url, api_key)]. *)
Definition __init__ (base_url : string) (api_key : option string) : CKANAPIClient :=
  {| base_url := PyStr.rstrip_slash base_url;
     api_key := api_key;
     session := false;
     cache := ∅;
     cache_ttl := 300 |}.

(** [__aenter__] opens the session; [__aexit__] closes it and leaves the
    attribute in place. *)
Definition __aenter__ (c : CKANAPIClient) : CKANAPIClient :=
  {| base_url := base_url c; api_key := api_key c; session := true;
     cache := cache c; cache_ttl := cache_ttl c |}.

Definition __aexit__ (c : CKANAPIClient) : CKANAPIClient := c.

Definition _get_headers (c : CKANAPIClient) : list (string * string) :=
  let headers := [ ("Content-Type", "application/json");
                   ("User-Agent", "MCP-CKAN-Server/1.0") ]%string in
  match api_key c with
  | Some k => if String.eqb k "" then headers else headers ++ [("Authorization"%string, k)]
  | None => headers
  end.

(** [urljoin(base, endpoint)] for an action name with an optional query
    string, joined to a base that ends in a slash. [urllib] resolves the
    endpoint against the base; the result is this concatenation for a base
    [http(s)://host/path/] without query, fragment, empty or dot segments
    and an endpoint that is an action name, alone or with a query that is
    not empty. The statements that name the address of a request name it
    through [urljoin]. *)
Definition urljoin (base endpoint : string) : string := base +:+ endpoint.

Section Client.
Context `{PyRuntime}.

(** The text [_get_cache_key] hashes. *)
Definition cache_data (method endpoint : string) (data : option pydict) : string :=
  method +:+ ":" +:+ endpoint +:+ ":" +:+
  match data with
  | Some (kv :: d) => Py.json_dumps_sorted (PDict (kv :: d))
  | _ => ""
  end.

Definition _get_cache_key (method endpoint : string) (data : option pydict) : string :=
  MD5.hexdigest (cache_data method endpoint data).

Definition _is_cache_valid (st : State) (cache_entry : CacheEntry) : bool :=
  Qltb (now (world st) - entry_timestamp cache_entry) (cache_ttl (client st)).

(** [self.cache[cache_key] = {"timestamp": time.time(), "data": result_data}]. *)
Definition cache_store (cache_key : string) (result_data : pyval) : M unit :=
  fun st =>
    let c := client st in
    let e := {| entry_timestamp := now (world st); entry_data := result_data |} in
    (Ok tt,
     {| client := {| base_url := base_url c; api_key := api_key c; session := session c;
                     cache := <[cache_key := e]> (cache c); cache_ttl := cache_ttl c |};
        world := world st |}).

(** [self.session.request(method, url, headers=headers, json=data)] and
    [response.json()]. *)
Definition session_request (method url : string) (headers : list (string * string))
    (data : option pydict) : M pyval :=
  fun st =>
    if session (client st) then
      let w := world st in
      let rq := {| req_method := method; req_url := url;
                   req_headers := headers; req_json := data |} in
      let '(reply, elapsed) := portal w (now w) rq in
      let st' := {| client := client st;
                    world := {| now := now w + elapsed; portal := portal w;
                                sent := sent w ++ [rq] |} |} in
      match reply with
      | ReplyJson body => (Ok body, st')
      | ReplyClientError msg => (Raise {| exn_cls := ExClientError; exn_msg := msg |}, st')
      | ReplyTimeout msg => (Raise {| exn_cls := ExTimeoutError; exn_msg := msg |}, st')
      end
    else (Py.attribute_error PNone "request", st).

Definition cacheable (method : string) (use_cache : bool) : bool :=
  use_cache && String.eqb method "GET".

(** The part of [_make_request] after the cache lookup: the request, the
    portal's own envelope, the store, and the two [except] clauses. (The
    [execution_time] the source computes there is never read.) *)
Definition request_portal (method endpoint : string) (data : option pydict)
    (use_cache : bool) (cache_key : string) : M pyval :=
  fun st =>
    let url := urljoin (base_url (client st) +:+ "/api/3/action/") endpoint in
    let headers := _get_headers (client st) in
    try_except
      (let* result := session_request method url headers data in
       let* success := lift (Py.get result "success" (PBool false)) in
       if negb (Py.truthy success) then
         let* error_msg := lift (Py.get result "error" (PDict [])) in
         raise (Exception_ ("CKAN API Error: " +:+ Py.str error_msg))
       else
         let* result_data := lift (Py.get result "result" (PDict [])) in
         let* _ := (if cacheable method use_cache
                    then cache_store cache_key result_data
                    else ret tt) in
         ret result_data)
      (fun e =>
         match exn_cls e with
         | ExClientError => raise (Exception_ ("HTTP Error: " +:+ exn_msg e))
         | _ => raise (Exception_ ("Request failed: " +:+ exn_msg e))
         end)
      st.

Definition _make_request (method endpoint : string) (data : option pydict)
    (use_cache : bool) : M pyval :=
  fun st =>
    let cache_key := _get_cache_key method endpoint data in
    match (if cacheable method use_cache
           then match cache (client st) !! cache_key with
                | Some cache_entry =>
                    if _is_cache_valid st cache_entry then Some cache_entry else None
                | None => None
                end
           else None) with
    | Some cache_entry => (Ok (entry_data cache_entry), st)
    | None => request_portal method endpoint data use_cache cache_key st
    end.

(** *** Faceted search *)

(** The [params] dict of [faceted_search], before it is percent-encoded. *)
Definition faceted_search_params (q facet_fields filters spatial_query date_range : pyval)
    : result pydict :=
  let params : pydict :=
    [ ("q", q); ("facet", PStr "true");
      ("facet.field", PStr (if Py.truthy facet_fields then Py.json_dumps facet_fields
                            else "[" +:+ Py.json_str true "tags" +:+ ", "
                                     +:+ Py.json_str true "organization" +:+ ", "
                                     +:+ Py.json_str true "res_format" +:+ "]"));
      ("rows", PInt 100) ]%string in
  let+ params :=
    (if Py.truthy filters then
       let+ items := Py.items filters in
       let fq_parts := map (fun fv => fst fv +:+ ":" +:+ Py.str (snd fv)) items in
       Ok (Py.dict_set "fq" (PStr (PyStr.join " AND " fq_parts)) params)
     else Ok params) in
  let+ params :=
    (if Py.truthy spatial_query then
       let+ has_bbox := Py.contains "bbox" spatial_query in
       if has_bbox then
         let+ bbox := Py.getitem spatial_query "bbox" in
         let+ b0 := Py.getitem_int bbox 0 in
         let+ b1 := Py.getitem_int bbox 1 in
         let+ b2 := Py.getitem_int bbox 2 in
         let+ b3 := Py.getitem_int bbox 3 in
         Ok (Py.dict_set "ext_bbox"
               (PStr (Py.str b0 +:+ "," +:+ Py.str b1 +:+ "," +:+ Py.str b2 +:+ "," +:+ Py.str b3))
               params)
       else
         let+ has_point := Py.contains "point" spatial_query in
         let+ has_radius := (if has_point then Py.contains "radius" spatial_query else Ok false) in
         if has_point && has_radius then
           let+ point := Py.getitem spatial_query "point" in
           let+ radius := Py.getitem spatial_query "radius" in
           let+ p0 := Py.getitem_int point 0 in
           let+ p1 := Py.getitem_int point 1 in
           Ok (Py.dict_set "ext_spatial"
                 (PStr (Py.str p0 +:+ "," +:+ Py.str p1 +:+ "," +:+ Py.str radius)) params)
         else Ok params
     else Ok params) in
  if Py.truthy date_range then
    let+ start_date := Py.get date_range "start" (PStr "*") in
    let+ end_date := Py.get date_range "end" (PStr "*") in
    let+ date_field := Py.get date_range "field" (PStr "metadata_created") in
    let date_fq := Py.str date_field +:+ ":[" +:+ Py.str start_date +:+ " TO "
                     +:+ Py.str end_date +:+ "]" in
    match Py.dict_get "fq" params with
    | Some fq => Ok (Py.dict_set "fq" (PStr (Py.str fq +:+ " AND " +:+ date_fq)) params)
    | None => Ok (Py.dict_set "fq" (PStr date_fq) params)
    end
  else Ok params.

Definition query_string_of (params : pydict) : string :=
  PyStr.join "&" (map (fun kv => fst kv +:+ "=" +:+ PyStr.quote (Py.str (snd kv))) params).

Definition faceted_search (q facet_fields filters spatial_query date_range : pyval) : M pyval :=
  let* params := lift (faceted_search_params q facet_fields filters spatial_query date_range) in
  _make_request "GET" ("package_search?" +:+ query_string_of params) None true.

(** *** Related datasets *)

(** [[f(x) for x in l]], stopping at the first exception. *)
Fixpoint rmap {A B} (f : A -> result B) (l : list A) : result (list B) :=
  match l with
  | [] => Ok []
  | x :: r => let+ y := f x in let+ ys := rmap f r in Ok (y :: ys)
  end.

(** [[ds for ds in l if ds["id"] != dataset_id]]. *)
Fixpoint drop_source (dataset_id : pyval) (l : list pyval) : result (list pyval) :=
  match l with
  | [] => Ok []
  | ds :: r =>
      let+ id := Py.getitem ds "id" in
      let+ rest := drop_source dataset_id r in
      Ok (if Py.eq id dataset_id then rest else ds :: rest)
  end.

(** The search of [get_related_datasets] and the filter on its results. *)
Definition related_search (dataset_id : pyval) (query_string : string) : M (list pyval) :=
  let* results := _make_request "GET" ("package_search?" +:+ query_string) None true in
  let* found := lift (Py.get results "results" (PList [])) in
  let* found := lift (Py.iter found) in
  lift (drop_source dataset_id found).

Definition get_related_datasets (dataset_id relation_type max_results : pyval) : M pyval :=
  let* source_dataset :=
    _make_request "GET" ("package_show?id=" +:+ Py.str dataset_id) None true in
  let* related_datasets :=
    (if Py.eq_str relation_type "tags" then
       let* tags := lift (Py.get source_dataset "tags" (PList [])) in
       let* tags := lift (Py.iter tags) in
       let* tags := lift (rmap (fun tag => Py.getitem tag "name") tags) in
       match tags with
       | [] => ret []
       | _ =>
           let tag_query := PyStr.join " OR " (map (fun tag => "tags:" +:+ Py.str tag) tags) in
           related_search dataset_id
             ("q=*:*&fq=" +:+ PyStr.quote tag_query +:+ "&rows=" +:+ Py.str max_results)
       end
     else if Py.eq_str relation_type "organization" then
       let* organization := lift (Py.get source_dataset "organization" (PDict [])) in
       let* org := lift (Py.get organization "id" PNone) in
       if Py.truthy org then
         related_search dataset_id
           ("q=organization:" +:+ Py.str org +:+ "&rows=" +:+ Py.str max_results)
       else ret []
     else if Py.eq_str relation_type "theme" then
       let* groups := lift (Py.get source_dataset "groups" (PList [])) in
       if Py.truthy groups then
         let* gs := lift (Py.iter groups) in
         let* ids := lift (rmap (fun g => Py.getitem g "id") gs) in
         let group_query := PyStr.join " OR " (map (fun id => "groups:" +:+ Py.str id) ids) in
         related_search dataset_id
           ("q=*:*&fq=" +:+ PyStr.quote group_query +:+ "&rows=" +:+ Py.str max_results)
       else ret []
     else ret []) in
  let* sliced := lift (Py.slice_to related_datasets max_results) in
  ret (PList sliced).

(** *** Data quality *)

Definition required_fields : list string :=
  ["title"; "notes"; "tags"; "organization"; "resources"]%string.

Definition valid_formats : list string :=
  ["CSV"; "JSON"; "XML"; "XLS"; "XLSX"; "PDF"; "TXT"]%string.

Definition str_list (l : list string) : pyval := PList (map PStr l).

(** [sum(1 for field in required_fields if dataset.get(field))]. *)
Fixpoint count_present (dataset : pyval) (fields : list string) : result Z :=
  match fields with
  | [] => Ok 0
  | field :: r =>
      let+ v := Py.get dataset field PNone in
      let+ n := count_present dataset r in
      Ok (if Py.truthy v then 1 + n else n)
  end.

(** The body of the loop over the resources: 100 or 0. *)
Definition format_score_of (resource : pyval) : result Z :=
  let+ fmt := Py.get resource "format" (PStr "") in
  let+ res_format := Py.upper fmt in
  let is_valid := existsb (String.eqb res_format) valid_formats in
  let+ url := Py.get resource "url" PNone in
  let has_url := Py.truthy url in
  Ok (if is_valid && has_url then 100 else 0).

Definition sum_Z (l : list Z) : Z := fold_right Z.add 0 l.
Definition sum_Q (l : list Q) : Q := fold_right Qplus 0%Q l.

(** [sum(l) / len(l) if l else 0] for a list of integers. *)
Definition mean_or_zero (l : list Z) : pyval :=
  match l with
  | [] => PInt 0
  | _ => PFloat (inject_Z (sum_Z l) / inject_Z (Z.of_nat (length l)))
  end.

(** The number a score stands for. *)
Definition score_value (v : pyval) : Q :=
  match Py.as_number v with Some q => q | None => 0%Q end.

(** Each check yields its score and its entry of [quality_report["checks"]]. *)
Definition completeness_check (dataset : pyval) : result (pyval * pyval) :=
  let+ present_fields := count_present dataset required_fields in
  let completeness_score :=
    PFloat (inject_Z present_fields / inject_Z (Z.of_nat (length required_fields)) * 100) in
  Ok (completeness_score,
      PDict [ ("score", completeness_score);
              ("required_fields", str_list required_fields);
              ("present_fields", PInt present_fields) ]%string).

Definition format_validation_check (dataset : pyval) : result (pyval * pyval) :=
  let+ resources := Py.get dataset "resources" (PList []) in
  let+ each := Py.iter resources in
  let+ format_scores := rmap format_score_of each in
  let format_score := mean_or_zero format_scores in
  let+ resource_count := Py.len resources in
  Ok (format_score,
      PDict [ ("score", format_score);
              ("resource_count", PInt resource_count);
              ("valid_formats", str_list valid_formats) ]%string).

(** [bool(dataset.get(a) or dataset.get(b))]. *)
Definition has_either (dataset : pyval) (a b : string) : result bool :=
  let+ x := Py.get dataset a PNone in
  if Py.truthy x then Ok true
  else let+ y := Py.get dataset b PNone in Ok (Py.truthy y).

Definition count_true (l : list bool) : Z :=
  sum_Z (map (fun b : bool => if b then 1 else 0) l).

Definition schema_compliance_check (dataset : pyval) : result (pyval * pyval) :=
  let+ license_id := Py.get dataset "license_id" PNone in
  let has_license := Py.truthy license_id in
  let+ has_author := has_either dataset "author" "author_email" in
  let+ has_maintainer := has_either dataset "maintainer" "maintainer_email" in
  let+ has_temporal := has_either dataset "temporal_coverage_from" "temporal_coverage_to" in
  let+ spatial := Py.get dataset "spatial" PNone in
  let has_spatial := Py.truthy spatial in
  let compliance_items := [has_license; has_author; has_maintainer; has_temporal; has_spatial] in
  let compliance_score :=
    PFloat (inject_Z (count_true compliance_items)
            / inject_Z (Z.of_nat (length compliance_items)) * 100) in
  Ok (compliance_score,
      PDict [ ("score", compliance_score);
              ("has_license", PBool has_license);
              ("has_author", PBool has_author);
              ("has_maintainer", PBool has_maintainer);
              ("has_temporal_coverage", PBool has_temporal);
              ("has_spatial_coverage", PBool has_spatial) ]%string).

(** One [if name in checks:] block: the entry it adds to
    [quality_report["checks"]] and the score it appends to [scores]. *)
Definition run_check (name : string) (check : pyval -> result (pyval * pyval))
    (checks dataset : pyval) (acc : pydict * list pyval) : result (pydict * list pyval) :=
  let+ wanted := Py.contains name checks in
  if wanted then
    let+ scored := check dataset in
    Ok (Py.dict_set name (snd scored) (fst acc), snd acc ++ [fst scored])
  else Ok acc.

(** [sum(scores) / len(scores) if scores else 0]. *)
Definition overall_of (scores : list pyval) : pyval :=
  match scores with
  | [] => PInt 0
  | _ => PFloat (sum_Q (map score_value scores) / inject_Z (Z.of_nat (length scores)))
  end.

(** The report of [check_data_quality] once the dataset is fetched. *)
Definition quality_report_of (dataset_id checks dataset : pyval) (timestamp : string)
    : result pyval :=
  let checks := match checks with
                | PNone => str_list ["completeness"; "format_validation"; "schema_compliance"]%string
                | _ => checks
                end in
  let+ dataset_name := Py.get dataset "name" PNone in
  let+ acc := run_check "completeness" completeness_check checks dataset ([], []) in
  let+ acc := run_check "format_validation" format_validation_check checks dataset acc in
  let+ acc := run_check "schema_compliance" schema_compliance_check checks dataset acc in
  Ok (PDict [ ("dataset_id", dataset_id);
              ("dataset_name", dataset_name);
              ("timestamp", PStr timestamp);
              ("checks", PDict (fst acc));
              ("overall_score", overall_of (snd acc)) ]%string).

(** [datetime.utcnow().isoformat()]. *)
Definition utcnow_isoformat : M string :=
  fun st => (Ok (utc_isoformat (now (world st))), st).

Definition check_data_quality (dataset_id checks sample_size : pyval) : M pyval :=
  let* dataset :=
    _make_request "GET" ("package_show?id=" +:+ Py.str dataset_id) None true in
  let* timestamp := utcnow_isoformat in
  lift (quality_report_of dataset_id checks dataset timestamp).

(** *** Dataset analytics *)

Definition default_metrics : pyval :=
  str_list ["views"; "downloads"; "api_calls"; "resource_count"]%string.

Definition default_time_range : pyval :=
  PDict [("start", PStr "30_days_ago"); ("end", PStr "now")]%string.

(** One entry of [popular_datasets]. *)
Definition popular_entry (ds : pyval) : result pyval :=
  let+ id := Py.getitem ds "id" in
  let+ name := Py.getitem ds "name" in
  let+ resources := Py.get ds "num_resources" (PInt 0) in
  Ok (PDict [("id", id); ("name", name); ("resources", resources)]%string).

(** [analytics["metrics"]] for the whole site. *)
Definition site_metrics : M pydict :=
  let* site_stats := _make_request "GET" "status_show" None true in
  let* package_list := _make_request "GET" "package_list" None true in
  let* total := lift (Py.len package_list) in
  let* recent :=
    _make_request "GET" "package_search?q=*:*&sort=metadata_created desc&rows=10" None true in
  let* recent_count := lift (Py.get recent "count" (PInt 0)) in
  let* popular :=
    _make_request "GET" "package_search?q=*:*&sort=num_resources desc&rows=10" None true in
  let* results := lift (Py.get popular "results" (PList [])) in
  let* top := lift (Py.slice_val results 5) in
  let* top := lift (Py.iter top) in
  let* entries := lift (rmap popular_entry top) in
  ret [ ("total_datasets", PInt total); ("site_status", site_stats);
        ("recent_datasets", recent_count); ("popular_datasets", PList entries) ]%string.

(** [dataset.get("tracking_summary", {}).get(field, 0)]. *)
Definition tracking (dataset : pyval) (field : string) : result pyval :=
  let+ summary := Py.get dataset "tracking_summary" (PDict []) in
  Py.get summary field (PInt 0).

(** [analytics["metrics"]] for one dataset, once it is fetched. *)
Definition dataset_metrics (metrics dataset : pyval) : result pydict :=
  let m : pydict := [] in
  let+ wanted := Py.contains "resource_count" metrics in
  let+ m := (if wanted then
               let+ resources := Py.get dataset "resources" (PList []) in
               let+ n := Py.len resources in
               Ok (Py.dict_set "resource_count" (PInt n) m)
             else Ok m) in
  let+ wanted := Py.contains "views" metrics in
  let+ m := (if wanted then
               let+ total := tracking dataset "total" in
               Ok (Py.dict_set "views" total m)
             else Ok m) in
  let+ wanted := Py.contains "downloads" metrics in
  let+ m := (if wanted then
               let+ recent := tracking dataset "recent" in
               Ok (Py.dict_set "downloads" recent m)
             else Ok m) in
  let+ created := Py.get dataset "metadata_created" PNone in
  let m := Py.dict_set "created" created m in
  let+ modified := Py.get dataset "metadata_modified" PNone in
  let m := Py.dict_set "modified" modified m in
  let+ tags := Py.get dataset "tags" (PList []) in
  let+ tags_count := Py.len tags in
  let m := Py.dict_set "tags_count" (PInt tags_count) m in
  let+ organization := Py.get dataset "organization" (PDict []) in
  let+ organization_name := Py.get organization "name" PNone in
  Ok (Py.dict_set "organization" organization_name m).

Definition get_dataset_analytics (dataset_id time_range metrics : pyval) : M pyval :=
  let metrics := match metrics with PNone => default_metrics | _ => metrics end in
  let* m :=
    (if Py.eq_str dataset_id "all" then site_metrics
     else
       let* dataset :=
         _make_request "GET" ("package_show?id=" +:+ Py.str dataset_id) None true in
       lift (dataset_metrics metrics dataset)) in
  ret (PDict [ ("dataset_id", dataset_id);
               ("time_range", Py.or_ time_range default_time_range);
               ("metrics", PDict m) ]%string).

(** *** Resource preview *)

Definition field_stat (field : pyval) : result pyval :=
  let+ id := Py.get field "id" PNone in
  let+ type := Py.get field "type" PNone in
  let+ info := Py.get field "info" (PDict []) in
  Ok (PDict [("id", id); ("type", type); ("info", info)]%string).

(** Statements that each assign to [preview] or raise: the dict as the
    last completed statement left it, and the exception that stopped the
    run, if any. *)
Fixpoint run_statements (steps : list (pydict -> result pydict)) (preview : pydict)
    : pydict * option PyExn :=
  match steps with
  | [] => (preview, None)
  | step :: rest =>
      match step preview with
      | Ok preview' => run_statements rest preview'
      | Raise e => (preview, Some e)
      end
  end.

(** The [try] block of [preview_resource]. *)
Definition preview_datastore (resource_id preview_rows generate_stats : pyval)
    (preview : pydict) : State -> (pydict * option PyExn) * State :=
  fun st =>
    match _make_request "GET"
            ("datastore_search?resource_id=" +:+ Py.str resource_id
               +:+ "&limit=" +:+ Py.str preview_rows) None true st with
    | (Raise e, st') => ((preview, Some e), st')
    | (Ok datastore_info, st') =>
        (run_statements
           [ (fun preview =>
                let+ records := Py.get datastore_info "records" (PList []) in
                Ok (Py.dict_set "preview_data" records preview));
             (fun preview =>
                let+ total := Py.get datastore_info "total" (PInt 0) in
                Ok (Py.dict_set "total_records" total preview));
             (fun preview =>
                let+ fields := (if Py.truthy generate_stats
                                then Py.get datastore_info "fields" PNone
                                else Ok (PBool false)) in
                if Py.truthy fields then
                  let+ fields := Py.get datastore_info "fields" (PList []) in
                  let+ each := Py.iter fields in
                  let+ fields_stats := rmap field_stat each in
                  Ok (Py.dict_set "field_statistics" (PList fields_stats) preview)
                else Ok preview) ]
           preview, st')
    end.

Definition datastore_note : string := "DataStore not available for this resource".

Definition preview_resource (resource_id preview_rows generate_stats : pyval) : M pyval :=
  let* resource :=
    _make_request "GET" ("resource_show?id=" +:+ Py.str resource_id) None true in
  let* name := lift (Py.get resource "name" PNone) in
  let* format := lift (Py.get resource "format" PNone) in
  let* url := lift (Py.get resource "url" PNone) in
  let* size := lift (Py.get resource "size" PNone) in
  let* created := lift (Py.get resource "created" PNone) in
  let* last_modified := lift (Py.get resource "last_modified" PNone) in
  let preview : pydict :=
    [ ("resource_id", resource_id); ("resource_name", name); ("format", format);
      ("url", url); ("size", size); ("created", created);
      ("last_modified", last_modified) ]%string in
  fun st =>
    match preview_datastore resource_id preview_rows generate_stats preview st with
    | ((preview, None), st') => (Ok (PDict preview), st')
    | ((preview, Some _), st') =>
        (Ok (PDict (Py.dict_set "note" (PStr datastore_note)
                      (Py.dict_set "preview_data" PNone preview))), st')
    end.

(** *** Metadata export *)

Definition tag_names (dataset : pyval) : result pyval :=
  let+ tags := Py.get dataset "tags" (PList []) in
  let+ each := Py.iter tags in
  let+ names := rmap (fun tag => Py.getitem tag "name") each in
  Ok (PList names).

Definition organization_name (dataset : pyval) : result pyval :=
  let+ organization := Py.get dataset "organization" (PDict []) in
  Py.get organization "name" PNone.

(** The distributions of a dataset, one per resource, with the given
    [@type] and the given (key, resource field) pairs. *)
Definition distributions (dataset : pyval) (type : string) (fields : list (string * string))
    : result pyval :=
  let+ resources := Py.get dataset "resources" (PList []) in
  let+ each := Py.iter resources in
  let+ ds := rmap (fun resource =>
                     let+ values := rmap (fun kf => let+ v := Py.get resource (snd kf) PNone in
                                                    Ok (fst kf, v)) fields in
                     Ok (PDict (("@type"%string, PStr type) :: values))) each in
  Ok (PList ds).

Definition dcat_dataset_of (dataset : pyval) (include_resources : pyval) : result pyval :=
  let+ id := Py.get dataset "id" PNone in
  let+ title := Py.get dataset "title" PNone in
  let+ notes := Py.get dataset "notes" PNone in
  let+ keyword := tag_names dataset in
  let+ issued := Py.get dataset "metadata_created" PNone in
  let+ modified := Py.get dataset "metadata_modified" PNone in
  let+ publisher := organization_name dataset in
  let dcat_dataset : pydict :=
    [ ("@type", PStr "dcat:Dataset"); ("dct:identifier", id); ("dct:title", title);
      ("dct:description", notes); ("dcat:keyword", keyword); ("dct:issued", issued);
      ("dct:modified", modified);
      ("dct:publisher", PDict [("@type", PStr "foaf:Organization"); ("foaf:name", publisher)]) ]%string in
  if Py.truthy include_resources then
    let+ ds := distributions dataset "dcat:Distribution"
                 [ ("dct:identifier", "id"); ("dct:title", "name"); ("dcat:accessURL", "url");
                   ("dct:format", "format"); ("dcat:byteSize", "size") ]%string in
    Ok (PDict (Py.dict_set "dcat:distribution" ds dcat_dataset))
  else Ok (PDict dcat_dataset).

Definition schema_dataset_of (dataset : pyval) (include_resources : pyval) : result pyval :=
  let+ title := Py.get dataset "title" PNone in
  let+ notes := Py.get dataset "notes" PNone in
  let+ id := Py.get dataset "id" PNone in
  let+ keywords := tag_names dataset in
  let+ created := Py.get dataset "metadata_created" PNone in
  let+ modified := Py.get dataset "metadata_modified" PNone in
  let+ publisher := organization_name dataset in
  let schema_dataset : pydict :=
    [ ("@context", PStr "https://schema.org/"); ("@type", PStr "Dataset"); ("name", title);
      ("description", notes); ("identifier", id); ("keywords", keywords);
      ("dateCreated", created); ("dateModified", modified);
      ("publisher", PDict [("@type", PStr "Organization"); ("name", publisher)]) ]%string in
  if Py.truthy include_resources then
    let+ ds := distributions dataset "DataDownload"
                 [ ("name", "name"); ("contentUrl", "url"); ("encodingFormat", "format");
                   ("contentSize", "size") ]%string in
    Ok (PDict (Py.dict_set "distribution" ds schema_dataset))
  else Ok (PDict schema_dataset).

(** The loop of [export_metadata] over the dataset ids. *)
Fixpoint export_each (ids : list pyval) (export_format include_resources : pyval)
    (datasets : list pyval) : M (list pyval) :=
  match ids with
  | [] => ret datasets
  | dataset_id :: rest =>
      let* dataset :=
        _make_request "GET" ("package_show?id=" +:+ Py.str dataset_id) None true in
      let* datasets :=
        (if Py.eq_str export_format "dcat" then
           let* d := lift (dcat_dataset_of dataset include_resources) in
           ret (datasets ++ [d])
         else if Py.eq_str export_format "schema_org" then
           let* d := lift (schema_dataset_of dataset include_resources) in
           ret (datasets ++ [d])
         else if Py.eq_str export_format "ckan_native" then ret (datasets ++ [dataset])
         else ret datasets) in
      export_each rest export_format include_resources datasets
  end.

Definition export_metadata (dataset_ids export_format include_resources : pyval) : M pyval :=
  let* timestamp := utcnow_isoformat in
  let* ids := lift (Py.iter dataset_ids) in
  let* datasets := export_each ids export_format include_resources [] in
  ret (PDict [ ("export_format", export_format);
               ("timestamp", PStr timestamp);
               ("datasets", PList datasets) ]%string).

End Client.

(** ** The response envelope *)

(** [StandardResponse]. *)
Record StandardResponse := {
  success : bool;
  data : pyval;
  error : pyval;
  metadata : pydict
}.

Section Envelope.
Context `{PyRuntime}.

(** [StandardResponse(success, data, error)] built at clock reading [t]. *)
Definition StandardResponse_init (t : Q) (success : bool) (data error : pyval)
    : StandardResponse :=
  {| success := success; data := data; error := error;
     metadata := [ ("timestamp", PStr (utc_isoformat t));
                   ("execution_time_ms", PInt 0);
                   ("api_version", PStr "2.0.0") ]%string |}.

(** [int(x)] for a float: rounds toward zero. *)
Definition int_of_Q (x : Q) : Z := Z.quot (Qnum x) (Zpos (Qden x)).

(** [response.metadata["execution_time_ms"] = int((time.time() - start_time) * 1000)]. *)
Definition set_execution_time (r : StandardResponse) (start_time t : Q) : StandardResponse :=
  {| success := success r; data := data r; error := error r;
     metadata := Py.dict_set "execution_time_ms"
                   (PInt (int_of_Q ((t - start_time) * 1000))) (metadata r) |}.

Definition to_dict (r : StandardResponse) : pydict :=
  let result : pydict :=
    [("success", PBool (success r)); ("metadata", PDict (metadata r))]%string in
  let result := match data r with
                | PNone => result
                | d => Py.dict_set "data" d result
                end in
  if Py.truthy (error r) then Py.dict_set "error" (error r) result else result.

End Envelope.

(** ** The tool dispatcher *)

(** [types.TextContent]. *)
Record TextContent := { type : string; text : string }.

(** The module-level state: the global [ckan_client] and the world. *)
Record Server := { ckan_client : option CKANAPIClient; outside : World }.

Section Dispatcher.
Context `{PyRuntime}.

(** The query string the raw search and tag tools build from their
    arguments, leaving out the [None] values. *)
Definition raw_query_string (params : pyval) : result string :=
  let+ items := Py.items params in
  let query_params :=
    flat_map (fun kv => match snd kv with
                        | PNone => []
                        | value => [fst kv +:+ "=" +:+ Py.str value]
                        end) items in
  Ok (PyStr.join "&" query_params).

(** [arguments.get(k, default) if arguments else default]. *)
Definition get_if_any (arguments : pyval) (k : string) (default : pyval) : result pyval :=
  if Py.truthy arguments then Py.get arguments k default else Ok default.

Definition GET (endpoint : string) : M pyval := _make_request "GET" endpoint None true.

(** The [if name == ...] chain of [handle_call_tool]. *)
Definition dispatch (name : string) (arguments : pyval) : M pyval :=
  if String.eqb name "ckan_package_list" then
    let* limit := lift (get_if_any arguments "limit" (PInt 100)) in
    let* offset := lift (get_if_any arguments "offset" (PInt 0)) in
    GET ("package_list?limit=" +:+ Py.str limit +:+ "&offset=" +:+ Py.str offset)
  else if String.eqb name "ckan_package_show" then
    let* package_id := lift (Py.getitem arguments "id") in
    GET ("package_show?id=" +:+ Py.str package_id)
  else if String.eqb name "ckan_package_search" then
    let* query_string := lift (raw_query_string (Py.or_ arguments (PDict []))) in
    GET ("package_search?" +:+ query_string)
  else if String.eqb name "ckan_organization_list" then
    let* all_fields := lift (get_if_any arguments "all_fields" (PBool false)) in
    GET ("organization_list?all_fields=" +:+ Py.str all_fields)
  else if String.eqb name "ckan_organization_show" then
    let* org_id := lift (Py.getitem arguments "id") in
    let* include_datasets := lift (Py.get arguments "include_datasets" (PBool false)) in
    GET ("organization_show?id=" +:+ Py.str org_id
           +:+ "&include_datasets=" +:+ Py.str include_datasets)
  else if String.eqb name "ckan_group_list" then
    let* all_fields := lift (get_if_any arguments "all_fields" (PBool false)) in
    GET ("group_list?all_fields=" +:+ Py.str all_fields)
  else if String.eqb name "ckan_tag_list" then
    let* query_string := lift (raw_query_string (Py.or_ arguments (PDict []))) in
    GET (if String.eqb query_string "" then "tag_list" else "tag_list?" +:+ query_string)
  else if String.eqb name "ckan_resource_show" then
    let* resource_id := lift (Py.getitem arguments "id") in
    GET ("resource_show?id=" +:+ Py.str resource_id)
  else if String.eqb name "ckan_site_read" then GET "site_read"
  else if String.eqb name "ckan_status_show" then GET "status_show"
  else if String.eqb name "ckan_faceted_search" then
    let* q := lift (Py.get arguments "q" (PStr "*:*")) in
    let* facet_fields := lift (Py.get arguments "facet_fields" PNone) in
    let* filters := lift (Py.get arguments "filters" PNone) in
    let* spatial_query := lift (Py.get arguments "spatial_query" PNone) in
    let* date_range := lift (Py.get arguments "date_range" PNone) in
    faceted_search q facet_fields filters spatial_query date_range
  else if String.eqb name "ckan_related_datasets" then
    let* dataset_id := lift (Py.getitem arguments "dataset_id") in
    let* relation_type := lift (Py.get arguments "relation_type" (PStr "tags")) in
    let* max_results := lift (Py.get arguments "max_results" (PInt 10)) in
    get_related_datasets dataset_id relation_type max_results
  else if String.eqb name "ckan_data_quality_check" then
    let* dataset_id := lift (Py.getitem arguments "dataset_id") in
    let* checks := lift (Py.get arguments "checks" PNone) in
    let* sample_size := lift (Py.get arguments "sample_size" (PInt 100)) in
    check_data_quality dataset_id checks sample_size
  else if String.eqb name "ckan_dataset_analytics" then
    let* dataset_id := lift (Py.get arguments "dataset_id" (PStr "all")) in
    let* time_range := lift (Py.get arguments "time_range" PNone) in
    let* metrics := lift (Py.get arguments "metrics" PNone) in
    get_dataset_analytics dataset_id time_range metrics
  else if String.eqb name "ckan_resource_preview" then
    let* resource_id := lift (Py.getitem arguments "resource_id") in
    let* preview_rows := lift (Py.get arguments "preview_rows" (PInt 10)) in
    let* generate_stats := lift (Py.get arguments "generate_stats" (PBool true)) in
    preview_resource resource_id preview_rows generate_stats
  else if String.eqb name "ckan_metadata_exporter" then
    let* dataset_ids := lift (Py.getitem arguments "dataset_ids") in
    let* export_format := lift (Py.get arguments "export_format" (PStr "dcat")) in
    let* include_resources := lift (Py.get arguments "include_resources" (PBool true)) in
    export_metadata dataset_ids export_format include_resources
  else raise (Exception_ ("Unknown tool: " +:+ name)).

(** The classification of the [except] clause, on [str(e).lower()]. *)
Definition classify (message : string) : MCPErrorType :=
  let m := PyStr.lower message in
  if PyStr.contains "not found" m then DATA_NOT_FOUND
  else if PyStr.contains "permission" m || PyStr.contains "unauthorized" m then PERMISSION_DENIED
  else if PyStr.contains "network" m || PyStr.contains "connection" m then NETWORK_ERROR
  else if PyStr.contains "invalid" m || PyStr.contains "parameter" m then INVALID_PARAMS
  else CKAN_API_ERROR.

Definition args_value (arguments : option pydict) : pyval :=
  match arguments with
  | Some d => PDict d
  | None => PNone
  end.

Definition not_initialized : string :=
  "CKAN client not initialized. Please set CKAN_URL environment variable.".

(** The envelope [handle_call_tool] builds, before it is serialized. *)
Definition call_tool_response (name : string) (arguments : option pydict) (srv : Server)
    : StandardResponse * Server :=
  match ckan_client srv with
  | None =>
      (StandardResponse_init (now (outside srv)) false PNone
         (PDict [ ("type", PStr (MCPErrorType_value CKAN_API_ERROR));
                  ("message", PStr not_initialized) ]%string),
       srv)
  | Some c =>
      let start_time := now (outside srv) in
      match dispatch name (args_value arguments) {| client := c; world := outside srv |} with
      | (Ok result, st) =>
          let t := now (world st) in
          let response := StandardResponse_init t true result PNone in
          (set_execution_time response start_time t,
           {| ckan_client := Some (client st); outside := world st |})
      | (Raise e, st) =>
          let t := now (world st) in
          let error_type := classify (exn_msg e) in
          let error_response :=
            StandardResponse_init t false PNone
              (PDict [ ("type", PStr (MCPErrorType_value error_type));
                       ("message", PStr (exn_msg e));
                       ("tool", PStr name);
                       ("arguments", args_value arguments) ]%string) in
          (set_execution_time error_response start_time t,
           {| ckan_client := Some (client st); outside := world st |})
      end
  end.

(** [handle_call_tool]: the envelope as indented JSON text; a success is
    written with [ensure_ascii=False], a failure with the default. *)
Definition handle_call_tool (name : string) (arguments : option pydict) (srv : Server)
    : list TextContent * Server :=
  let '(response, srv') := call_tool_response name arguments srv in
  ([ {| type := "text";
        text := Py.json_encode (negb (success response)) false (Some 2%nat) 0
                  (PDict (to_dict response)) |} ],
   srv').

End Dispatcher.

(** ** The command-line explorer ([ckan_cli.py]) *)

Module CKANExplorer.
Section Explorer.
Context `{PyRuntime}.

(** [fq_parts] of [search_packages]. *)
Definition fq_parts (organization tags : option string) : list string :=
  (match organization with
   | Some o => if String.eqb o "" then [] else ["organization:" +:+ o]
   | None => []
   end)
  ++
  (match tags with
   | Some t => if String.eqb t "" then []
               else map (fun tag => "tags:" +:+ PyStr.strip tag) (PyStr.split "," t)
   | None => []
   end).

(** [fq]: [None] when no filter was given. *)
Definition fq (organization tags : option string) : option string :=
  match fq_parts organization tags with
  | [] => None
  | parts => Some (PyStr.join " AND " parts)
  end.

Definition search_packages (query : string) (rows : Z) (organization tags : option string)
    : M pyval :=
  let params : pydict := [("q", PStr query); ("rows", PInt rows)]%string in
  let params := match fq organization tags with
                | Some f => if String.eqb f "" then params
                            else Py.dict_set "fq" (PStr f) params
                | None => params
                end in
  let query_string :=
    PyStr.join "&" (map (fun kv => fst kv +:+ "=" +:+ Py.str (snd kv)) params) in
  _make_request "GET" ("package_search?" +:+ query_string) None true.

Definition get_package_details (package_id : string) : M pyval :=
  _make_request "GET" ("package_show?id=" +:+ package_id) None true.

Definition get_resource_details (resource_id : string) : M pyval :=
  _make_request "GET" ("resource_show?id=" +:+ resource_id) None true.

Definition list_organization_datasets (org_id : string) : M pyval :=
  _make_request "GET" ("organization_show?id=" +:+ org_id +:+ "&include_datasets=true")
    None true.

Definition get_statistics : M pyval :=
  let stats : pydict := [] in
  let* search := _make_request "GET" "package_search?q=*:*&rows=1" None true in
  let* count := lift (Py.get search "count" (PInt 0)) in
  let stats := Py.dict_set "total_packages" count stats in
  let* orgs := _make_request "GET" "organization_list" None true in
  let* total_organizations := lift (Py.len orgs) in
  let stats := Py.dict_set "total_organizations" (PInt total_organizations) stats in
  let* tags := _make_request "GET" "tag_list" None true in
  let* total_tags := lift (Py.len tags) in
  let stats := Py.dict_set "total_tags" (PInt total_tags) stats in
  let* site := _make_request "GET" "status_show" None true in
  let* ckan_version := lift (Py.get site "ckan_version" (PStr "Unknown")) in
  ret (PDict (Py.dict_set "ckan_version" ckan_version stats)).

End Explorer.
End CKANExplorer.

(** ** The tools the server declares *)

(** [types.Tool]: the name, the description and the JSON schema of the
    arguments. *)
Record Tool := { tool_name : string; tool_description : string; inputSchema : pyval }.

(** [handle_list_tools]. *)
Definition handle_list_tools : list Tool :=
[
  {| tool_name := "ckan_package_list";
     tool_description := "Get list of all packages (datasets) in CKAN (unsorted)";
     inputSchema :=
       PDict
       [ ("type", PStr "object");
         ("properties", PDict
         [ ("limit", PDict [("type", PStr "integer"); ("description", PStr "Maximum number of packages to return"); ("default", PInt 100)]);
           ("offset", PDict [("type", PStr "integer"); ("description", PStr "Offset for pagination"); ("default", PInt 0)]) ]) ] |};
  {| tool_name := "ckan_package_show";
     tool_description := "Get details of a specific package/dataset (like dates)";
     inputSchema :=
       PDict
       [ ("type", PStr "object");
         ("properties", PDict
         [ ("id", PDict [("type", PStr "string"); ("description", PStr "Package ID or name")]) ]);
         ("required", PList [PStr "id"]) ] |};
  {| tool_name := "ckan_package_search";
     tool_description := "Search for packages using queries";
     inputSchema :=
       PDict
       [ ("type", PStr "object");
         ("properties", PDict
         [ ("q", PDict [("type", PStr "string"); ("description", PStr "Search query"); ("default", PStr "*:*")]);
           ("fq", PDict [("type", PStr "string"); ("description", PStr "Filter query")]);
           ("sort", PDict [("type", PStr "string"); ("description", PStr "Sort field and direction (e.g., 'score desc')")]);
           ("rows", PDict [("type", PStr "integer"); ("description", PStr "Number of results to return"); ("default", PInt 10)]);
           ("start", PDict [("type", PStr "integer"); ("description", PStr "Offset for pagination"); ("default", PInt 0)]) ]) ] |};
  {| tool_name := "ckan_organization_list";
     tool_description := "Get list of all organizations";
     inputSchema :=
       PDict
       [ ("type", PStr "object");
         ("properties", PDict
         [ ("all_fields", PDict [("type", PStr "boolean"); ("description", PStr "Include all organization fields"); ("default", PBool false)]) ]) ] |};
  {| tool_name := "ckan_organization_show";
     tool_description := "Get details of a specific organization";
     inputSchema :=
       PDict
       [ ("type", PStr "object");
         ("properties", PDict
         [ ("id", PDict [("type", PStr "string"); ("description", PStr "Organization ID or name")]);
           ("include_datasets", PDict [("type", PStr "boolean"); ("description", PStr "Include organization's datasets"); ("default", PBool false)]) ]);
         ("required", PList [PStr "id"]) ] |};
  {| tool_name := "ckan_group_list";
     tool_description := "Get list of all groups";
     inputSchema :=
       PDict
       [ ("type", PStr "object");
         ("properties", PDict
         [ ("all_fields", PDict [("type", PStr "boolean"); ("description", PStr "Include all group fields"); ("default", PBool false)]) ]) ] |};
  {| tool_name := "ckan_tag_list";
     tool_description := "Get list of all tags";
     inputSchema :=
       PDict
       [ ("type", PStr "object");
         ("properties", PDict
         [ ("vocabulary_id", PDict [("type", PStr "string"); ("description", PStr "Vocabulary ID to filter tags")]) ]) ] |};
  {| tool_name := "ckan_resource_show";
     tool_description := "Get details of a specific resource";
     inputSchema :=
       PDict
       [ ("type", PStr "object");
         ("properties", PDict
         [ ("id", PDict [("type", PStr "string"); ("description", PStr "Resource ID")]) ]);
         ("required", PList [PStr "id"]) ] |};
  {| tool_name := "ckan_site_read";
     tool_description := "Get site information and statistics";
     inputSchema :=
       PDict
       [ ("type", PStr "object");
         ("properties", PDict []) ] |};
  {| tool_name := "ckan_status_show";
     tool_description := "Get CKAN site status and version information";
     inputSchema :=
       PDict
       [ ("type", PStr "object");
         ("properties", PDict []) ] |};
  {| tool_name := "ckan_faceted_search";
     tool_description := "Advanced search with faceting for refined data discovery";
     inputSchema :=
       PDict
       [ ("type", PStr "object");
         ("properties", PDict
         [ ("q", PDict [("type", PStr "string"); ("description", PStr "Search query"); ("default", PStr "*:*")]);
           ("facet_fields", PDict
           [ ("type", PStr "array");
             ("items", PDict [("type", PStr "string")]);
             ("description", PStr "Fields to facet on (tags, organizations, formats)") ]);
           ("filters", PDict [("type", PStr "object"); ("description", PStr "Filter conditions as field:value pairs")]);
           ("spatial_query", PDict [("type", PStr "object"); ("description", PStr "Geographic search with bbox or point+radius")]);
           ("date_range", PDict [("type", PStr "object"); ("description", PStr "Temporal filtering with start/end dates")]) ]) ] |};
  {| tool_name := "ckan_related_datasets";
     tool_description := "Find datasets related to a given dataset";
     inputSchema :=
       PDict
       [ ("type", PStr "object");
         ("properties", PDict
         [ ("dataset_id", PDict [("type", PStr "string"); ("description", PStr "Source dataset ID")]);
           ("relation_type", PDict
           [ ("type", PStr "string");
             ("enum", PList [PStr "tags"; PStr "theme"; PStr "organization"]);
             ("description", PStr "Type of relationship");
             ("default", PStr "tags") ]);
           ("max_results", PDict [("type", PStr "integer"); ("description", PStr "Maximum results"); ("default", PInt 10)]) ]);
         ("required", PList [PStr "dataset_id"]) ] |};
  {| tool_name := "ckan_data_quality_check";
     tool_description := "Analyze data quality metrics for datasets";
     inputSchema :=
       PDict
       [ ("type", PStr "object");
         ("properties", PDict
         [ ("dataset_id", PDict [("type", PStr "string"); ("description", PStr "Dataset to analyze")]);
           ("checks", PDict
           [ ("type", PStr "array");
             ("items", PDict
             [ ("type", PStr "string");
               ("enum", PList [PStr "completeness"; PStr "format_validation"; PStr "schema_compliance"]) ]);
             ("description", PStr "Quality checks to perform") ]);
           ("sample_size", PDict [("type", PStr "integer"); ("description", PStr "Records to sample"); ("default", PInt 100)]) ]);
         ("required", PList [PStr "dataset_id"]) ] |};
  {| tool_name := "ckan_dataset_analytics";
     tool_description := "Generate analytics about dataset usage and engagement";
     inputSchema :=
       PDict
       [ ("type", PStr "object");
         ("properties", PDict
         [ ("dataset_id", PDict [("type", PStr "string"); ("description", PStr "Dataset ID or 'all'"); ("default", PStr "all")]);
           ("time_range", PDict [("type", PStr "object"); ("description", PStr "Analytics time period")]);
           ("metrics", PDict
           [ ("type", PStr "array");
             ("items", PDict [("type", PStr "string")]);
             ("description", PStr "Metrics to calculate") ]) ]) ] |};
  {| tool_name := "ckan_resource_preview";
     tool_description := "Generate preview and summary statistics for resources";
     inputSchema :=
       PDict
       [ ("type", PStr "object");
         ("properties", PDict
         [ ("resource_id", PDict [("type", PStr "string"); ("description", PStr "Resource ID")]);
           ("preview_rows", PDict [("type", PStr "integer"); ("description", PStr "Rows to preview"); ("default", PInt 10)]);
           ("generate_stats", PDict [("type", PStr "boolean"); ("description", PStr "Generate statistics"); ("default", PBool true)]) ]);
         ("required", PList [PStr "resource_id"]) ] |};
  {| tool_name := "ckan_metadata_exporter";
     tool_description := "Export metadata in various standards (DCAT, Schema.org)";
     inputSchema :=
       PDict
       [ ("type", PStr "object");
         ("properties", PDict
         [ ("dataset_ids", PDict
           [ ("type", PStr "array");
             ("items", PDict [("type", PStr "string")]);
             ("description", PStr "Dataset IDs to export") ]);
           ("export_format", PDict
           [ ("type", PStr "string");
             ("enum", PList [PStr "dcat"; PStr "schema_org"; PStr "ckan_native"]);
             ("description", PStr "Export format");
             ("default", PStr "dcat") ]);
           ("include_resources", PDict [("type", PStr "boolean"); ("description", PStr "Include resources"); ("default", PBool true)]) ]);
         ("required", PList [PStr "dataset_ids"]) ] |}
]%string.

(** [main] of the server, up to the point where it starts to serve: the
    client it builds from [CKAN_URL] and [CKAN_API_KEY], with its session
    open. *)
Definition main (ckan_url ckan_api_key : option string) : result CKANAPIClient :=
  match ckan_url with
  | None => Raise (Exception_ "CKAN_URL environment variable is required")
  | Some url =>
      if String.eqb url "" then Raise (Exception_ "CKAN_URL environment variable is required")
      else Ok (__aenter__ (__init__ url ckan_api_key))
  end.

(** ** Sizes as the command line prints them ([ckan_cli.py]) *)

(** The nearest integer, a tie going to the even one. *)
Definition round_half_even (x : Q) : Z :=
  let n := Qnum x in
  let d := Zpos (Qden x) in
  let q := (n / d)%Z in
  let r := (n mod d)%Z in
  if (2 * r <? d)%Z then q
  else if (d <? 2 * r)%Z then (q + 1)%Z
  else if Z.even q then q else (q + 1)%Z.

(** [f"{x:.2f}"] of a number that binary64 holds exactly: the two decimals
    are those of the nearest hundredth of the exact value. *)
Definition fixed2 (x : Q) : string :=
  let c := round_half_even ((if Qltb x 0 then - x else x) * 100) in
  (if Qltb x 0 then "-" else "")
    +:+ PyStr.of_Z (c / 100) +:+ "."
    +:+ PyStr.of_Z (c mod 100 / 10) +:+ PyStr.of_Z (c mod 10).

(** The loop of [format_size] over the units, and the [return] after it. *)
Fixpoint scale_size (units : list string) (size_bytes : Q) : string :=
  match units with
  | [] => fixed2 size_bytes +:+ " TB"
  | unit :: rest =>
      if Qltb size_bytes 1024 then fixed2 size_bytes +:+ " " +:+ unit
      else scale_size rest (size_bytes / 1024)
  end.

(** [format_size]; a size that is no number stops at the comparison. *)
Definition format_size (size_bytes : pyval) : result string :=
  if negb (Py.truthy size_bytes) then Ok "Unknown"%string
  else match Py.as_number size_bytes with
       | Some x => Ok (scale_size ["B"; "KB"; "MB"; "GB"]%string x)
       | None => Py.type_error ("'<' not supported between instances of "
                                  +:+ Py.quot_ (Py.type_name size_bytes) +:+ " and 'float'")
       end.

(** ** Vocabulary of the statements *)

Section Vocabulary.
Context `{PyRuntime}.

(** The request [_make_request] sends for an endpoint. *)
Definition request_of (st : State) (method endpoint : string) (data : option pydict)
    : Request :=
  {| req_method := method;
     req_url := urljoin (base_url (client st) +:+ "/api/3/action/") endpoint;
     req_headers := _get_headers (client st);
     req_json := data |}.

(** The portal answers [rq], sent in state [st], with its success
    envelope around [payload]. *)
Definition answers_with (st : State) (rq : Request) (payload : pyval) : Prop :=
  exists body elapsed flag,
    portal (world st) (now (world st)) rq = (ReplyJson (PDict body), elapsed) /\
    Py.dict_get "success" body = Some flag /\
    Py.truthy flag = true /\
    payload = match Py.dict_get "result" body with
              | Some r => r
              | None => PDict []
              end.

End Vocabulary.

Definition Qsame (x y : Q) : bool :=
  (Qnum x =? Qnum y)%Z && (Qden x =? Qden y)%positive.

(** Two values are the same JSON when they differ at most in the order in
    which their dicts list their keys. *)
Fixpoint same_json (a b : pyval) {struct a} : bool :=
  match a, b with
  | PNone, PNone => true
  | PBool x, PBool y => Bool.eqb x y
  | PInt x, PInt y => (x =? y)%Z
  | PFloat x, PFloat y => Qsame x y
  | PStr s, PStr t => String.eqb s t
  | PList la, PList lb =>
      (fix go (la lb : list pyval) {struct la} : bool :=
         match la, lb with
         | [], [] => true
         | x :: xs, y :: ys => same_json x y && go xs ys
         | _, _ => false
         end) la lb
  | PDict da, PDict db =>
      Nat.eqb (length da) (length db) &&
      forallb (fun kv => match kv with
                         | (k, v) => match Py.dict_get k db with
                                     | Some w => same_json v w
                                     | None => false
                                     end
                         end) da
  | _, _ => false
  end.

Fixpoint no_repeat (l : list string) : bool :=
  match l with
  | [] => true
  | k :: r => negb (existsb (String.eqb k) r) && no_repeat r
  end.

(** Every dict inside the value has pairwise distinct keys, as every Python
    dict has. *)
Fixpoint distinct_keys (v : pyval) : bool :=
  match v with
  | PList l => forallb distinct_keys l
  | PDict d => no_repeat (map fst d) && forallb (fun kv => distinct_keys (snd kv)) d
  | _ => true
  end.

(** The text has no colon. *)
Definition no_colon (s : string) : bool := negb (Py.has_char ":"%char s).

Definition five_kinds : list MCPErrorType :=
  [INVALID_PARAMS; CKAN_API_ERROR; NETWORK_ERROR; PERMISSION_DENIED; DATA_NOT_FOUND].

(** The filter clause of a [params] dict. *)
Definition fq_of (params : result pydict) : result (option pyval) :=
  let+ p := params in Ok (Py.dict_get "fq" p).

(** The metrics of an analytics report. *)
Definition metrics_of (report : pyval) : option pyval :=
  match report with
  | PDict d => Py.dict_get "metrics" d
  | _ => None
  end.

(** The entry of a metric in an analytics report. *)
Definition metric_of (name : string) (report : pyval) : option pyval :=
  match metrics_of report with
  | Some (PDict m) => Py.dict_get name m
  | _ => None
  end.

(** A score between 0 and 100. *)
Definition in_range (v : pyval) : Prop :=
  exists q, Py.as_number v = Some q /\ (0 <= q)%Q /\ (q <= 100)%Q.

(** [report["checks"]] and [report["overall_score"]] of a quality report. *)
Definition report_checks (report : pyval) : option pydict :=
  match report with
  | PDict r => match Py.dict_get "checks" r with
               | Some (PDict entries) => Some entries
               | _ => None
               end
  | _ => None
  end.

Definition report_overall (report : pyval) : option pyval :=
  match report with
  | PDict r => Py.dict_get "overall_score" r
  | _ => None
  end.

(** [report["checks"][name]["score"]]. *)
Definition check_score (name : string) (report : pyval) : option pyval :=
  match report_checks report with
  | Some entries => match Py.dict_get name entries with
                    | Some (PDict entry) => Py.dict_get "score" entry
                    | _ => None
                    end
  | None => None
  end.

(** The checks a call runs: the three of them when [checks] is [None]. *)
Definition requested_checks (checks : pyval) : pyval :=
  match checks with
  | PNone => PList [PStr "completeness"; PStr "format_validation"; PStr "schema_compliance"]
  | _ => checks
  end.

(** What a check yields: a score in range, written in its entry. *)
Definition sound_check (check : pyval -> result (pyval * pyval)) : Prop :=
  forall dataset score entry,
    check dataset = Ok (score, entry) ->
    in_range score /\ Py.getitem entry "score" = Ok score.

(** What holds of the entries and the scores gathered so far. *)
Definition sound_so_far (acc : pydict * list pyval) : Prop :=
  (forall name entry, In (name, entry) (fst acc) ->
                      exists score, Py.getitem entry "score" = Ok score /\ in_range score) /\
  Forall in_range (snd acc).

(** The value of a field of a resource, [None] when it is missing. *)
Definition field_or_none (k : string) (fields : pydict) : pyval :=
  match Py.dict_get k fields with
  | Some v => v
  | None => PNone
  end.

(** The preview of a resource whose datastore query failed. *)
Definition degraded_preview (resource_id : pyval) (fields : pydict) : pyval :=
  PDict [ ("resource_id", resource_id);
          ("resource_name", field_or_none "name" fields);
          ("format", field_or_none "format" fields);
          ("url", field_or_none "url" fields);
          ("size", field_or_none "size" fields);
          ("created", field_or_none "created" fields);
          ("last_modified", field_or_none "last_modified" fields);
          ("preview_data", PNone);
          ("note", PStr datastore_note) ]%string.

(** The test of the comprehension [ds["id"] != dataset_id]. *)
Definition not_source (dataset_id ds : pyval) : bool :=
  match Py.getitem ds "id" with
  | Ok id => negb (Py.eq id dataset_id)
  | Raise _ => false
  end.

(** ** Induction on values *)

Section PyvalInduction.
Variable P : pyval -> Prop.
Hypothesis HNone : P PNone.
Hypothesis HBool : forall b, P (PBool b).
Hypothesis HInt : forall z, P (PInt z).
Hypothesis HFloat : forall q, P (PFloat q).
Hypothesis HStr : forall s, P (PStr s).
Hypothesis HList : forall l, Forall P l -> P (PList l).
Hypothesis HDict : forall d, Forall (fun kv => P (snd kv)) d -> P (PDict d).

(** Induction on a value with the hypothesis on every element of a list
    and every value of a dict. *)
Fixpoint pyval_nested_ind (v : pyval) : P v :=
  match v with
  | PNone => HNone
  | PBool b => HBool b
  | PInt z => HInt z
  | PFloat q => HFloat q
  | PStr s => HStr s
  | PList l =>
      HList l ((fix go (l : list pyval) : Forall P l :=
                  match l with
                  | [] => @List.Forall_nil _ P
                  | x :: r => @List.Forall_cons _ P x r (pyval_nested_ind x) (go r)
                  end) l)
  | PDict d =>
      HDict d ((fix go (d : pydict) : Forall (fun kv => P (snd kv)) d :=
                  match d with
                  | [] => @List.Forall_nil _ _
                  | kv :: r => @List.Forall_cons _ _ kv r (pyval_nested_ind (snd kv)) (go r)
                  end) d)
  end.
End PyvalInduction.


(** ** Sample portals for the worked examples *)

(** A runtime for the worked examples: a float prints as a fraction and
    every clock reading as the same instant. *)
Definition sample_runtime : PyRuntime :=
  {| float_repr := fun q => PyStr.of_Z (Qnum q) +:+ "/" +:+ PyStr.of_Z (Zpos (Qden q));
     utc_isoformat := fun _ => "2024-01-01T00:00:00"%string |}.

(** The portal's success envelope around a payload. *)
Definition success_envelope (payload : pyval) : pyval :=
  PDict [("success", PBool true); ("result", payload)]%string.

Definition sample_client : CKANAPIClient :=
  __aenter__ (__init__ "https://demo.ckan.org/" None).

Definition status_payload : pyval :=
  PDict [("ckan_version", PStr "2.10.4"); ("site_title", PStr "CKAN Demo")]%string.

(** A portal that answers every request with the site status, in a
    quarter of a second. *)
Definition status_world (t : Q) : World :=
  {| now := t;
     portal := fun _ _ => (ReplyJson (success_envelope status_payload), 1 # 4);
     sent := [] |}.

(** A client whose cache holds the site status, fetched at instant 1000. *)
Definition warm_client : CKANAPIClient :=
  {| base_url := base_url sample_client; api_key := None; session := true;
     cache := <[ @_get_cache_key sample_runtime "GET" "status_show" None :=
                 {| entry_timestamp := 1000; entry_data := status_payload |} ]> ∅;
     cache_ttl := 300 |}.

(** A portal that answers every request with the given body, at once. *)
Definition fixed_world (body : pyval) : World :=
  {| now := 1000; portal := fun _ _ => (ReplyJson body, 0%Q); sent := [] |}.

Definition server_on (w : World) : Server :=
  {| ckan_client := Some sample_client; outside := w |}.

(** Two dicts that list the same three entries in different orders. *)
Definition body_abc : pydict :=
  [ ("q", PStr "water"); ("rows", PInt 10);
    ("extras", PDict [("a", PBool true); ("b", PNone)]) ]%string.

Definition body_cba : pydict :=
  [ ("extras", PDict [("b", PNone); ("a", PBool true)]);
    ("rows", PInt 10); ("q", PStr "water") ]%string.

(** The portal's envelope for a dataset it does not have. *)
Definition not_found_body : pyval :=
  PDict [ ("success", PBool false);
          ("error", PDict [("message", PStr "Not found"); ("__type", PStr "Not Found Error")]) ]%string.

(** A portal whose action returns nothing: [{"success": true, "result": null}]. *)
Definition null_result_body : pyval := success_envelope PNone.

(** The filters of the faceted-search example. *)
Definition org_and_tags : pyval :=
  PDict [("organization", PStr "x"); ("tags", PStr "a,b")]%string.

(** A dataset as [package_show] returns it, with no tracking summary. *)
Definition plain_dataset : pyval :=
  PDict [ ("id", PStr "X"); ("name", PStr "rainfall"); ("title", PStr "Rainfall");
          ("resources", PList []); ("tags", PList []) ]%string.

(** A dataset with a title, no resources, and little else. *)
Definition bare_dataset : pyval :=
  PDict [ ("id", PStr "X"); ("name", PStr "rainfall"); ("title", PStr "Rainfall");
          ("resources", PList []) ]%string.

(** A dataset with two resources, one of them in a listed format. *)
Definition two_resource_dataset : pyval :=
  PDict [ ("id", PStr "Y"); ("name", PStr "stations"); ("title", PStr "Stations");
          ("notes", PStr "Weather stations"); ("license_id", PStr "cc-by");
          ("resources",
           PList [ PDict [("format", PStr "csv"); ("url", PStr "https://example.org/s.csv")];
                   PDict [("format", PStr "shp"); ("url", PStr "https://example.org/s.shp")] ]) ]%string.

(** A dataset as CKAN returns it when it belongs to no organization. *)
Definition orgless_dataset : pyval :=
  PDict [ ("id", PStr "X"); ("name", PStr "rainfall"); ("organization", PNone);
          ("owner_org", PNone); ("tags", PList []) ]%string.

(** A portal that knows one resource and has no datastore: it answers
    [resource_show] and refuses everything else. *)
Definition no_datastore_world : World :=
  {| now := 1000;
     portal := fun _ rq =>
       if PyStr.contains "resource_show" (req_url rq)
       then (ReplyJson (success_envelope
                          (PDict [ ("id", PStr "r1"); ("name", PStr "stations.csv");
                                   ("format", PStr "CSV");
                                   ("url", PStr "https://example.org/stations.csv") ]%string)),
             0%Q)
       else (ReplyJson not_found_body, 0%Q);
     sent := [] |}.

(** ** What a call leaves behind *)

(** The client keeps its address, its key, its session and its TTL. *)
Definition same_config (c c' : CKANAPIClient) : Prop :=
  base_url c' = base_url c /\ api_key c' = api_key c /\
  session c' = session c /\ cache_ttl c' = cache_ttl c.

(** No key of the cache is lost. *)
Definition cache_grows (c c' : CKANAPIClient) : Prop :=
  forall k, is_Some (cache c !! k) -> is_Some (cache c' !! k).

(** A read of the action API by the client [c]: a GET without a body, with
    the client's headers, to the address [urljoin] makes of
    [base_url/api/3/action/] and an endpoint. *)
Definition is_read (c : CKANAPIClient) (rq : Request) : Prop :=
  req_method rq = "GET"%string /\ req_json rq = None /\
  req_headers rq = _get_headers c /\
  exists endpoint, req_url rq = urljoin (base_url c +:+ "/api/3/action/") endpoint.

(** From [st] to [st'] the client kept its configuration and its cache
    entries, the portal is the same, and at most [n] requests were sent,
    each of them a read. *)
Definition reads_from (n : nat) (st st' : State) : Prop :=
  same_config (client st) (client st') /\
  cache_grows (client st) (client st') /\
  portal (world st') = portal (world st) /\
  exists rqs, sent (world st') = sent (world st) ++ rqs /\
              (length rqs <= n)%nat /\
              List.Forall (is_read (client st)) rqs.

(** Whatever the state it starts in, the computation only reads, at most
    [n] times. *)
Definition sends_at_most {A} (n : nat) (m : M A) : Prop :=
  forall st, reads_from n st (snd (m st)).

(** The world after one exchange with the portal. *)
Definition after_request (w : World) (rq : Request) : World :=
  {| now := now w + snd (portal w (now w) rq);
     portal := portal w;
     sent := sent w ++ [rq] |}.

(** What [_make_request] makes of the portal's reply. *)
Definition outcome_of_reply `{PyRuntime} (reply : Reply) : result pyval :=
  match reply with
  | ReplyClientError msg => Raise (Exception_ ("HTTP Error: " +:+ msg))
  | ReplyTimeout msg => Raise (Exception_ ("Request failed: " +:+ msg))
  | ReplyJson (PDict body) =>
      if Py.truthy (match Py.dict_get "success" body with
                    | Some flag => flag
                    | None => PBool false
                    end)
      then Ok (match Py.dict_get "result" body with
               | Some payload => payload
               | None => PDict []
               end)
      else Raise (Exception_ ("Request failed: CKAN API Error: "
                                +:+ Py.str (match Py.dict_get "error" body with
                                            | Some error_msg => error_msg
                                            | None => PDict []
                                            end)))
  | ReplyJson v =>
      Raise (Exception_ ("Request failed: " +:+ Py.quot_ (Py.type_name v)
                           +:+ " object has no attribute 'get'"))
  end.

(** The cache holds no entry under the key that is still valid. *)
Definition no_valid_entry `{PyRuntime} (st : State) (key : string) : Prop :=
  forall e, cache (client st) !! key = Some e -> _is_cache_valid st e = false.

(** The client with one more cache entry. *)
Definition with_entry (c : CKANAPIClient) (key : string) (e : CacheEntry) : CKANAPIClient :=
  {| base_url := base_url c; api_key := api_key c; session := session c;
     cache := <[key := e]> (cache c); cache_ttl := cache_ttl c |}.

(** The dataset ids a call of [export_metadata] goes through. *)
Definition ids_of (dataset_ids : pyval) : list pyval :=
  match Py.iter dataset_ids with
  | Ok ids => ids
  | Raise _ => []
  end.

(** ** The declared schemas *)

(** The names in the [required] list of a tool's schema. *)
Definition required_of (t : Tool) : list string :=
  match inputSchema t with
  | PDict schema =>
      match Py.dict_get "required" schema with
      | Some (PList names) =>
          flat_map (fun v => match v with PStr k => [k] | _ => [] end) names
      | _ => []
      end
  | _ => []
  end.

(** The properties of a tool's schema that declare a default, with it. *)
Definition defaults_of (t : Tool) : list (string * pyval) :=
  match inputSchema t with
  | PDict schema =>
      match Py.dict_get "properties" schema with
      | Some (PDict properties) =>
          flat_map (fun kp => match snd kp with
                              | PDict p => match Py.dict_get "default" p with
                                           | Some v => [(fst kp, v)]
                                           | None => []
                                           end
                              | _ => []
                              end) properties
      | _ => []
      end
  | _ => []
  end.

(** The tools whose branch reads its arguments as
    [arguments.get(k, default) if arguments else default]. *)
Definition guards_arguments (name : string) : bool :=
  existsb (String.eqb name)
    ["ckan_package_list"; "ckan_organization_list"; "ckan_group_list"]%string.

(** The requests a tool call may send at most: one per dataset id for the
    exporter, and four, two or one for the others. *)
Definition request_budget (name : string) (arguments : pyval) : nat :=
  if String.eqb name "ckan_metadata_exporter" then
    match Py.getitem arguments "dataset_ids" with
    | Ok dataset_ids => length (ids_of dataset_ids)
    | Raise _ => 0
    end
  else if String.eqb name "ckan_dataset_analytics" then 4
  else if String.eqb name "ckan_related_datasets" then 2
  else if String.eqb name "ckan_resource_preview" then 2
  else if existsb (String.eqb name) (map tool_name handle_list_tools) then 1
  else 0.

(** ** The reports of the operations *)

(** The three formats [export_metadata] knows. *)
Definition known_format (export_format : pyval) : bool :=
  Py.eq_str export_format "dcat" || Py.eq_str export_format "schema_org"
  || Py.eq_str export_format "ckan_native".

(** The entries a report on one dataset may have under [metrics]. *)
Definition dataset_metric_names : list string :=
  ["resource_count"; "views"; "downloads"; "created"; "modified"; "tags_count";
   "organization"]%string.

(** The entry of a key in a dict value. *)
Definition entry_of (k : string) (v : pyval) : option pyval :=
  match v with
  | PDict d => Py.dict_get k d
  | _ => None
  end.

(** ** Texts *)

(** Every character of the text passes the test. *)
Fixpoint all_chars (p : ascii -> bool) (s : string) : bool :=
  match s with
  | EmptyString => true
  | String c r => p c && all_chars p r
  end.

(** The last character of the text. *)
Fixpoint last_char (s : string) : option ascii :=
  match s with
  | EmptyString => None
  | String c EmptyString => Some c
  | String _ r => last_char r
  end.

Definition is_slash (c : ascii) : bool := Ascii.eqb c "/"%char.

(** A digit or one of the letters [a] to [f]. *)
Definition is_lower_hex (c : ascii) : bool :=
  PyStr.is_digit c || existsb (Ascii.eqb c) ["a"; "b"; "c"; "d"; "e"; "f"]%char.

(** The characters a percent-encoded text is made of. *)
Definition is_quoted_char (c : ascii) : bool :=
  PyStr.quote_safe c || Ascii.eqb c "%"%char.

(** A character of the ASCII range. *)
Definition is_ascii (c : ascii) : bool := (nat_of_ascii c <? 128)%nat.

(** An ASCII character that is neither of the square brackets. *)
Definition address_char (c : ascii) : bool :=
  is_ascii c && negb (Ascii.eqb c "["%char) && negb (Ascii.eqb c "]"%char).

(** An address of ASCII characters without square brackets. [urljoin]
    raises a [ValueError] only on a host part with brackets or with
    characters outside ASCII; on a plain address it raises nothing. *)
Definition plain_address (s : string) : bool := all_chars address_char s.

(** Any character but the separator of a query string. *)
Definition not_amp (c : ascii) : bool := negb (Ascii.eqb c "&"%char).

(** The units of [format_size], the smallest first. *)
Definition size_units : list string := ["B"; "KB"; "MB"; "GB"; "TB"]%string.

(** The names of the parameters of a faceted search. *)
Definition faceted_parameter_names : list string :=
  ["q"; "facet"; "facet.field"; "rows"; "fq"; "ext_bbox"; "ext_spatial"]%string.

(** ** A portal for the worked examples of the operations *)

(** A body that can stand for a dataset (with a tag, a group, an
    organization and a resource), for the results of a search and for the
    records of a datastore at once. *)
Definition catalogue_body : pyval :=
  PDict [ ("id", PStr "X"); ("name", PStr "rainfall"); ("title", PStr "Rainfall");
          ("tags", PList [PDict [("name", PStr "rain")]]);
          ("groups", PList [PDict [("id", PStr "climate")]]);
          ("organization", PDict [("id", PStr "met"); ("name", PStr "met-office")]);
          ("resources",
           PList [PDict [ ("id", PStr "r1"); ("name", PStr "rain.csv"); ("format", PStr "CSV");
                          ("url", PStr "https://example.org/rain.csv") ]]);
          ("count", PInt 2);
          ("results", PList [ PDict [("id", PStr "X"); ("name", PStr "rainfall")];
                              PDict [("id", PStr "Y"); ("name", PStr "stations")] ]);
          ("records", PList [PDict [("station", PStr "A"); ("mm", PInt 12)]]);
          ("total", PInt 1);
          ("fields", PList [ PDict [("id", PStr "station"); ("type", PStr "text")];
                             PDict [("id", PStr "mm"); ("type", PStr "int4")] ]) ]%string.

(** A portal that answers every request with that body, at instant 1000. *)
Definition catalogue_state : State :=
  {| client := sample_client; world := fixed_world (success_envelope catalogue_body) |}.

(** The first two tools the server declares. *)
Definition package_list_tool : Tool :=
  nth 0 handle_list_tools {| tool_name := ""; tool_description := ""; inputSchema := PNone |}.

Definition package_show_tool : Tool :=
  nth 1 handle_list_tools {| tool_name := ""; tool_description := ""; inputSchema := PNone |}.

(** ** Failures *)

(** An error Python raises on a value of the wrong shape. *)
Definition builtin_error (e : PyExn) : Prop :=
  In (exn_cls e) [ExKeyError; ExAttributeError; ExTypeError; ExIndexError].

(** An error [_make_request] raises. *)
Definition request_error (e : PyExn) : Prop :=
  exn_cls e = ExException /\
  (String.prefix "HTTP Error: " (exn_msg e) = true
   \/ String.prefix "Request failed: " (exn_msg e) = true).

(** A pure step raises built-in errors only. *)
Definition raises_builtin {A} (r : result A) : Prop :=
  forall e, r = Raise e -> builtin_error e.

(** A computation fails with a built-in error or a request error only. *)
Definition fails_known {A} (m : M A) : Prop :=
  forall st e st', m st = (Raise e, st') -> builtin_error e \/ request_error e.

(** The argument was given: its value is not [None]. *)
Definition is_given (kv : string * pyval) : bool :=
  match snd kv with
  | PNone => false
  | _ => true
  end.

(** ** The text of a cache key *)

(** No float inside the value. *)
Fixpoint float_free (v : pyval) : bool :=
  match v with
  | PFloat _ => false
  | PList l => forallb float_free l
  | PDict d => forallb (fun kv => float_free (snd kv)) d
  | _ => true
  end.

(** A body as a caller can pass it: a dict with distinct keys at every
    level, and without floats. *)
Definition plain_body (data : option pydict) : bool :=
  match data with
  | Some d => distinct_keys (PDict d) && float_free (PDict d)
  | None => true
  end.

(** Two bodies are the same to the cache: both are absent or empty, or both
    have entries and are equal as maps. *)
Definition same_body (data1 data2 : option pydict) : bool :=
  match data1, data2 with
  | Some (kv1 :: d1), Some (kv2 :: d2) => same_json (PDict (kv1 :: d1)) (PDict (kv2 :: d2))
  | Some (_ :: _), _ => false
  | _, Some (_ :: _) => false
  | _, _ => true
  end.

(** The request has no body to hash: the body is absent or empty. *)
Definition body_less (data : option pydict) : bool :=
  match data with
  | Some (_ :: _) => false
  | _ => true
  end.

(** The number a text of digits writes, after the digits read so far. *)
Fixpoint num_of (s : string) (read : N) : N :=
  match s with
  | EmptyString => read
  | String c r => num_of r (read * 10 + (N_of_ascii c - 48))%N
  end.

Definition hex_val (c : ascii) : nat :=
  let n := nat_of_ascii c in
  if PyStr.is_digit c then (n - 48)%nat else (n - 87)%nat.

(** The first character of the contents of a JSON string, read back from
    its escape, with the rest of the text; nothing at the closing quote. *)
Definition json_unescape (s : string) : option (ascii * string) :=
  match s with
  | EmptyString => None
  | String c r =>
      if Ascii.eqb c Py.dquote then None
      else if Ascii.eqb c "\"%char then
        match r with
        | EmptyString => None
        | String e r' =>
            if Ascii.eqb e "\"%char then Some ("\"%char, r')
            else if Ascii.eqb e Py.dquote then Some (Py.dquote, r')
            else if Ascii.eqb e "n"%char then Some (ascii_of_nat 10, r')
            else if Ascii.eqb e "r"%char then Some (ascii_of_nat 13, r')
            else if Ascii.eqb e "t"%char then Some (ascii_of_nat 9, r')
            else if Ascii.eqb e "b"%char then Some (ascii_of_nat 8, r')
            else if Ascii.eqb e "f"%char then Some (ascii_of_nat 12, r')
            else match r' with
                 | String _ (String _ (String h1 (String h2 r''))) =>
                     Some (ascii_of_nat (16 * hex_val h1 + hex_val h2), r'')
                 | _ => None
                 end
        end
      else Some (c, r)
  end.

(** The characters that follow a value inside a JSON text. *)
Definition is_closer (c : ascii) : bool :=
  Ascii.eqb c ","%char || Ascii.eqb c "]"%char || Ascii.eqb c "}"%char.

(** The characters a JSON value without floats starts with. *)
Definition is_opener (c : ascii) : bool :=
  PyStr.is_digit c
  || existsb (Ascii.eqb c) ["-"; "n"; "t"; "f"; "["; "{"]%char
  || Ascii.eqb c Py.dquote.

(** The text is over, or goes on with a closer. *)
Definition closes (r : string) : bool :=
  match r with
  | EmptyString => true
  | String c _ => is_closer c
  end.

(** The text starts with an opener. *)
Definition opens (s : string) : bool :=
  match s with
  | EmptyString => false
  | String c _ => is_opener c
  end.

(** ** Test vectors of the library functions *)

Example md5_empty : MD5.hexdigest "" = "d41d8cd98f00b204e9800998ecf8427e"%string.
Proof. vm_compute. reflexivity. Qed.

Example md5_abc : MD5.hexdigest "abc" = "900150983cd24fb0d6963f7d28e17f72"%string.
Proof. vm_compute. reflexivity. Qed.

Example md5_two_blocks :
  MD5.hexdigest "aaaaaaaaaaaaaaaaaaaaaaaaaaaaaaaaaaaaaaaaaaaaaaaaaaaaaaaaaaaaaaaaaaaaaa"
  = "0f5c6c4e740bfcc08c3c26ccb2673d46"%string.
Proof. vm_compute. reflexivity. Qed.

Example quote_fq :
  PyStr.quote "organization:x AND tags:a,b *:*" = "organization%3Ax%20AND%20tags%3Aa%2Cb%20%2A%3A%2A"%string.
Proof. vm_compute. reflexivity. Qed.

Example of_Z_ex : PyStr.of_Z (-1203) = "-1203"%string /\ PyStr.of_Z 0 = "0"%string.
Proof. vm_compute. split; reflexivity. Qed.

Example split_strip_ex :
  map PyStr.strip (PyStr.split "," " a, b ,,c") = ["a"; "b"; ""; "c"]%string.
Proof. vm_compute. reflexivity. Qed.

(** ** The request cache *)

Lemma Qltb_lt (x y : Q) : Qltb x y = true <-> (x < y)%Q.
Proof. unfold Qltb, Qlt. apply Z.ltb_lt. Qed.

Section CacheProofs.
Context `{PyRuntime}.

Lemma cacheable_get : cacheable "GET" true = true.
Proof. reflexivity. Qed.

(** A valid entry answers the call and leaves the state as it was. *)
Lemma make_request_hit (st : State) (endpoint : string) (body : option pydict)
    (e : CacheEntry) :
  cache (client st) !! _get_cache_key "GET" endpoint body = Some e ->
  _is_cache_valid st e = true ->
  _make_request "GET" endpoint body true st = (Ok (entry_data e), st).
Proof.
  intros Hlook Hvalid. unfold _make_request.
  rewrite cacheable_get, Hlook, Hvalid. reflexivity.
Qed.

(** What a request to the portal leaves behind: one more request in the
    world's log; and when it returns a payload, that payload in the cache
    under the key, with the time of the answer. *)
Lemma request_portal_effect (st : State) (endpoint : string) (body : option pydict)
    (key : string) :
  session (client st) = true ->
  let rq := request_of st "GET" endpoint body in
  exists r st',
    request_portal "GET" endpoint body true key st = (r, st') /\
    sent (world st') = sent (world st) ++ [rq] /\
    cache_ttl (client st') = cache_ttl (client st) /\
    (forall payload, r = Ok payload ->
       cache (client st') !! key
       = Some {| entry_timestamp := now (world st'); entry_data := payload |}) /\
    (forall payload, answers_with st rq payload -> r = Ok payload).
Proof.
  intros Hsession rq.
  unfold request_portal, try_except, bind, session_request. rewrite Hsession.
  fold (request_of st "GET" endpoint body). fold rq. rewrite cacheable_get.
  destruct (portal (world st) (now (world st)) rq) as [reply elapsed] eqn:Hreply.
  assert (Hno : forall (P : Prop) payload, answers_with st rq payload ->
                  (forall b fl, reply = ReplyJson (PDict b) ->
                                Py.dict_get "success" b = Some fl -> Py.truthy fl = true ->
                                payload = match Py.dict_get "result" b with
                                          | Some x => x
                                          | None => PDict []
                                          end -> P) -> P).
  { intros P payload (b & el & fl & Hp & Hs & Ht & Hpay) HP.
    rewrite Hreply in Hp. injection Hp as -> ->. eapply HP; eauto. }
  destruct reply as [body'|msg|msg]; unfold lift, raise.
  - destruct (Py.get body' "success" (PBool false)) as [flag|e] eqn:Hflag.
    + destruct (Py.truthy flag) eqn:Htruthy; cbn [negb].
      * destruct (Py.get body' "result" (PDict [])) as [payload|e] eqn:Hres.
        -- eexists _, _. split; [reflexivity|]. cbn.
           split; [reflexivity|]. split; [reflexivity|]. split.
           ++ intros p [= <-]. apply lookup_insert_eq.
           ++ intros p Hp. apply (Hno _ _ Hp). intros b fl [= ->] Hs Ht ->.
              cbn in Hres. injection Hres as <-. reflexivity.
        -- destruct (exn_cls e);
             (eexists _, _; split; [reflexivity|]; cbn;
              split; [reflexivity|]; split; [reflexivity|]; split;
              [intros p [=] | intros p Hp; apply (Hno _ _ Hp); intros b fl [= ->]; discriminate Hres]).
      * destruct (Py.get body' "error" (PDict [])) as [err|e] eqn:Herr;
          [|destruct (exn_cls e)];
          (eexists _, _; split; [reflexivity|]; cbn;
           split; [reflexivity|]; split; [reflexivity|]; split;
           [intros p [=] | intros p Hp; apply (Hno _ _ Hp); intros b fl [= ->] Hs Ht _;
                           cbn in Hflag; rewrite Hs in Hflag; injection Hflag as ->; congruence]).
    + destruct (exn_cls e);
        (eexists _, _; split; [reflexivity|]; cbn;
         split; [reflexivity|]; split; [reflexivity|]; split;
         [intros p [=] | intros p Hp; apply (Hno _ _ Hp); intros b fl [= ->]; discriminate Hflag]).
  - eexists _, _. split; [reflexivity|]. cbn.
    split; [reflexivity|]. split; [reflexivity|]. split;
      [intros p [=] | intros p Hp; apply (Hno _ _ Hp); intros b fl [=]].
  - eexists _, _. split; [reflexivity|]. cbn.
    split; [reflexivity|]. split; [reflexivity|]. split;
      [intros p [=] | intros p Hp; apply (Hno _ _ Hp); intros b fl [=]].
Qed.

(** Without an open session nothing is sent and nothing is returned. *)
Lemma request_portal_closed (st : State) (endpoint : string) (body : option pydict)
    (key : string) :
  session (client st) = false ->
  exists e, request_portal "GET" endpoint body true key st = (Raise e, st).
Proof.
  intros Hsession. unfold request_portal, try_except, bind, session_request.
  rewrite Hsession. eexists. reflexivity.
Qed.

(** Without a valid entry the call goes to the portal. *)
Lemma make_request_stale (st : State) (endpoint : string) (body : option pydict) :
  (forall e, cache (client st) !! _get_cache_key "GET" endpoint body = Some e ->
             _is_cache_valid st e = false) ->
  _make_request "GET" endpoint body true st
  = request_portal "GET" endpoint body true (_get_cache_key "GET" endpoint body) st.
Proof.
  intros Hstale. unfold _make_request. rewrite cacheable_get.
  destruct (cache (client st) !! _get_cache_key "GET" endpoint body) as [e|] eqn:Hlook;
    [rewrite (Hstale e eq_refl)|]; reflexivity.
Qed.

Lemma make_request_miss (st : State) (endpoint : string) (body : option pydict) :
  (forall e, cache (client st) !! _get_cache_key "GET" endpoint body = Some e ->
             _is_cache_valid st e = false) ->
  session (client st) = true ->
  let rq := request_of st "GET" endpoint body in
  exists r st',
    _make_request "GET" endpoint body true st = (r, st') /\
    sent (world st') = sent (world st) ++ [rq] /\
    forall payload, answers_with st rq payload ->
      r = Ok payload /\
      cache (client st') !! _get_cache_key "GET" endpoint body
      = Some {| entry_timestamp := now (world st'); entry_data := payload |}.
Proof.
  intros Hstale Hsession rq. rewrite (make_request_stale _ _ _ Hstale).
  destruct (request_portal_effect st endpoint body (_get_cache_key "GET" endpoint body) Hsession)
    as (r & st' & Hrun & Hsent & _ & Hstored & Hanswer).
  exists r, st'. split; [exact Hrun|]. split; [exact Hsent|].
  intros payload Hp. pose proof (Hanswer _ Hp) as Hr. split; [exact Hr|].
  apply Hstored, Hr.
Qed.

(** No request changes the TTL the client was built with. *)
Lemma make_request_keeps_ttl (method endpoint : string) (data : option pydict)
    (use_cache : bool) (st : State) :
  cache_ttl (client (snd (_make_request method endpoint data use_cache st)))
  = cache_ttl (client st).
Proof.
  unfold _make_request.
  destruct (if cacheable method use_cache then _ else None) as [e|]; [reflexivity|].
  unfold request_portal, try_except, bind, session_request, lift, raise.
  destruct (session (client st)); [|reflexivity].
  destruct (portal (world st) (now (world st)) _) as [[b|m|m] el]; try reflexivity.
  destruct (Py.get b "success" (PBool false)) as [flag|ex];
    [|destruct (exn_cls ex); reflexivity].
  destruct (Py.truthy flag); cbn [negb].
  - destruct (Py.get b "result" (PDict [])) as [res|ex];
      [|destruct (exn_cls ex); reflexivity].
    destruct (cacheable method use_cache); reflexivity.
  - destruct (Py.get b "error" (PDict [])) as [er|ex];
      [|destruct (exn_cls ex)]; reflexivity.
Qed.

Lemma init_ttl (url : string) (key : option string) :
  cache_ttl (__aenter__ (__init__ url key)) = 300%Q.
Proof. reflexivity. Qed.

(** C1. A GET with [use_cache=true] whose cache key has an entry younger
    than the TTL of 300 seconds ([now - timestamp < 300]) returns the stored
    payload and leaves the client and the world as they were, so that no
    request is sent; in every other case exactly one request is sent, and
    when the portal answers it with a success the payload is returned and
    stored under the same key with the time of the answer. *)
Theorem cached_get_within_ttl (st : State) (endpoint : string) (body : option pydict) :
  cache_ttl (client st) = 300%Q ->
  let key := _get_cache_key "GET" endpoint body in
  let rq := request_of st "GET" endpoint body in
  (forall e, cache (client st) !! key = Some e ->
             (now (world st) - entry_timestamp e < 300)%Q ->
             _make_request "GET" endpoint body true st = (Ok (entry_data e), st))
  /\
  ((forall e, cache (client st) !! key = Some e ->
              ~ (now (world st) - entry_timestamp e < 300)%Q) ->
   session (client st) = true ->
   exists r st',
     _make_request "GET" endpoint body true st = (r, st') /\
     sent (world st') = sent (world st) ++ [rq] /\
     forall payload, answers_with st rq payload ->
       r = Ok payload /\
       cache (client st') !! key
       = Some {| entry_timestamp := now (world st'); entry_data := payload |}).
Proof.
  intros Httl key rq. split.
  - intros e Hlook Hfresh. apply make_request_hit; [exact Hlook|].
    unfold _is_cache_valid. rewrite Httl. apply Qltb_lt, Hfresh.
  - intros Hstale Hsession. apply make_request_miss; [|exact Hsession].
    intros e Hlook. unfold _is_cache_valid. rewrite Httl.
    destruct (Qltb (now (world st) - entry_timestamp e) 300) eqn:Hlt; [|reflexivity].
    apply Qltb_lt in Hlt. destruct (Hstale e Hlook Hlt).
Qed.

(** A GET that returned a payload left it in the cache, and a second call
    made while the entry is younger than the TTL returns the same payload
    without touching the client or the world. *)
Lemma get_again_within_ttl (st st' : State) (endpoint : string) (body : option pydict)
    (payload : pyval) :
  _make_request "GET" endpoint body true st = (Ok payload, st') ->
  exists entry,
    cache (client st') !! _get_cache_key "GET" endpoint body = Some entry /\
    entry_data entry = payload /\
    cache_ttl (client st') = cache_ttl (client st) /\
    forall w : World,
      (now w - entry_timestamp entry < cache_ttl (client st'))%Q ->
      _make_request "GET" endpoint body true {| client := client st'; world := w |}
      = (Ok payload, {| client := client st'; world := w |}).
Proof.
  intros Hrun.
  assert (Hentry : exists entry,
             cache (client st') !! _get_cache_key "GET" endpoint body = Some entry /\
             entry_data entry = payload /\
             cache_ttl (client st') = cache_ttl (client st)).
  { set (key := _get_cache_key "GET" endpoint body) in *.
    assert (Hportal : request_portal "GET" endpoint body true key st = (Ok payload, st') ->
                      exists entry, cache (client st') !! key = Some entry /\
                                    entry_data entry = payload /\
                                    cache_ttl (client st') = cache_ttl (client st)).
    { intros Hp. destruct (session (client st)) eqn:Hsession.
      - destruct (request_portal_effect st endpoint body key Hsession)
          as (r & st1 & Hrun1 & _ & Httl & Hstored & _).
        rewrite Hp in Hrun1. injection Hrun1 as <- <-.
        eexists. split; [apply Hstored; reflexivity|]. split; [reflexivity|exact Httl].
      - destruct (request_portal_closed st endpoint body key Hsession) as [e He].
        rewrite Hp in He. discriminate He. }
    unfold _make_request in Hrun. rewrite cacheable_get in Hrun. fold key in Hrun.
    destruct (cache (client st) !! key) as [e0|] eqn:Hlook; [|apply Hportal, Hrun].
    destruct (_is_cache_valid st e0); [|apply Hportal, Hrun].
    injection Hrun as <- <-. exists e0. repeat split. exact Hlook. }
  destruct Hentry as (entry & Hlook & Hdata & Httl).
  exists entry. split; [exact Hlook|]. split; [exact Hdata|]. split; [exact Httl|].
  intros w Hfresh. rewrite <- Hdata. apply make_request_hit; [exact Hlook|].
  unfold _is_cache_valid. apply Qltb_lt. exact Hfresh.
Qed.

End CacheProofs.

(** A warm cache at instant 1200 answers without a request; a cold one at
    the same instant sends one and stores the answer. *)
Lemma cached_get_within_ttl_witness :
  let hit := {| client := warm_client; world := status_world 1200 |} in
  let cold := {| client := sample_client; world := status_world 1200 |} in
  @_make_request sample_runtime "GET" "status_show" None true hit = (Ok status_payload, hit)
  /\
  exists r st',
    @_make_request sample_runtime "GET" "status_show" None true cold = (r, st') /\
    length (sent (world st')) = 1%nat.
Proof.
  intros hit cold.
  pose proof (@cached_get_within_ttl sample_runtime hit "status_show" None eq_refl) as [Hhit _].
  pose proof (@cached_get_within_ttl sample_runtime cold "status_show" None eq_refl) as [_ Hcold].
  split.
  - apply (Hhit {| entry_timestamp := 1000; entry_data := status_payload |}).
    + vm_compute. reflexivity.
    + vm_compute. reflexivity.
  - destruct Hcold as (r & st' & Hrun & Hsent & _).
    + intros e He. vm_compute in He. discriminate He.
    + reflexivity.
    + exists r, st'. split; [exact Hrun|]. rewrite Hsent. reflexivity.
Defined.

(** ** The cache key *)

(** *** The order on keys *)

Lemma string_compare_as_OT (s t : string) :
  String.compare s t = String_as_OT.compare s t.
Proof.
  revert t. induction s as [|c s IH]; intros [|d t]; reflexivity.
Qed.

Lemma string_leb_trans (a b c : string) :
  String.leb a b = true -> String.leb b c = true -> String.leb a c = true.
Proof.
  unfold String.leb. intros Hab Hbc.
  destruct (String.compare a b) eqn:Eab; try discriminate.
  - apply String.compare_eq_iff in Eab. subst b. exact Hbc.
  - destruct (String.compare b c) eqn:Ebc; try discriminate.
    + apply String.compare_eq_iff in Ebc. subst c. rewrite Eab. reflexivity.
    + rewrite string_compare_as_OT in Eab, Ebc.
      assert (Hac : String_as_OT.lt a c)
        by (eapply (@StrictOrder_Transitive _ _ String_as_OT.lt_strorder); eassumption).
      unfold String_as_OT.lt in Hac. rewrite string_compare_as_OT, Hac. reflexivity.
Qed.

Lemma string_leb_false (a b : string) :
  String.leb a b = false -> String.leb b a = true.
Proof.
  intros Hab. destruct (String.leb_total a b) as [H|H]; [congruence|exact H].
Qed.

(** *** Sorting the items of a dict *)

Section SortByKey.

Let item : Type := (string * string)%type.

Lemma insert_by_key_comm (x y : item) (l : list item) :
  fst x <> fst y ->
  Py.insert_by_key x (Py.insert_by_key y l) = Py.insert_by_key y (Py.insert_by_key x l).
Proof.
  intros Hne. induction l as [|a l IH].
  - simpl. destruct (String.leb (fst x) (fst y)) eqn:Hxy.
    + destruct (String.leb (fst y) (fst x)) eqn:Hyx; [|reflexivity].
      destruct Hne. apply String.leb_antisym; assumption.
    + rewrite (string_leb_false _ _ Hxy). reflexivity.
  - simpl.
    destruct (String.leb (fst y) (fst a)) eqn:Hya;
      destruct (String.leb (fst x) (fst a)) eqn:Hxa; simpl.
    + rewrite Hya, Hxa.
      destruct (String.leb (fst x) (fst y)) eqn:Hxy.
      * destruct (String.leb (fst y) (fst x)) eqn:Hyx; [|reflexivity].
        destruct Hne. apply String.leb_antisym; assumption.
      * rewrite (string_leb_false _ _ Hxy). reflexivity.
    + rewrite Hya, Hxa.
      destruct (String.leb (fst x) (fst y)) eqn:Hxy; [|reflexivity].
      rewrite (string_leb_trans _ _ _ Hxy Hya) in Hxa. discriminate.
    + rewrite Hya, Hxa.
      destruct (String.leb (fst y) (fst x)) eqn:Hyx; [|reflexivity].
      rewrite (string_leb_trans _ _ _ Hyx Hxa) in Hya. discriminate.
    + rewrite Hya, Hxa, IH. reflexivity.
Qed.

(** With distinct keys the sorted list depends on the items only, not on
    the order they came in. *)
Lemma sort_by_key_perm (l1 l2 : list item) :
  Permutation l1 l2 -> List.NoDup (map fst l1) -> Py.sort_by_key l1 = Py.sort_by_key l2.
Proof.
  induction 1 as [|x l1 l2 Hp IH|x y l|l1 l2 l3 Hp12 IH12 Hp23 IH23]; intros Hnd.
  - reflexivity.
  - simpl. inversion Hnd; subst. rewrite IH by assumption. reflexivity.
  - simpl. apply insert_by_key_comm.
    inversion Hnd as [|? ? Hnotin _]; subst. intros Heq. apply Hnotin. left. symmetry. exact Heq.
  - rewrite IH12 by assumption. apply IH23.
    eapply Permutation_NoDup; [|exact Hnd]. apply Permutation_map, Hp12.
Qed.

End SortByKey.

(** *** Values equal as maps are encoded alike *)


Lemma no_repeat_NoDup (l : list string) : no_repeat l = true -> List.NoDup l.
Proof.
  induction l as [|k r IH]; simpl; intros Hl; [constructor|].
  apply andb_prop in Hl as [Hk Hr]. constructor; [|auto].
  intros Hin. apply negb_true_iff in Hk.
  assert (existsb (String.eqb k) r = true); [|congruence].
  apply existsb_exists. exists k. split; [exact Hin|apply String.eqb_refl].
Qed.

Lemma dict_get_In (k : string) (d : pydict) (v : pyval) :
  Py.dict_get k d = Some v -> List.In (k, v) d.
Proof.
  induction d as [|[k' v'] r IH]; simpl; [discriminate|].
  destruct (String.eqb_spec k' k) as [->|Hne].
  - intros [= ->]. left. reflexivity.
  - intros Hget. right. auto.
Qed.

Section EncodeSame.
Context `{PyRuntime}.
Variables (ensure_ascii : bool) (indent : option nat).

Let enc := Py.json_encode ensure_ascii true indent.

Lemma json_encode_same (a : pyval) :
  forall (b : pyval) (level : nat),
    distinct_keys a = true -> distinct_keys b = true -> same_json a b = true ->
    enc level a = enc level b.
Proof.
  induction a as [| x | x | x | s | la IH | da IH] using pyval_nested_ind;
    intros [| y | y | y | t | lb | db] level Ha Hb Hsame; try discriminate Hsame.
  - reflexivity.
  - simpl in Hsame. apply Bool.eqb_prop in Hsame. subst. reflexivity.
  - simpl in Hsame. apply Z.eqb_eq in Hsame. subst. reflexivity.
  - unfold same_json, Qsame in Hsame. apply andb_prop in Hsame as [Hn Hd].
    apply Z.eqb_eq in Hn. apply Pos.eqb_eq in Hd.
    destruct x as [xn xd], y as [yn yd]. simpl in Hn, Hd. subst. reflexivity.
  - simpl in Hsame. apply String.eqb_eq in Hsame. subst. reflexivity.
  - assert (Hmap : map (enc (S level)) la = map (enc (S level)) lb).
    { simpl in Ha, Hb, Hsame. revert lb Hb Hsame.
      induction IH as [|x xs Hx _ IHxs]; intros [|y ys] Hb Hsame;
        try discriminate Hsame; [reflexivity|].
      simpl in Ha, Hb. apply andb_prop in Ha as [Hax Haxs]. apply andb_prop in Hb as [Hby Hbys].
      apply andb_prop in Hsame as [Hxy Hrest].
      simpl. rewrite (Hx y (S level) Hax Hby Hxy), (IHxs Haxs ys Hbys Hrest). reflexivity. }
    unfold enc in *. simpl. rewrite Hmap. reflexivity.
  - simpl in Ha, Hb, Hsame.
    apply andb_prop in Ha as [Hka Hva]. apply andb_prop in Hb as [Hkb Hvb].
    apply andb_prop in Hsame as [Hlen Hall]. apply Nat.eqb_eq in Hlen.
    set (render := fun kv : string * pyval =>
                     match kv with (k, x) => (k, enc (S level) x) end).
    assert (Hfst : forall d : pydict, map fst (map render d) = map fst d).
    { intros d. rewrite map_map. apply map_ext. intros [k x]. reflexivity. }
    assert (Hsort : Py.sort_by_key (map render da) = Py.sort_by_key (map render db)).
    { apply sort_by_key_perm; [|rewrite Hfst; apply no_repeat_NoDup, Hka].
      apply NoDup_Permutation_bis.
      - apply (NoDup_map_inv fst). rewrite Hfst. apply no_repeat_NoDup, Hka.
      - rewrite !length_map. rewrite Hlen. apply Nat.le_refl.
      - intros [k s] Hin. apply in_map_iff in Hin as ([k' v] & Heq & Hin).
        injection Heq as -> <-.
        rewrite forallb_forall in Hall. pose proof (Hall _ Hin) as Hkv. simpl in Hkv.
        destruct (Py.dict_get k db) as [w|] eqn:Hget; [|discriminate].
        apply dict_get_In in Hget.
        rewrite List.Forall_forall in IH. rewrite forallb_forall in Hva, Hvb.
        pose proof (IH _ Hin w (S level) (Hva _ Hin) (Hvb _ Hget) Hkv) as Henc.
        simpl in Henc. rewrite Henc.
        apply in_map_iff. exists (k, w). split; [reflexivity|exact Hget]. }
    unfold enc in *. simpl. fold render. rewrite Hsort. reflexivity.
Qed.

End EncodeSame.

(** *** Requests without a body *)

Lemma append_cons (c : ascii) (s t : string) : String c s +:+ t = String c (s +:+ t).
Proof. reflexivity. Qed.

Lemma append_nil (t : string) : EmptyString +:+ t = t.
Proof. reflexivity. Qed.

Lemma no_colon_cons (c : ascii) (s : string) :
  no_colon (String c s) = true -> c <> ":"%char /\ no_colon s = true.
Proof.
  unfold no_colon, Py.has_char.
  change (PyStr.contains ":" (String c s))
    with ((if ascii_dec ":" c then String.prefix "" s else false) || PyStr.contains ":" s).
  destruct (ascii_dec ":" c) as [<-|Hne]; [destruct s; discriminate|].
  intros Hs. split; [congruence|exact Hs].
Qed.

(** A text cut at its first colon has one head and one tail. *)
Lemma first_colon_split (m1 m2 r1 r2 : string) :
  no_colon m1 = true -> no_colon m2 = true ->
  m1 +:+ String ":" r1 = m2 +:+ String ":" r2 -> m1 = m2 /\ r1 = r2.
Proof.
  revert m2. induction m1 as [|c m1 IH]; intros [|d m2] H1 H2 Heq.
  - rewrite !append_nil in Heq. injection Heq as ->. split; reflexivity.
  - rewrite append_nil, append_cons in Heq. injection Heq as <- _.
    apply no_colon_cons in H2 as [Hd _]. destruct Hd. reflexivity.
  - rewrite append_nil, append_cons in Heq. injection Heq as -> _.
    apply no_colon_cons in H1 as [Hc _]. destruct Hc. reflexivity.
  - rewrite !append_cons in Heq. injection Heq as -> Heq.
    apply no_colon_cons in H1 as [_ H1]. apply no_colon_cons in H2 as [_ H2].
    destruct (IH m2 H1 H2 Heq) as [-> ->]. split; reflexivity.
Qed.

Lemma append_length (s t : string) :
  String.length (s +:+ t) = (String.length s + String.length t)%nat.
Proof. induction s as [|c s IH]; [reflexivity|]. rewrite append_cons. simpl. rewrite IH. reflexivity. Qed.

Lemma append_inv_tail (s1 s2 t : string) : s1 +:+ t = s2 +:+ t -> s1 = s2.
Proof.
  revert s2. induction s1 as [|c s1 IH]; intros [|d s2] Heq.
  - reflexivity.
  - apply (f_equal String.length) in Heq. rewrite append_nil, append_cons in Heq.
    simpl in Heq. rewrite append_length in Heq. lia.
  - apply (f_equal String.length) in Heq. rewrite append_nil, append_cons in Heq.
    simpl in Heq. rewrite append_length in Heq. lia.
  - rewrite !append_cons in Heq. injection Heq as -> Heq. rewrite (IH s2 Heq). reflexivity.
Qed.

(** *** The text of a value tells the value *)

Lemma append_assoc (a b c : string) : (a +:+ b) +:+ c = a +:+ (b +:+ c).
Proof.
  induction a as [|x a IH]; [reflexivity|]. rewrite !append_cons, IH. reflexivity.
Qed.

Lemma append_empty_r (a : string) : a +:+ "" = a.
Proof. induction a as [|x a IH]; [reflexivity|]. rewrite append_cons, IH. reflexivity. Qed.

Lemma append_inv_head (a s t : string) : a +:+ s = a +:+ t -> s = t.
Proof.
  induction a as [|x a IH]; [intros Heq; exact Heq|].
  rewrite !append_cons. intros Heq. injection Heq as Heq. exact (IH Heq).
Qed.

(** **** Whole numbers *)

Lemma all_chars_app (p : ascii -> bool) (s t : string) :
  all_chars p (s +:+ t) = all_chars p s && all_chars p t.
Proof.
  induction s as [|c s IH]; [reflexivity|].
  rewrite append_cons. cbn [all_chars]. rewrite IH, andb_assoc. reflexivity.
Qed.

Lemma num_of_app (s : string) (c : ascii) (read : N) :
  num_of (s +:+ String c "") read = (num_of s read * 10 + (N_of_ascii c - 48))%N.
Proof.
  revert read. induction s as [|d s IH]; intros read; [reflexivity|].
  rewrite append_cons. cbn [num_of]. apply IH.
Qed.

Lemma digit_char (n : N) :
  (n < 10)%N ->
  PyStr.is_digit (ascii_of_N (48 + n)) = true /\ (N_of_ascii (ascii_of_N (48 + n)) - 48)%N = n.
Proof.
  intros Hn.
  assert (Hcases : In n [0; 1; 2; 3; 4; 5; 6; 7; 8; 9]%N).
  { cbn [In]. lia. }
  cbn [In] in Hcases.
  repeat (destruct Hcases as [<-|Hcases]; [split; reflexivity|]). destruct Hcases.
Qed.

(** With fuel enough for the number, [digits_of] writes its digits, the
    first of them first, before what was written already. *)
Lemma digits_of_spec (fuel : nat) (n : N) (acc : string) :
  (n < 2 ^ N.of_nat (S fuel))%N ->
  exists ds,
    PyStr.digits_of (S fuel) n acc = ds +:+ acc /\
    all_chars PyStr.is_digit ds = true /\ ds <> ""%string /\ num_of ds 0 = n.
Proof.
  revert n acc. induction fuel as [|fuel IH]; intros n acc Hn.
  - assert (Hmod : (n mod 10 < 10)%N) by (apply N.mod_lt; lia).
    destruct (digit_char _ Hmod) as [Hdigit Hval].
    change (2 ^ N.of_nat 1)%N with 2%N in Hn.
    assert (Hzero : (n / 10 = 0)%N) by (apply N.div_small; lia).
    cbn [PyStr.digits_of]. rewrite Hzero. cbn [N.eqb].
    exists (String (ascii_of_N (48 + n mod 10)) ""). split; [reflexivity|].
    split; [cbn [all_chars]; rewrite Hdigit; reflexivity|]. split; [discriminate|].
    cbn [num_of]. rewrite Hval. rewrite N.mod_small by lia. lia.
  - assert (Hmod : (n mod 10 < 10)%N) by (apply N.mod_lt; lia).
    destruct (digit_char _ Hmod) as [Hdigit Hval].
    change (PyStr.digits_of (S (S fuel)) n acc)
      with (if (n / 10 =? 0)%N then String (ascii_of_N (48 + n mod 10)) acc
            else PyStr.digits_of (S fuel) (n / 10)%N (String (ascii_of_N (48 + n mod 10)) acc)).
    destruct (N.eqb_spec (n / 10) 0) as [Hzero|Hmore].
    + exists (String (ascii_of_N (48 + n mod 10)) ""). split; [reflexivity|].
      split; [cbn [all_chars]; rewrite Hdigit; reflexivity|]. split; [discriminate|].
      cbn [num_of]. rewrite Hval.
      pose proof (N.div_mod n 10 ltac:(lia)) as Hdiv. lia.
    + assert (Hsmall : (n / 10 < 2 ^ N.of_nat (S fuel))%N).
      { rewrite (Nat2N.inj_succ (S fuel)), N.pow_succ_r' in Hn.
        apply N.Div0.div_lt_upper_bound. lia. }
      destruct (IH (n / 10)%N (String (ascii_of_N (48 + n mod 10)) acc) Hsmall)
        as (ds & Hds & Hall & Hne & Hnum).
      exists (ds +:+ String (ascii_of_N (48 + n mod 10)) ""). split; [|split; [|split]].
      * rewrite Hds, append_assoc. reflexivity.
      * rewrite all_chars_app, Hall. cbn [all_chars]. rewrite Hdigit. reflexivity.
      * destruct ds; [destruct Hne; reflexivity|rewrite append_cons; discriminate].
      * rewrite num_of_app, Hnum, Hval.
        pose proof (N.div_mod n 10 ltac:(lia)) as Hdiv. lia.
Qed.

(** The text of a whole number: a minus sign for a negative one, and the
    digits of its absolute value. *)
Lemma of_Z_digits (z : Z) :
  exists ds,
    PyStr.of_Z z = (if z <? 0 then String "-" ds else ds) /\
    all_chars PyStr.is_digit ds = true /\ ds <> ""%string /\ num_of ds 0 = Z.to_N (Z.abs z).
Proof.
  unfold PyStr.of_Z.
  destruct (digits_of_spec (N.to_nat (N.log2 (Z.to_N (Z.abs z)))) (Z.to_N (Z.abs z)) "")
    as (ds & Hds & Hall & Hne & Hnum).
  - rewrite Nat2N.inj_succ, N2Nat.id.
    destruct (N.eq_dec (Z.to_N (Z.abs z)) 0%N) as [->|Hpos]; [reflexivity|].
    apply N.log2_spec. lia.
  - exists ds. rewrite Hds, append_empty_r. repeat split; assumption.
Qed.

(** Two runs of digits, each followed by something else, are the same when
    the texts are. *)
Lemma digits_split (d1 d2 r1 r2 : string) :
  all_chars PyStr.is_digit d1 = true -> all_chars PyStr.is_digit d2 = true ->
  closes r1 = true -> closes r2 = true ->
  d1 +:+ r1 = d2 +:+ r2 -> d1 = d2 /\ r1 = r2.
Proof.
  assert (Hstop : forall c d r, closes (String c (d +:+ r)) = true ->
                                PyStr.is_digit c = true -> False).
  { intros c d r Hc Hd. cbn [closes] in Hc. unfold is_closer in Hc.
    destruct (Ascii.eqb_spec c ",") as [->|_]; [discriminate Hd|].
    destruct (Ascii.eqb_spec c "]") as [->|_]; [discriminate Hd|].
    destruct (Ascii.eqb_spec c "}") as [->|_]; [discriminate Hd|discriminate Hc]. }
  revert d2. induction d1 as [|c d1 IH]; intros [|c2 d2] H1 H2 Hr1 Hr2 Heq.
  - split; [reflexivity|exact Heq].
  - rewrite append_nil, append_cons in Heq. subst r1.
    cbn [all_chars] in H2. apply andb_prop in H2 as [Hc _].
    destruct (Hstop _ _ _ Hr1 Hc).
  - rewrite append_nil, append_cons in Heq. subst r2.
    cbn [all_chars] in H1. apply andb_prop in H1 as [Hc _].
    destruct (Hstop _ _ _ Hr2 Hc).
  - rewrite !append_cons in Heq. injection Heq as -> Heq.
    cbn [all_chars] in H1, H2.
    apply andb_prop in H1 as [_ H1]. apply andb_prop in H2 as [_ H2].
    destruct (IH d2 H1 H2 Hr1 Hr2 Heq) as [-> ->]. split; reflexivity.
Qed.

Lemma of_Z_opens (z : Z) (r : string) : opens (PyStr.of_Z z +:+ r) = true.
Proof.
  destruct (of_Z_digits z) as (ds & -> & Hall & Hne & _).
  destruct (z <? 0); [reflexivity|].
  destruct ds as [|c ds]; [destruct Hne; reflexivity|].
  cbn [all_chars] in Hall. apply andb_prop in Hall as [Hc _].
  rewrite append_cons. cbn [opens]. unfold is_opener. rewrite Hc. reflexivity.
Qed.

(** The text of a whole number, followed by a closer, tells the number. *)
Lemma of_Z_split (x y : Z) (r1 r2 : string) :
  closes r1 = true -> closes r2 = true ->
  PyStr.of_Z x +:+ r1 = PyStr.of_Z y +:+ r2 -> x = y /\ r1 = r2.
Proof.
  intros Hr1 Hr2.
  destruct (of_Z_digits x) as (dx & -> & Hax & Hnx & Hvx).
  destruct (of_Z_digits y) as (dy & -> & Hay & Hny & Hvy).
  assert (Hminus : forall ds r, all_chars PyStr.is_digit ds = true -> ds <> ""%string ->
                                forall ds' r', String "-" ds' +:+ r' = ds +:+ r -> False).
  { intros [|c ds] r Hall Hne ds' r' Heq; [destruct Hne; reflexivity|].
    rewrite !append_cons in Heq. injection Heq as <- _.
    cbn [all_chars] in Hall. discriminate Hall. }
  destruct (Z.ltb_spec x 0) as [Hx|Hx], (Z.ltb_spec y 0) as [Hy|Hy]; intros Heq.
  - rewrite !append_cons in Heq. injection Heq as Heq.
    destruct (digits_split _ _ _ _ Hax Hay Hr1 Hr2 Heq) as [-> ->].
    split; [lia|reflexivity].
  - destruct (Hminus _ _ Hay Hny _ _ Heq).
  - symmetry in Heq. destruct (Hminus _ _ Hax Hnx _ _ Heq).
  - destruct (digits_split _ _ _ _ Hax Hay Hr1 Hr2 Heq) as [-> ->].
    split; [lia|reflexivity].
Qed.

(** **** Strings *)

(** The escape of a character is read back, whatever follows. *)
Lemma json_unescape_char (c : ascii) (r x : string) :
  json_unescape (Py.json_chars true (String c r) +:+ x) = Some (c, Py.json_chars true r +:+ x).
Proof.
  destruct c as [[] [] [] [] [] [] [] []]; reflexivity.
Qed.

Lemma json_chars_split (s t r1 r2 : string) :
  Py.json_chars true s +:+ String Py.dquote r1 = Py.json_chars true t +:+ String Py.dquote r2 ->
  s = t /\ r1 = r2.
Proof.
  revert t. induction s as [|c s IH]; intros [|d t] Heq.
  - cbn [Py.json_chars] in Heq. rewrite !append_nil in Heq. injection Heq as ->.
    split; reflexivity.
  - apply (f_equal json_unescape) in Heq. rewrite json_unescape_char in Heq.
    discriminate Heq.
  - apply (f_equal json_unescape) in Heq. rewrite json_unescape_char in Heq.
    discriminate Heq.
  - apply (f_equal json_unescape) in Heq. rewrite !json_unescape_char in Heq.
    injection Heq as -> Heq. destruct (IH t Heq) as [-> ->]. split; reflexivity.
Qed.

Lemma json_str_text (s r : string) :
  Py.json_str true s +:+ r = String Py.dquote (Py.json_chars true s +:+ String Py.dquote r).
Proof.
  unfold Py.json_str. rewrite append_cons, append_assoc. reflexivity.
Qed.

(** The text of a string tells the string, whatever follows. *)
Lemma json_str_split (s t r1 r2 : string) :
  Py.json_str true s +:+ r1 = Py.json_str true t +:+ r2 -> s = t /\ r1 = r2.
Proof.
  rewrite !json_str_text. intros Heq. injection Heq as Heq. exact (json_chars_split _ _ _ _ Heq).
Qed.

(** **** Sequences *)

Lemma closer_not_opener (c : ascii) : is_closer c = true -> is_opener c = false.
Proof.
  unfold is_closer. intros Hc.
  destruct (Ascii.eqb_spec c ",") as [E|_]; [subst c; reflexivity|].
  destruct (Ascii.eqb_spec c "]") as [E|_]; [subst c; reflexivity|].
  destruct (Ascii.eqb_spec c "}") as [E|_]; [subst c; reflexivity|discriminate Hc].
Qed.

Lemma join_cons_text (sep x : string) (xs : list string) (r : string) :
  PyStr.join sep (x :: xs) +:+ r
  = x +:+ match xs with
          | [] => r
          | _ :: _ => sep +:+ (PyStr.join sep xs +:+ r)
          end.
Proof.
  destruct xs as [|y ys]; [reflexivity|].
  unfold PyStr.join. cbn [String.concat]. rewrite !append_assoc. reflexivity.
Qed.

Section Sequence.
Context {A B : Type}.
Variables (f : A -> string) (g : B -> string) (R : A -> B -> Prop).
Variable closer : ascii.
Hypothesis closer_closes : is_closer closer = true.
Hypothesis closer_no_comma : closer <> ","%char.

(** Two sequences of items, each item telling itself from what follows,
    are item by item the same when their texts are. *)
Lemma join_split (la : list A) :
  forall (lb : list B) (r1 r2 : string),
    List.Forall (fun a => (forall r, opens (f a +:+ r) = true) /\
                          forall b r1 r2, In b lb -> closes r1 = true -> closes r2 = true ->
                                          f a +:+ r1 = g b +:+ r2 -> R a b /\ r1 = r2) la ->
    List.Forall (fun b => forall r, opens (g b +:+ r) = true) lb ->
    PyStr.join ", " (map f la) +:+ String closer r1
    = PyStr.join ", " (map g lb) +:+ String closer r2 ->
    Forall2 R la lb /\ r1 = r2.
Proof.
  assert (Hhead : forall s r r', opens (s +:+ r') = true -> String closer r = s +:+ r' -> False).
  { intros s r r' Hopen Heq. rewrite <- Heq in Hopen. cbn [opens] in Hopen.
    rewrite (closer_not_opener _ closer_closes) in Hopen. discriminate Hopen. }
  induction la as [|a la IH]; intros [|b lb] r1 r2 Ha Hb Heq.
  - cbn in Heq. rewrite !append_nil in Heq. injection Heq as ->. split; [constructor|reflexivity].
  - exfalso. cbn [map] in Heq. rewrite join_cons_text in Heq.
    change (PyStr.join ", " [] +:+ String closer r1) with (String closer r1) in Heq.
    inversion Hb as [|? ? Hopen _]; subst. exact (Hhead _ _ _ (Hopen _) Heq).
  - exfalso. cbn [map] in Heq. rewrite join_cons_text in Heq.
    change (PyStr.join ", " [] +:+ String closer r2) with (String closer r2) in Heq.
    inversion Ha as [|? ? [Hopen _] _]; subst. symmetry in Heq. exact (Hhead _ _ _ (Hopen _) Heq).
  - cbn [map] in Heq. rewrite !join_cons_text in Heq.
    inversion Ha as [|? ? [_ Hsplit] Hrest]; subst.
    inversion Hb as [|? ? _ Hbrest]; subst.
    assert (Hweak : List.Forall
                      (fun a => (forall r, opens (f a +:+ r) = true) /\
                                forall b' r1 r2, In b' lb -> closes r1 = true ->
                                                 closes r2 = true ->
                                                 f a +:+ r1 = g b' +:+ r2 -> R a b' /\ r1 = r2)
                      la).
    { eapply List.Forall_impl; [|exact Hrest]. intros a' [Hopen Hcut]. split; [exact Hopen|].
      intros b' s1 s2 Hin. apply Hcut. right. exact Hin. }
    assert (Hc1 : closes match map f la with
                         | [] => String closer r1
                         | _ :: _ => ", " +:+ (PyStr.join ", " (map f la) +:+ String closer r1)
                         end = true).
    { destruct (map f la); [exact closer_closes|reflexivity]. }
    assert (Hc2 : closes match map g lb with
                         | [] => String closer r2
                         | _ :: _ => ", " +:+ (PyStr.join ", " (map g lb) +:+ String closer r2)
                         end = true).
    { destruct (map g lb); [exact closer_closes|reflexivity]. }
    destruct (Hsplit b _ _ (or_introl eq_refl) Hc1 Hc2 Heq) as [Hab Htail].
    destruct la as [|a' la], lb as [|b' lb]; cbn [map] in Htail.
    + injection Htail as ->. split; [repeat constructor; exact Hab|reflexivity].
    + exfalso. rewrite !append_cons in Htail. injection Htail as Hc _.
      exact (closer_no_comma Hc).
    + exfalso. rewrite !append_cons in Htail. injection Htail as Hc _.
      symmetry in Hc. exact (closer_no_comma Hc).
    + rewrite !append_cons, !append_nil in Htail. injection Htail as Htail.
      destruct (IH (b' :: lb) r1 r2 Hweak Hbrest Htail) as [Hall ->].
      split; [constructor; assumption|reflexivity].
Qed.

End Sequence.

Lemma insert_by_key_perm (x : string * string) (l : list (string * string)) :
  Permutation (Py.insert_by_key x l) (x :: l).
Proof.
  induction l as [|y l IH]; [apply Permutation_refl|].
  cbn [Py.insert_by_key]. destruct (String.leb (fst x) (fst y)); [apply Permutation_refl|].
  eapply perm_trans; [apply perm_skip, IH|apply perm_swap].
Qed.

Lemma sort_by_key_permutation (l : list (string * string)) : Permutation (Py.sort_by_key l) l.
Proof.
  induction l as [|x l IH]; [apply perm_nil|].
  cbn [Py.sort_by_key fold_right]. eapply perm_trans; [apply insert_by_key_perm|].
  apply perm_skip, IH.
Qed.

Lemma In_dict_get (k : string) (w : pyval) (d : pydict) :
  no_repeat (map fst d) = true -> In (k, w) d -> Py.dict_get k d = Some w.
Proof.
  induction d as [|[k' v'] d IH]; intros Hnd Hin; [destruct Hin|].
  cbn [map fst no_repeat] in Hnd. apply andb_prop in Hnd as [Hfresh Hnd].
  cbn [Py.dict_get]. destruct Hin as [Heq|Hin].
  - injection Heq as -> ->. rewrite String.eqb_refl. reflexivity.
  - destruct (String.eqb_spec k' k) as [->|_]; [|exact (IH Hnd Hin)].
    apply negb_true_iff in Hfresh.
    assert (Hthere : existsb (String.eqb k) (map fst d) = true).
    { apply existsb_exists. exists k. split; [|apply String.eqb_refl].
      apply in_map_iff. exists (k, w). split; [reflexivity|exact Hin]. }
    rewrite Hthere in Hfresh. discriminate Hfresh.
Qed.

Lemma same_json_lists (la lb : list pyval) :
  Forall2 (fun x y => same_json x y = true) la lb -> same_json (PList la) (PList lb) = true.
Proof.
  induction 1 as [|x y la lb Hxy _ IH]; [reflexivity|].
  change (same_json (PList (x :: la)) (PList (y :: lb)))
    with (same_json x y && same_json (PList la) (PList lb)).
  rewrite Hxy, IH. reflexivity.
Qed.

(** **** Values *)

Section ValueText.
Context `{PyRuntime}.

Let enc := Py.json_encode true true None.
Let item := fun kx : string * string => Py.json_str true (fst kx) +:+ ": " +:+ snd kx.
Let render := fun (level : nat) (kv : string * pyval) =>
                match kv with (k, x) => (k, enc (S level) x) end.

Lemma enc_list_text (level : nat) (l : list pyval) (r : string) :
  enc level (PList l) +:+ r
  = String "[" (PyStr.join ", " (map (enc (S level)) l) +:+ String "]" r).
Proof.
  unfold enc. cbn [Py.json_encode]. fold enc.
  destruct (map (enc (S level)) l) as [|x xs]; [reflexivity|].
  rewrite ?append_nil, !append_assoc. reflexivity.
Qed.

Lemma enc_dict_text (level : nat) (d : pydict) (r : string) :
  enc level (PDict d) +:+ r
  = String "{" (PyStr.join ", " (map item (Py.sort_by_key (map (render level) d)))
                  +:+ String "}" r).
Proof.
  unfold enc. cbn [Py.json_encode]. fold enc. fold (render level).
  destruct (Py.sort_by_key (map (render level) d)) as [|x xs]; [reflexivity|].
  fold item. rewrite ?append_nil, !append_assoc. reflexivity.
Qed.

Lemma item_text (kx : string * string) (r : string) :
  item kx +:+ r = Py.json_str true (fst kx) +:+ String ":" (String " " (snd kx +:+ r)).
Proof. unfold item. rewrite !append_assoc. reflexivity. Qed.

(** The text of a value starts with an opener. *)
Lemma enc_opens (level : nat) (v : pyval) (r : string) :
  float_free v = true -> opens (enc level v +:+ r) = true.
Proof.
  intros Hv. destruct v as [| [] | z | q | s | l | d].
  - reflexivity.
  - reflexivity.
  - reflexivity.
  - apply of_Z_opens.
  - discriminate Hv.
  - unfold enc. cbn [Py.json_encode]. rewrite json_str_text. reflexivity.
  - rewrite enc_list_text. reflexivity.
  - rewrite enc_dict_text. reflexivity.
Qed.

Lemma item_opens (kx : string * string) (r : string) : opens (item kx +:+ r) = true.
Proof. rewrite item_text, json_str_text. reflexivity. Qed.

Lemma of_Z_head (z : Z) (r : string) :
  exists c r', PyStr.of_Z z +:+ r = String c r' /\
               (PyStr.is_digit c = true \/ c = "-"%char).
Proof.
  destruct (of_Z_digits z) as (ds & -> & Hall & Hne & _).
  destruct (z <? 0).
  - eexists _, _. split; [apply append_cons|right; reflexivity].
  - destruct ds as [|c ds]; [destruct Hne; reflexivity|].
    cbn [all_chars] in Hall. apply andb_prop in Hall as [Hc _].
    eexists _, _. split; [apply append_cons|left; exact Hc].
Qed.

(** The text of a value without floats, followed by a closer or by
    nothing, tells the value up to the order of the keys of its dicts. *)
Lemma enc_split (a : pyval) :
  forall (b : pyval) (l1 l2 : nat) (r1 r2 : string),
    float_free a = true -> float_free b = true -> distinct_keys b = true ->
    closes r1 = true -> closes r2 = true ->
    enc l1 a +:+ r1 = enc l2 b +:+ r2 ->
    same_json a b = true /\ r1 = r2.
Proof.
  induction a as [| x | x | x | s | la IH | da IH] using pyval_nested_ind;
    intros b l1 l2 r1 r2 Ha Hb Hkb Hr1 Hr2 Heq.
  - destruct b as [| [] | y | y | t | lb | db]; try discriminate Hb.
    + apply (append_inv_head "null") in Heq. subst r2. split; reflexivity.
    + discriminate Heq.
    + discriminate Heq.
    + exfalso. destruct (of_Z_head y r2) as (c & r' & Hy & Hc).
      unfold enc in Heq. cbn [Py.json_encode] in Heq. rewrite Hy in Heq.
      injection Heq as <- _. destruct Hc as [Hc|Hc]; discriminate Hc.
    + unfold enc in Heq. cbn [Py.json_encode] in Heq. rewrite json_str_text in Heq.
      discriminate Heq.
    + rewrite enc_list_text in Heq. discriminate Heq.
    + rewrite enc_dict_text in Heq. discriminate Heq.
  - destruct b as [| y | y | y | t | lb | db]; try discriminate Hb.
    + destruct x; discriminate Heq.
    + unfold enc in Heq. cbn [Py.json_encode] in Heq.
      destruct x, y; try discriminate Heq; apply append_inv_head in Heq; subst r2;
        split; reflexivity.
    + exfalso. destruct (of_Z_head y r2) as (c & r' & Hy & Hc).
      unfold enc in Heq. cbn [Py.json_encode] in Heq. rewrite Hy in Heq.
      destruct x; injection Heq as <- _; destruct Hc as [Hc|Hc]; discriminate Hc.
    + unfold enc in Heq. cbn [Py.json_encode] in Heq. rewrite json_str_text in Heq.
      destruct x; discriminate Heq.
    + rewrite enc_list_text in Heq. destruct x; discriminate Heq.
    + rewrite enc_dict_text in Heq. destruct x; discriminate Heq.
  - destruct (of_Z_head x r1) as (c & r' & Hx & Hc).
    destruct b as [| y | y | y | t | lb | db]; try discriminate Hb.
    + exfalso. unfold enc in Heq. cbn [Py.json_encode] in Heq. rewrite Hx in Heq.
      injection Heq as -> _. destruct Hc as [Hc|Hc]; discriminate Hc.
    + exfalso. unfold enc in Heq. cbn [Py.json_encode] in Heq. rewrite Hx in Heq.
      destruct y; injection Heq as -> _; destruct Hc as [Hc|Hc]; discriminate Hc.
    + unfold enc in Heq. cbn [Py.json_encode] in Heq.
      destruct (of_Z_split _ _ _ _ Hr1 Hr2 Heq) as [-> ->].
      split; [cbn [same_json]; apply Z.eqb_refl|reflexivity].
    + exfalso. unfold enc in Heq. cbn [Py.json_encode] in Heq.
      rewrite Hx, json_str_text in Heq.
      injection Heq as -> _. destruct Hc as [Hc|Hc]; discriminate Hc.
    + exfalso. rewrite enc_list_text in Heq. unfold enc in Heq. cbn [Py.json_encode] in Heq.
      rewrite Hx in Heq. injection Heq as -> _. destruct Hc as [Hc|Hc]; discriminate Hc.
    + exfalso. rewrite enc_dict_text in Heq. unfold enc in Heq. cbn [Py.json_encode] in Heq.
      rewrite Hx in Heq. injection Heq as -> _. destruct Hc as [Hc|Hc]; discriminate Hc.
  - discriminate Ha.
  - unfold enc in Heq at 1. cbn [Py.json_encode] in Heq. rewrite json_str_text in Heq.
    destruct b as [| y | y | y | t | lb | db]; try discriminate Hb.
    + discriminate Heq.
    + destruct y; discriminate Heq.
    + exfalso. destruct (of_Z_head y r2) as (c & r' & Hy & Hc).
      unfold enc in Heq. cbn [Py.json_encode] in Heq. rewrite Hy in Heq.
      injection Heq as <- _. destruct Hc as [Hc|Hc]; discriminate Hc.
    + unfold enc in Heq. cbn [Py.json_encode] in Heq. rewrite json_str_text in Heq.
      injection Heq as Heq. destruct (json_chars_split _ _ _ _ Heq) as [-> ->].
      split; [cbn [same_json]; apply String.eqb_refl|reflexivity].
    + rewrite enc_list_text in Heq. discriminate Heq.
    + rewrite enc_dict_text in Heq. discriminate Heq.
  - rewrite enc_list_text in Heq.
    destruct b as [| y | y | y | t | lb | db]; try discriminate Hb.
    + discriminate Heq.
    + destruct y; discriminate Heq.
    + exfalso. destruct (of_Z_head y r2) as (c & r' & Hy & Hc).
      unfold enc in Heq. cbn [Py.json_encode] in Heq. rewrite Hy in Heq.
      injection Heq as <- _. destruct Hc as [Hc|Hc]; discriminate Hc.
    + unfold enc in Heq. cbn [Py.json_encode] in Heq. rewrite json_str_text in Heq.
      discriminate Heq.
    + rewrite enc_list_text in Heq. injection Heq as Heq.
      cbn [float_free] in Ha, Hb. cbn [distinct_keys] in Hkb.
      rewrite forallb_forall in Ha, Hb, Hkb.
      destruct (join_split (enc (S l1)) (enc (S l2)) (fun x y => same_json x y = true) "]"
                  eq_refl ltac:(discriminate) la lb r1 r2) as [Hall ->].
      * rewrite List.Forall_forall in IH. apply List.Forall_forall. intros x Hx.
        split; [intros r; apply enc_opens, Ha, Hx|].
        intros y s1 s2 Hy Hs1 Hs2 Hxy.
        exact (IH x Hx y _ _ _ _ (Ha x Hx) (Hb y Hy) (Hkb y Hy) Hs1 Hs2 Hxy).
      * apply List.Forall_forall. intros y Hy r. apply enc_opens, Hb, Hy.
      * exact Heq.
      * split; [apply same_json_lists, Hall|reflexivity].
    + rewrite enc_dict_text in Heq. discriminate Heq.
  - rewrite enc_dict_text in Heq.
    destruct b as [| y | y | y | t | lb | db]; try discriminate Hb.
    + discriminate Heq.
    + destruct y; discriminate Heq.
    + exfalso. destruct (of_Z_head y r2) as (c & r' & Hy & Hc).
      unfold enc in Heq. cbn [Py.json_encode] in Heq. rewrite Hy in Heq.
      injection Heq as <- _. destruct Hc as [Hc|Hc]; discriminate Hc.
    + unfold enc in Heq. cbn [Py.json_encode] in Heq. rewrite json_str_text in Heq.
      discriminate Heq.
    + rewrite enc_list_text in Heq. discriminate Heq.
    + rewrite enc_dict_text in Heq. injection Heq as Heq.
      cbn [float_free] in Ha, Hb. cbn [distinct_keys] in Hkb.
      apply andb_prop in Hkb as [Hnd Hkb].
      rewrite forallb_forall in Ha, Hb, Hkb. rewrite List.Forall_forall in IH.
      assert (Hfrom : forall level (d : pydict) kx,
                 In kx (Py.sort_by_key (map (render level) d)) ->
                 exists k v, kx = (k, enc (S level) v) /\ In (k, v) d).
      { intros level d kx Hin.
        apply (Permutation_in _ (sort_by_key_permutation _)) in Hin.
        apply in_map_iff in Hin as ([k v] & <- & Hin). exists k, v. split; [reflexivity|exact Hin]. }
      assert (Hinto : forall level (d : pydict) k v,
                 In (k, v) d -> In (k, enc (S level) v) (Py.sort_by_key (map (render level) d))).
      { intros level d k v Hin.
        apply (Permutation_in _ (Permutation_sym (sort_by_key_permutation _))).
        apply in_map_iff. exists (k, v). split; [reflexivity|exact Hin]. }
      destruct (join_split item item eq "}" eq_refl ltac:(discriminate)
                  (Py.sort_by_key (map (render l1) da)) (Py.sort_by_key (map (render l2) db))
                  r1 r2) as [Hall ->].
      * apply List.Forall_forall. intros kx Hkx. split; [intros r; apply item_opens|].
        intros ky s1 s2 Hky Hs1 Hs2 Hxy.
        destruct (Hfrom _ _ _ Hkx) as (k & v & -> & Hv).
        destruct (Hfrom _ _ _ Hky) as (k' & w & -> & Hw).
        rewrite !item_text in Hxy. cbn [fst snd] in Hxy.
        destruct (json_str_split _ _ _ _ Hxy) as [-> Htail]. injection Htail as Htail.
        destruct (IH (k', v) Hv w _ _ _ _ (Ha _ Hv) (Hb _ Hw) (Hkb _ Hw) Hs1 Hs2 Htail)
          as [_ ->].
        apply append_inv_tail in Htail. rewrite Htail. split; reflexivity.
      * apply List.Forall_forall. intros ky _ r. apply item_opens.
      * exact Heq.
      * split; [|reflexivity].
        assert (Hsame : Py.sort_by_key (map (render l1) da)
                        = Py.sort_by_key (map (render l2) db)).
        { clear -Hall. induction Hall as [|x y xs ys -> _ IHall]; [reflexivity|].
          rewrite IHall. reflexivity. }
        cbn [same_json]. apply andb_true_intro. split.
        -- apply Nat.eqb_eq.
           rewrite <- (length_map (render l1) da), <- (length_map (render l2) db).
           rewrite <- (Permutation_length (sort_by_key_permutation (map (render l1) da))).
           rewrite <- (Permutation_length (sort_by_key_permutation (map (render l2) db))).
           rewrite Hsame. reflexivity.
        -- apply forallb_forall. intros [k v] Hv.
           pose proof (Hinto l1 da k v Hv) as Hin. rewrite Hsame in Hin.
           destruct (Hfrom _ _ _ Hin) as (k' & w & Hkw & Hw). injection Hkw as <- Henc.
           rewrite (In_dict_get _ _ _ Hnd Hw).
           refine (proj1 (IH (k, v) Hv w (S l1) (S l2) "" "" (Ha _ Hv) (Hb _ Hw) (Hkb _ Hw)
                            eq_refl eq_refl _)).
           exact (f_equal (fun s => s +:+ "") Henc).
Qed.

End ValueText.

Section CacheKey.
Context `{PyRuntime}.

(** The hashed text of a request without a body tells the method and the
    endpoint apart, when no method has a colon. *)
Lemma cache_data_no_body_inj (m1 e1 m2 e2 : string) :
  no_colon m1 = true -> no_colon m2 = true ->
  cache_data m1 e1 None = cache_data m2 e2 None -> m1 = m2 /\ e1 = e2.
Proof.
  unfold cache_data. intros H1 H2 Heq.
  change (m1 +:+ String ":" (e1 +:+ ":" +:+ "") = m2 +:+ String ":" (e2 +:+ ":" +:+ "")) in Heq.
  apply first_colon_split in Heq as [-> Heq]; [|assumption..].
  apply append_inv_tail in Heq. split; [reflexivity|exact Heq].
Qed.

(** The hashed text tells the method, when no method has a colon. *)
Lemma cache_data_method (m1 e1 m2 e2 : string) (b1 b2 : option pydict) :
  no_colon m1 = true -> no_colon m2 = true ->
  cache_data m1 e1 b1 = cache_data m2 e2 b2 ->
  m1 = m2 /\ cache_data "" e1 b1 = cache_data "" e2 b2.
Proof.
  unfold cache_data. intros Hm1 Hm2 Heq.
  match type of Heq with
  | _ +:+ ":" +:+ ?rest1 = _ +:+ ":" +:+ ?rest2 =>
      change (m1 +:+ String ":" rest1 = m2 +:+ String ":" rest2) in Heq;
      apply first_colon_split in Heq as [-> Heq]; [|assumption..];
      rewrite Heq
  end.
  split; reflexivity.
Qed.

(** And the endpoint and the text of the body, when no endpoint has a
    colon either. *)
Lemma cache_data_inj (e1 e2 : string) (b1 b2 : option pydict) :
  no_colon e1 = true -> no_colon e2 = true ->
  cache_data "" e1 b1 = cache_data "" e2 b2 ->
  e1 = e2 /\ cache_data "" "" b1 = cache_data "" "" b2.
Proof.
  unfold cache_data. intros He1 He2 Heq.
  apply (append_inv_head ":") in Heq.
  match type of Heq with
  | _ +:+ ":" +:+ ?j1 = _ +:+ ":" +:+ ?j2 =>
      change (e1 +:+ String ":" j1 = e2 +:+ String ":" j2) in Heq;
      apply first_colon_split in Heq as [-> Heq]; [|assumption..];
      rewrite Heq
  end.
  split; reflexivity.
Qed.

Lemma last_char_append (a b : string) (c : ascii) :
  last_char b = Some c -> last_char (a +:+ b) = Some c.
Proof.
  intros Hb. induction a as [|x a IH]; [exact Hb|].
  rewrite append_cons. cbn [last_char].
  destruct (a +:+ b) eqn:Hab; [discriminate IH|exact IH].
Qed.

(** The hashed text ends in a colon when there is no body to hash, and in
    a closing brace when there is one. *)
Lemma cache_data_end (e : string) (b : option pydict) :
  last_char (cache_data "" e b) = Some (if body_less b then ":"%char else "}"%char).
Proof.
  unfold cache_data.
  destruct b as [[|kv d]|]; cbn [body_less]; do 3 apply last_char_append;
    try reflexivity.
  apply last_char_append.
  rewrite <- (append_empty_r (Py.json_dumps_sorted (PDict (kv :: d)))).
  unfold Py.json_dumps_sorted. rewrite enc_dict_text.
  match goal with
  | |- last_char (String "{" (?x +:+ String "}" "")) = _ =>
      change (last_char (String "{" x +:+ String "}" "") = Some "}"%char)
  end.
  apply last_char_append. reflexivity.
Qed.

(** Two bodies with the same text are the same to the cache. *)
Lemma body_text_inj (b1 b2 : option pydict) :
  plain_body b1 = true -> plain_body b2 = true ->
  cache_data "" "" b1 = cache_data "" "" b2 -> same_body b1 b2 = true.
Proof.
  assert (Hfull : forall kv d, plain_body (Some (kv :: d)) = true ->
                               Py.json_dumps_sorted (PDict (kv :: d)) <> ""%string).
  { intros kv d Hp Hempty. apply andb_prop in Hp as [_ Hff].
    pose proof (enc_opens 0 (PDict (kv :: d)) "" Hff) as Hopen.
    rewrite append_empty_r in Hopen. unfold Py.json_dumps_sorted in Hempty.
    rewrite Hempty in Hopen. discriminate Hopen. }
  assert (Hstrip : forall j1 j2 : string,
             "" +:+ ":" +:+ "" +:+ ":" +:+ j1 = "" +:+ ":" +:+ "" +:+ ":" +:+ j2 -> j1 = j2).
  { intros j1 j2 E. exact (append_inv_head "::" j1 j2 E). }
  unfold cache_data. intros H1 H2 Heq. apply Hstrip in Heq.
  destruct b1 as [[|kv1 d1]|], b2 as [[|kv2 d2]|]; try reflexivity;
    cbn [same_body]; cbv beta iota in Heq;
    try (exfalso;
         first [exact (Hfull _ _ H1 Heq) | symmetry in Heq; exact (Hfull _ _ H2 Heq)]).
  apply andb_prop in H1 as [_ Hff1]. apply andb_prop in H2 as [Hdk2 Hff2].
  refine (proj1 (enc_split (PDict (kv1 :: d1)) (PDict (kv2 :: d2)) 0%nat 0%nat "" ""
                   Hff1 Hff2 Hdk2 eq_refl eq_refl _)).
  rewrite !append_empty_r. exact Heq.
Qed.


End CacheKey.



Example cache_key_value :
  @_get_cache_key sample_runtime "GET" "status_show" None = "a7318844cd438bd5dcff59c794ab4cfd"%string.
Proof. vm_compute. reflexivity. Qed.

(** ** The response envelope and the dispatcher *)

Lemma dict_get_set (k k' : string) (v : pyval) (d : pydict) :
  Py.dict_get k (Py.dict_set k' v d)
  = if String.eqb k' k then Some v else Py.dict_get k d.
Proof.
  induction d as [|[k0 v0] r IH]; simpl.
  - reflexivity.
  - destruct (String.eqb_spec k0 k') as [->|Hne]; simpl.
    + destruct (String.eqb k' k); reflexivity.
    + rewrite IH. destruct (String.eqb_spec k0 k) as [->|Hne']; [|reflexivity].
      destruct (String.eqb_spec k' k) as [->|_]; [destruct Hne|]; reflexivity.
Qed.

Lemma has_key_set (k k' : string) (v : pyval) (d : pydict) :
  Py.has_key k (Py.dict_set k' v d) = String.eqb k' k || Py.has_key k d.
Proof.
  unfold Py.has_key. rewrite dict_get_set. destruct (String.eqb k' k); reflexivity.
Qed.

Section EnvelopeProofs.
Context `{PyRuntime}.

(** What [to_dict] writes, for any envelope. *)
Lemma to_dict_keys (r : StandardResponse) :
  Py.dict_get "success" (to_dict r) = Some (PBool (success r)) /\
  Py.dict_get "data" (to_dict r) = match data r with PNone => None | d => Some d end /\
  Py.dict_get "error" (to_dict r) = if Py.truthy (error r) then Some (error r) else None.
Proof.
  unfold to_dict.
  destruct (Py.truthy (error r)); rewrite ?dict_get_set; simpl;
    destruct (data r); repeat split; reflexivity.
Qed.

Lemma classify_kind (message : string) : In (classify message) five_kinds.
Proof. unfold five_kinds. destruct (classify message); simpl; auto 6. Qed.

(** C2. When the operation a tool call runs raises, the dispatcher returns
    an envelope with [success] false and an error record that carries one
    of the five kinds, the message of the exception, the name of the tool
    and the arguments of the call; the serialized envelope has that error
    and no data, and the call itself returns it as one text content: no
    exception leaves [handle_call_tool]. *)
Theorem thrown_failure_is_enveloped (name : string) (arguments : option pydict)
    (c : CKANAPIClient) (w : World) (e : PyExn) (st : State) :
  dispatch name (args_value arguments) {| client := c; world := w |} = (Raise e, st) ->
  let srv := {| ckan_client := Some c; outside := w |} in
  let r := fst (call_tool_response name arguments srv) in
  success r = false /\
  (exists kind,
      In kind five_kinds /\
      error r = PDict [ ("type", PStr (MCPErrorType_value kind));
                        ("message", PStr (exn_msg e));
                        ("tool", PStr name);
                        ("arguments", args_value arguments) ]%string) /\
  Py.dict_get "success" (to_dict r) = Some (PBool false) /\
  Py.dict_get "error" (to_dict r) = Some (error r) /\
  Py.dict_get "data" (to_dict r) = None /\
  fst (handle_call_tool name arguments srv)
  = [ {| type := "text";
         text := Py.json_encode true false (Some 2%nat) 0 (PDict (to_dict r)) |} ].
Proof.
  intros Hrun srv r.
  assert (Hr : call_tool_response name arguments srv
               = (set_execution_time
                    (StandardResponse_init (now (world st)) false PNone
                       (PDict [ ("type", PStr (MCPErrorType_value (classify (exn_msg e))));
                                ("message", PStr (exn_msg e));
                                ("tool", PStr name);
                                ("arguments", args_value arguments) ]%string))
                    (now w) (now (world st)),
                  {| ckan_client := Some (client st); outside := world st |})).
  { unfold call_tool_response, srv. simpl. rewrite Hrun. reflexivity. }
  unfold handle_call_tool. subst r. rewrite Hr. simpl.
  split; [reflexivity|]. split.
  - exists (classify (exn_msg e)). split; [apply classify_kind|reflexivity].
  - repeat split.
Qed.

(** C3. For every envelope the dispatcher builds, the serialized envelope
    has the error field exactly when [success] is false, and the data
    field exactly when [success] is true and the result is not [None]. *)
Theorem envelope_data_and_error (name : string) (arguments : option pydict) (srv : Server) :
  let r := fst (call_tool_response name arguments srv) in
  (Py.has_key "error" (to_dict r) = true <-> success r = false) /\
  (Py.has_key "data" (to_dict r) = true <-> success r = true /\ data r <> PNone).
Proof.
  intros r. subst r. unfold call_tool_response.
  destruct (ckan_client srv) as [c|].
  - destruct (dispatch name (args_value arguments) _) as [[result|e] st].
    + unfold Py.has_key.
      destruct (to_dict_keys (set_execution_time
                  (StandardResponse_init (now (world st)) true result PNone)
                  (now (outside srv)) (now (world st)))) as (_ & Hd & He).
      simpl fst. rewrite Hd, He. simpl. split.
      * split; discriminate.
      * destruct result; split; try discriminate; try (intros [_ Hn]; congruence);
          intros _; (split; [reflexivity|discriminate]).
    + simpl. split; split; try reflexivity; try discriminate. intros [Hs _]. discriminate Hs.
  - simpl. split; split; try reflexivity; try discriminate. intros [Hs _]. discriminate Hs.
Qed.

End EnvelopeProofs.

(** A dataset the portal does not have: the failure comes back as a
    [data_not_found] envelope. *)
Lemma thrown_failure_is_enveloped_witness :
  let arguments := Some [("id", PStr "no-such-dataset")]%string in
  let r := fst (@call_tool_response sample_runtime "ckan_package_show" arguments
                  (server_on (fixed_world not_found_body))) in
  success r = false /\
  Py.dict_get "error" (to_dict r) = Some (error r) /\
  Py.dict_get "data" (to_dict r) = None.
Proof.
  intros arguments r.
  eassert (Hrun : @dispatch sample_runtime "ckan_package_show" (args_value arguments)
                    {| client := sample_client; world := fixed_world not_found_body |}
                  = (Raise _, _)) by (vm_compute; reflexivity).
  destruct (@thrown_failure_is_enveloped sample_runtime _ _ _ _ _ _ Hrun)
    as (Hs & _ & _ & He & Hd & _).
  repeat split; assumption.
Defined.

Example not_found_is_classified :
  error (fst (@call_tool_response sample_runtime "ckan_package_show"
                (Some [("id", PStr "no-such-dataset")]%string)
                (server_on (fixed_world not_found_body))))
  = PDict [ ("type", PStr "data_not_found");
            ("message", PStr "Request failed: CKAN API Error: {'message': 'Not found', '__type': 'Not Found Error'}");
            ("tool", PStr "ckan_package_show");
            ("arguments", PDict [("id", PStr "no-such-dataset")]) ]%string.
Proof. vm_compute. reflexivity. Qed.

(** The claim fails on a result that is [None]: the call succeeds and the
    serialized envelope has no data field. *)
Lemma envelope_without_data :
  let r := fst (@call_tool_response sample_runtime "ckan_site_read" None
                  (server_on (fixed_world null_result_body))) in
  success r = true /\
  Py.has_key "data" (to_dict r) = false /\
  Py.has_key "error" (to_dict r) = false /\
  ~ (Py.has_key "data" (to_dict r) = true <-> success r = true).
Proof.
  vm_compute. repeat split. intros [_ Hdata]. discriminate (Hdata eq_refl).
Qed.

(** ** The filter clause *)

Section SearchProofs.
Context `{PyRuntime}.

(** C4. [faceted_search] joins its filters into [field:value] pairs with
    [AND] and renders each value whole: the filters
    [{organization: "x", tags: "a,b"}] give the clause
    [organization:x AND tags:a,b]. It is the command-line explorer's
    [search_packages] that splits a comma-separated tags value into one
    pair per trimmed tag: for the organization [x] and the tags [a,b] it
    gives [organization:x AND tags:a AND tags:b]. *)
Theorem filter_clause_of_filters :
  (forall (q facet_fields : pyval) (kv : string * pyval) (items : pydict),
      fq_of (faceted_search_params q facet_fields (PDict (kv :: items)) PNone PNone)
      = Ok (Some (PStr (PyStr.join " AND "
                          (map (fun fv => fst fv +:+ ":" +:+ Py.str (snd fv)) (kv :: items))))))
  /\
  fq_of (faceted_search_params (PStr "*:*") PNone org_and_tags PNone PNone)
  = Ok (Some (PStr "organization:x AND tags:a,b"))
  /\
  (forall (o t : string), o <> ""%string -> t <> ""%string ->
      CKANExplorer.fq_parts (Some o) (Some t)
      = ("organization:" +:+ o) :: map (fun tag => "tags:" +:+ PyStr.strip tag) (PyStr.split "," t))
  /\
  CKANExplorer.fq (Some "x"%string) (Some "a,b"%string)
  = Some "organization:x AND tags:a AND tags:b"%string.
Proof.
  split; [|split; [|split]].
  - intros q facet_fields kv items.
    reflexivity.
  - reflexivity.
  - intros o t Ho Ht. unfold CKANExplorer.fq_parts.
    destruct (String.eqb_spec o "") as [->|_]; [destruct Ho; reflexivity|].
    destruct (String.eqb_spec t "") as [->|_]; [destruct Ht; reflexivity|].
    reflexivity.
  - reflexivity.
Qed.

End SearchProofs.

(** The claim fails on [faceted_search]: the tags value stays whole. *)
Lemma faceted_filter_keeps_tags_whole :
  fq_of (@faceted_search_params sample_runtime (PStr "*:*") PNone org_and_tags PNone PNone)
  = Ok (Some (PStr "organization:x AND tags:a,b"))
  /\ "organization:x AND tags:a,b"%string <> "organization:x AND tags:a AND tags:b"%string.
Proof. split; [reflexivity|discriminate]. Qed.

Lemma filter_clause_of_filters_witness :
  CKANExplorer.fq_parts (Some "x"%string) (Some " a, b"%string)
  = ["organization:x"; "tags:a"; "tags:b"]%string.
Proof.
  pose proof (@filter_clause_of_filters sample_runtime) as (_ & _ & Hparts & _).
  rewrite (Hparts "x" " a, b")%string by discriminate. reflexivity.
Defined.

(** The request [faceted_search] sends for those filters. *)
Example faceted_search_request :
  map req_url
    (sent (world (snd (@faceted_search sample_runtime (PStr "*:*") PNone org_and_tags PNone PNone
                         {| client := sample_client; world := status_world 0 |}))))
  = [ "https://demo.ckan.org/api/3/action/package_search?q=%2A%3A%2A&facet=true&facet.field=%5B%22tags%22%2C%20%22organization%22%2C%20%22res_format%22%5D&rows=100&fq=organization%3Ax%20AND%20tags%3Aa%2Cb" ]%string.
Proof. vm_compute. reflexivity. Qed.

(** ** Dataset analytics *)

(** One step of a computation that ended well: the step ended well too. *)
Ltac step_ok H x E :=
  match type of H with
  | rbind ?c _ = Ok _ => destruct c as [x|?] eqn:E; [simpl in H | discriminate H]
  end.

Section AnalyticsProofs.
Context `{PyRuntime}.

(** Without a tracking summary the value read is 0. *)
Lemma tracking_absent (d : pydict) (field : string) :
  Py.dict_get "tracking_summary" d = None ->
  tracking (PDict d) field = Ok (PInt 0).
Proof. intros Hd. unfold tracking. simpl. rewrite Hd. reflexivity. Qed.

(** With one, the value is its field, or 0 when it lacks the field. *)
Lemma tracking_present (d s : pydict) (field : string) :
  Py.dict_get "tracking_summary" d = Some (PDict s) ->
  tracking (PDict d) field
  = Ok (match Py.dict_get field s with Some v => v | None => PInt 0 end).
Proof. intros Hd. unfold tracking. simpl. rewrite Hd. reflexivity. Qed.

(** The entries of [analytics["metrics"]] for views and downloads. *)
Lemma dataset_metrics_tracking (metrics dataset : pyval) (m : pydict) :
  dataset_metrics metrics dataset = Ok m ->
  (exists wanted,
      Py.contains "views" metrics = Ok wanted /\
      if wanted then exists v, tracking dataset "total" = Ok v /\ Py.dict_get "views" m = Some v
      else Py.dict_get "views" m = None) /\
  (exists wanted,
      Py.contains "downloads" metrics = Ok wanted /\
      if wanted then exists v, tracking dataset "recent" = Ok v /\ Py.dict_get "downloads" m = Some v
      else Py.dict_get "downloads" m = None).
Proof.
  unfold dataset_metrics. intros Hm.
  step_ok Hm w1 E1. step_ok Hm m1 Em1.
  step_ok Hm w2 E2. step_ok Hm m2 Em2.
  step_ok Hm w3 E3. step_ok Hm m3 Em3.
  step_ok Hm created Ec. step_ok Hm modified Emo. step_ok Hm tags Et.
  step_ok Hm tags_count Etc. step_ok Hm organization Eo. step_ok Hm oname Eon.
  injection Hm as <-. rewrite !dict_get_set. simpl.
  assert (Hm1v : Py.dict_get "views" m1 = None /\ Py.dict_get "downloads" m1 = None).
  { destruct w1.
    - step_ok Em1 resources Er. step_ok Em1 n En. injection Em1 as <-. split; reflexivity.
    - injection Em1 as <-. split; reflexivity. }
  destruct Hm1v as [Hv1 Hd1].
  assert (Hm2 : (if w2 then exists v, tracking dataset "total" = Ok v /\ Py.dict_get "views" m2 = Some v
                 else Py.dict_get "views" m2 = None) /\ Py.dict_get "downloads" m2 = None).
  { destruct w2.
    - step_ok Em2 vtotal Etot. injection Em2 as <-. rewrite !dict_get_set. simpl.
      split; [exists vtotal; split; reflexivity|exact Hd1].
    - injection Em2 as <-. split; assumption. }
  destruct Hm2 as [Hv2 Hd2].
  destruct w3.
  - step_ok Em3 vrecent Erec. injection Em3 as <-. rewrite !dict_get_set. simpl. split.
    + exists w2. split; [reflexivity|exact Hv2].
    + exists true. split; [reflexivity|]. exists vrecent. split; reflexivity.
  - injection Em3 as <-. split.
    + exists w2. split; [reflexivity|exact Hv2].
    + exists false. split; [reflexivity|exact Hd2].
Qed.

(** C5. In the report on one dataset, a requested views metric is the
    [total] of the dataset's tracking summary and a requested downloads
    metric its [recent]; a summary that lacks the field, and a dataset that
    has no tracking summary, give the value 0: the entry is in the report,
    not left out. A metric that was not requested has no entry. *)
Theorem tracking_metrics_default_to_zero (dataset_id time_range metrics : pyval)
    (st st' : State) (report : pyval) :
  Py.eq_str dataset_id "all" = false ->
  get_dataset_analytics dataset_id time_range metrics st = (Ok report, st') ->
  let requested := match metrics with PNone => default_metrics | _ => metrics end in
  exists dataset,
    _make_request "GET" ("package_show?id=" +:+ Py.str dataset_id) None true st
    = (Ok dataset, st') /\
    (exists wanted,
        Py.contains "views" requested = Ok wanted /\
        if wanted
        then exists v, tracking dataset "total" = Ok v /\ metric_of "views" report = Some v
        else metric_of "views" report = None) /\
    (exists wanted,
        Py.contains "downloads" requested = Ok wanted /\
        if wanted
        then exists v, tracking dataset "recent" = Ok v /\ metric_of "downloads" report = Some v
        else metric_of "downloads" report = None) /\
    (forall d field, dataset = PDict d -> Py.dict_get "tracking_summary" d = None ->
                     tracking dataset field = Ok (PInt 0)) /\
    (forall d s field, dataset = PDict d -> Py.dict_get "tracking_summary" d = Some (PDict s) ->
                       tracking dataset field
                       = Ok (match Py.dict_get field s with Some v => v | None => PInt 0 end)).
Proof.
  intros Hone Hrun requested.
  unfold get_dataset_analytics in Hrun. rewrite Hone in Hrun. unfold bind, lift, ret in Hrun.
  destruct (_make_request "GET" ("package_show?id=" +:+ Py.str dataset_id) None true st)
    as [[dataset|e] st1]; [|discriminate Hrun].
  fold requested in Hrun.
  destruct (dataset_metrics requested dataset) as [m|e] eqn:Hm; [|discriminate Hrun].
  injection Hrun as <- <-.
  exists dataset. split; [reflexivity|].
  destruct (dataset_metrics_tracking _ _ _ Hm) as [Hviews Hdownloads].
  split; [exact Hviews|]. split; [exact Hdownloads|]. split.
  - intros d field -> Hd. apply tracking_absent, Hd.
  - intros d s field -> Hd. apply tracking_present, Hd.
Qed.

End AnalyticsProofs.

(** The claim fails on a dataset without a tracking summary: the report has
    both entries, with the value 0. *)
Lemma views_present_without_tracking :
  Py.get plain_dataset "tracking_summary" PNone = Ok PNone /\
  exists report st',
    @get_dataset_analytics sample_runtime (PStr "X") PNone (PList [PStr "views"; PStr "downloads"])
      {| client := sample_client; world := fixed_world (success_envelope plain_dataset) |}
    = (Ok report, st') /\
    metric_of "views" report = Some (PInt 0) /\
    metric_of "downloads" report = Some (PInt 0) /\
    metric_of "views" report <> None /\ metric_of "downloads" report <> None.
Proof.
  split; [reflexivity|]. eexists _, _. split; [vm_compute; reflexivity|].
  repeat split; discriminate.
Qed.

Lemma tracking_metrics_default_to_zero_witness :
  exists dataset v,
    tracking dataset "total" = Ok v /\
    exists report st',
      @get_dataset_analytics sample_runtime (PStr "X") PNone PNone
        {| client := sample_client; world := fixed_world (success_envelope plain_dataset) |}
      = (Ok report, st') /\
      metric_of "views" report = Some v.
Proof.
  eassert (Hrun : @get_dataset_analytics sample_runtime (PStr "X") PNone PNone
                    {| client := sample_client; world := fixed_world (success_envelope plain_dataset) |}
                  = (Ok _, _)) by (vm_compute; reflexivity).
  destruct (@tracking_metrics_default_to_zero sample_runtime (PStr "X") PNone PNone _ _ _ eq_refl Hrun)
    as (dataset & _ & (wanted & Hw & Hviews) & _).
  vm_compute in Hw. injection Hw as <-. destruct Hviews as (v & Ht & Hv).
  exists dataset, v. split; [exact Ht|]. eexists _, _. split; [exact Hrun|exact Hv].
Defined.

(** ** Data quality *)

Lemma in_dict_set (k n : string) (v e : pyval) (d : pydict) :
  In (n, e) (Py.dict_set k v d) -> (n = k /\ e = v) \/ In (n, e) d.
Proof.
  induction d as [|[k0 v0] r IH]; simpl.
  - intros [[= <- <-]|[]]. left. split; reflexivity.
  - destruct (String.eqb k0 k).
    + intros [[= <- <-]|Hin]; [left; split; reflexivity|right; right; exact Hin].
    + intros [Heq|Hin]; [right; left; exact Heq|].
      destruct (IH Hin) as [Hnew|Hold]; [left; exact Hnew|right; right; exact Hold].
Qed.

Lemma in_range_int_zero : in_range (PInt 0).
Proof. exists (inject_Z 0). split; [reflexivity|]. split; unfold Qle; simpl; lia. Qed.

(** [100 * k / n] for [0 <= k <= n] and [n > 0]. *)
Lemma ratio_of_hundred_in_range (k n : Z) :
  0 <= k <= n -> 0 < n ->
  in_range (PFloat (inject_Z k / inject_Z n * 100)).
Proof.
  intros Hk Hn. eexists. split; [reflexivity|].
  destruct n as [|p|p]; try lia.
  unfold Qle, Qdiv, Qmult, Qinv. simpl. split; nia.
Qed.

(** [s / n] for [0 <= s <= 100 * n] and [n > 0]. *)
Lemma mean_of_hundreds_in_range (s n : Z) :
  0 <= s <= 100 * n -> 0 < n ->
  in_range (PFloat (inject_Z s / inject_Z n)).
Proof.
  intros Hs Hn. eexists. split; [reflexivity|].
  destruct n as [|p|p]; try lia.
  unfold Qle, Qdiv, Qmult, Qinv. simpl. split; nia.
Qed.

Lemma sum_Q_bounds (l : list Q) :
  Forall (fun q => 0 <= q /\ q <= 100)%Q l ->
  (0 <= sum_Q l)%Q /\ (sum_Q l <= 100 * inject_Z (Z.of_nat (length l)))%Q.
Proof.
  induction 1 as [|q l [Hq0 Hq1] _ [IH0 IH1]].
  - simpl. split; unfold Qle; simpl; lia.
  - cbn [sum_Q fold_right length]. fold (sum_Q l). split.
    + replace 0%Q with (0 + 0)%Q by reflexivity. apply Qplus_le_compat; assumption.
    + rewrite Nat2Z.inj_succ, <- Z.add_1_l, inject_Z_plus.
      rewrite Qmult_plus_distr_r. apply Qplus_le_compat; [|exact IH1].
      exact Hq1.
Qed.

Section QualityProofs.
Context `{PyRuntime}.

Lemma count_present_bounds (dataset : pyval) (fields : list string) (n : Z) :
  count_present dataset fields = Ok n -> 0 <= n <= Z.of_nat (length fields).
Proof.
  revert n. induction fields as [|f r IH]; simpl; intros n Hn.
  - injection Hn as <-. lia.
  - step_ok Hn v Ev. step_ok Hn m Em. injection Hn as <-.
    specialize (IH m eq_refl). destruct (Py.truthy v); lia.
Qed.

Lemma format_scores_bounds (each : list pyval) (l : list Z) :
  rmap format_score_of each = Ok l ->
  0 <= sum_Z l <= 100 * Z.of_nat (length l).
Proof.
  revert l. induction each as [|x r IH]; simpl; intros l Hl.
  - injection Hl as <-. simpl. lia.
  - step_ok Hl y Ey. step_ok Hl ys Eys. injection Hl as <-.
    specialize (IH ys eq_refl).
    assert (Hy : y = 0 \/ y = 100).
    { unfold format_score_of in Ey.
      step_ok Ey fmt Ef. step_ok Ey res_format Er. step_ok Ey url Eu.
      injection Ey as <-. destruct (_ && _); auto. }
    cbn [sum_Z fold_right length]. fold (sum_Z ys). rewrite Nat2Z.inj_succ. lia.
Qed.

Lemma count_true_bounds (l : list bool) : 0 <= count_true l <= Z.of_nat (length l).
Proof.
  unfold count_true. induction l as [|b r IH]; [simpl; lia|].
  cbn [map sum_Z fold_right length]. fold (sum_Z (map (fun b : bool => if b then 1 else 0) r)).
  rewrite Nat2Z.inj_succ. destruct b; lia.
Qed.

Lemma completeness_sound : sound_check completeness_check.
Proof.
  intros dataset score entry Hc. unfold completeness_check in Hc.
  step_ok Hc n En. injection Hc as <- <-. split; [|reflexivity].
  apply count_present_bounds in En.
  apply ratio_of_hundred_in_range; [exact En|reflexivity].
Qed.

Lemma format_validation_sound : sound_check format_validation_check.
Proof.
  intros dataset score entry Hc. unfold format_validation_check in Hc.
  step_ok Hc resources Er. step_ok Hc each Ee. step_ok Hc l El. step_ok Hc n En.
  injection Hc as <- <-. split; [|reflexivity].
  apply format_scores_bounds in El. destruct l as [|z l]; [apply in_range_int_zero|].
  apply mean_of_hundreds_in_range; [exact El|simpl; lia].
Qed.

Lemma schema_compliance_sound : sound_check schema_compliance_check.
Proof.
  intros dataset score entry Hc. unfold schema_compliance_check in Hc.
  step_ok Hc license_id El. step_ok Hc a Ea. step_ok Hc m Em. step_ok Hc t Et.
  step_ok Hc spatial Es. injection Hc as <- <-. split; [|reflexivity].
  apply ratio_of_hundred_in_range; [apply count_true_bounds|reflexivity].
Qed.

Lemma run_check_sound (name : string) (check : pyval -> result (pyval * pyval))
    (checks dataset : pyval) (acc acc' : pydict * list pyval) :
  sound_check check -> sound_so_far acc ->
  run_check name check checks dataset acc = Ok acc' -> sound_so_far acc'.
Proof.
  intros Hcheck [Hentries Hscores] Hrun. unfold run_check in Hrun.
  step_ok Hrun wanted Ew. destruct wanted; [|injection Hrun as <-; split; assumption].
  step_ok Hrun scored Es. injection Hrun as <-.
  destruct scored as [score entry]. destruct (Hcheck _ _ _ Es) as [Hrange Hget].
  split; simpl.
  - intros n e Hin. apply in_dict_set in Hin as [[-> ->]|Hin]; [|apply (Hentries _ _ Hin)].
    exists score. split; assumption.
  - apply List.Forall_app. split; [exact Hscores|]. constructor; [exact Hrange|constructor].
Qed.

(** A check that was not asked for leaves everything as it was. *)
Lemma run_check_skipped (name : string) (check : pyval -> result (pyval * pyval))
    (checks dataset : pyval) (acc : pydict * list pyval) :
  Py.contains name checks = Ok false ->
  run_check name check checks dataset acc = Ok acc.
Proof. intros Hw. unfold run_check. rewrite Hw. reflexivity. Qed.

Lemma overall_in_range (scores : list pyval) :
  Forall in_range scores -> in_range (overall_of scores).
Proof.
  intros Hscores. destruct scores as [|s scores]; [apply in_range_int_zero|].
  unfold overall_of. eexists. split; [reflexivity|].
  assert (Hall : Forall (fun q => 0 <= q /\ q <= 100)%Q (map score_value (s :: scores))).
  { apply List.Forall_map. eapply List.Forall_impl; [|exact Hscores].
    intros v (q & Hq & Hb). unfold score_value. rewrite Hq. exact Hb. }
  apply sum_Q_bounds in Hall as [H0 H1]. rewrite length_map in H1.
  assert (Hpos : (0 < inject_Z (Z.of_nat (length (s :: scores))))%Q).
  { unfold Qlt. simpl. lia. }
  split.
  - apply Qle_shift_div_l; [exact Hpos|]. rewrite Qmult_0_l. exact H0.
  - apply Qle_shift_div_r; [exact Hpos|]. exact H1.
Qed.

(** C10. In every report [check_data_quality] returns, the overall score
    and the score of every check in the report lie between 0 and 100; when
    none of the three checks is requested the report has no check and the
    overall score is 0. *)
Theorem quality_scores_within_bounds (dataset_id checks sample_size : pyval)
    (st st' : State) (report : pyval) :
  check_data_quality dataset_id checks sample_size st = (Ok report, st') ->
  exists entries overall,
    report_checks report = Some entries /\
    report_overall report = Some overall /\
    in_range overall /\
    (forall name entry, In (name, entry) entries ->
                        exists score, Py.getitem entry "score" = Ok score /\ in_range score) /\
    (Py.contains "completeness" (requested_checks checks) = Ok false ->
     Py.contains "format_validation" (requested_checks checks) = Ok false ->
     Py.contains "schema_compliance" (requested_checks checks) = Ok false ->
     entries = [] /\ overall = PInt 0).
Proof.
  intros Hrun. unfold check_data_quality, bind, lift, utcnow_isoformat in Hrun.
  destruct (_make_request "GET" ("package_show?id=" +:+ Py.str dataset_id) None true st)
    as [[dataset|e] st1]; [|discriminate Hrun].
  destruct (quality_report_of dataset_id checks dataset (utc_isoformat (now (world st1))))
    as [r|e] eqn:Hr; [|discriminate Hrun].
  injection Hrun as <- <-.
  unfold quality_report_of in Hr. fold (requested_checks checks) in Hr.
  step_ok Hr dataset_name En. step_ok Hr acc1 E1. step_ok Hr acc2 E2. step_ok Hr acc3 E3.
  injection Hr as <-.
  assert (H0 : sound_so_far ([], [])) by (split; [intros ? ? []|constructor]).
  pose proof (run_check_sound _ _ _ _ _ _ completeness_sound H0 E1) as H1.
  pose proof (run_check_sound _ _ _ _ _ _ format_validation_sound H1 E2) as H2.
  pose proof (run_check_sound _ _ _ _ _ _ schema_compliance_sound H2 E3) as [Hentries Hscores].
  exists (fst acc3), (overall_of (snd acc3)).
  split; [reflexivity|]. split; [reflexivity|].
  split; [apply overall_in_range, Hscores|]. split; [exact Hentries|].
  intros Hc Hf Hs.
  rewrite (run_check_skipped _ _ _ _ _ Hc) in E1. injection E1 as <-.
  rewrite (run_check_skipped _ _ _ _ _ Hf) in E2. injection E2 as <-.
  rewrite (run_check_skipped _ _ _ _ _ Hs) in E3. injection E3 as <-.
  split; reflexivity.
Qed.

End QualityProofs.

Section EmptyResources.
Context `{PyRuntime}.

Lemma contains_only_format_validation :
  Py.contains "completeness" (PList [PStr "format_validation"]) = Ok false /\
  Py.contains "format_validation" (PList [PStr "format_validation"]) = Ok true /\
  Py.contains "schema_compliance" (PList [PStr "format_validation"]) = Ok false.
Proof. repeat split. Qed.

(** Without resources the format check scores the integer 0. *)
Lemma format_validation_empty (d : pydict) :
  Py.get (PDict d) "resources" (PList []) = Ok (PList []) ->
  format_validation_check (PDict d)
  = Ok (PInt 0, PDict [ ("score", PInt 0); ("resource_count", PInt 0);
                        ("valid_formats", str_list valid_formats) ]%string).
Proof. intros Hres. unfold format_validation_check. rewrite Hres. reflexivity. Qed.

(** C6. For a dataset whose resource list is empty (or missing),
    [check_data_quality] with the one check [format_validation] returns a
    report, and the score of that check is the integer 0. *)
Theorem empty_resources_score_zero (dataset_id sample_size : pyval) (d : pydict)
    (st st' : State) :
  _make_request "GET" ("package_show?id=" +:+ Py.str dataset_id) None true st
  = (Ok (PDict d), st') ->
  Py.get (PDict d) "resources" (PList []) = Ok (PList []) ->
  exists report,
    check_data_quality dataset_id (PList [PStr "format_validation"]) sample_size st
    = (Ok report, st') /\
    check_score "format_validation" report = Some (PInt 0).
Proof.
  intros Hfetch Hres.
  unfold check_data_quality, bind, lift, utcnow_isoformat. rewrite Hfetch.
  unfold quality_report_of.
  destruct contains_only_format_validation as (Hc & Hf & Hs).
  rewrite (run_check_skipped _ _ _ _ _ Hc).
  cbn [rbind Py.get]. unfold run_check at 1. rewrite Hf.
  cbn [rbind]. rewrite (format_validation_empty d Hres).
  cbn [rbind fst snd]. rewrite (run_check_skipped _ _ _ _ _ Hs).
  eexists. split; [reflexivity|]. reflexivity.
Qed.

End EmptyResources.

(** A dataset without resources, checked for its formats alone. *)
Lemma empty_resources_score_zero_witness :
  exists report st',
    @check_data_quality sample_runtime (PStr "X") (PList [PStr "format_validation"]) (PInt 100)
      {| client := sample_client; world := fixed_world (success_envelope bare_dataset) |}
    = (Ok report, st') /\
    check_score "format_validation" report = Some (PInt 0).
Proof.
  eassert (Hfetch : @_make_request sample_runtime "GET"
                      ("package_show?id=" +:+ @Py.str sample_runtime (PStr "X"))
                      None true
                      {| client := sample_client; world := fixed_world (success_envelope bare_dataset) |}
                    = (Ok (PDict _), _)) by (vm_compute; reflexivity).
  destruct (@empty_resources_score_zero sample_runtime (PStr "X") (PInt 100) _ _ _ Hfetch eq_refl)
    as (report & Hrun & Hscore).
  eexists report, _. split; [exact Hrun|exact Hscore].
Defined.

(** All three checks on a dataset with two resources. *)
Lemma quality_scores_within_bounds_witness :
  exists report st' overall,
    @check_data_quality sample_runtime (PStr "Y") PNone (PInt 100)
      {| client := sample_client; world := fixed_world (success_envelope two_resource_dataset) |}
    = (Ok report, st') /\
    report_overall report = Some overall /\ in_range overall.
Proof.
  eassert (Hrun : @check_data_quality sample_runtime (PStr "Y") PNone (PInt 100)
                    {| client := sample_client;
                       world := fixed_world (success_envelope two_resource_dataset) |}
                  = (Ok _, _)) by (vm_compute; reflexivity).
  destruct (@quality_scores_within_bounds sample_runtime _ _ _ _ _ _ Hrun)
    as (entries & overall & _ & Hoverall & Hrange & _).
  eexists _, _, overall. split; [exact Hrun|]. split; [exact Hoverall|exact Hrange].
Defined.

(** The scores of that report, as unreduced fractions: three of five
    fields (60), one of two resources (50), one of five schema items (20),
    and their mean (130/3). *)
Example quality_scores_of_two_resources :
  let report := fst (@check_data_quality sample_runtime (PStr "Y") PNone (PInt 100)
                       {| client := sample_client;
                          world := fixed_world (success_envelope two_resource_dataset) |}) in
  rbind report (fun r => Ok (option_map score_value (check_score "completeness" r),
                             option_map score_value (check_score "format_validation" r),
                             option_map score_value (check_score "schema_compliance" r),
                             option_map score_value (report_overall r)))
  = Ok (Some (300 # 5), Some (100 # 2), Some (100 # 5), Some (6500 # 150)).
Proof. vm_compute. reflexivity. Qed.

(** ** Resource preview *)

Section PreviewProofs.
Context `{PyRuntime}.

(** The tool [ckan_resource_preview] runs [preview_resource]. *)
Lemma dispatch_resource_preview (arguments : pyval) :
  dispatch "ckan_resource_preview" arguments
  = (let* resource_id := lift (Py.getitem arguments "resource_id") in
     let* preview_rows := lift (Py.get arguments "preview_rows" (PInt 10)) in
     let* generate_stats := lift (Py.get arguments "generate_stats" (PBool true)) in
     preview_resource resource_id preview_rows generate_stats).
Proof. reflexivity. Qed.

(** When the datastore query raises, the preview keeps the metadata of
    the resource, with no preview data and a note. *)
Lemma preview_resource_degrades (resource_id preview_rows generate_stats : pyval)
    (fields : pydict) (st st1 st2 : State) (e : PyExn) :
  _make_request "GET" ("resource_show?id=" +:+ Py.str resource_id) None true st
  = (Ok (PDict fields), st1) ->
  _make_request "GET" ("datastore_search?resource_id=" +:+ Py.str resource_id
                         +:+ "&limit=" +:+ Py.str preview_rows) None true st1
  = (Raise e, st2) ->
  preview_resource resource_id preview_rows generate_stats st
  = (Ok (degraded_preview resource_id fields), st2).
Proof.
  intros Hshow Hsearch. unfold preview_resource, bind. rewrite Hshow.
  unfold lift. cbn [Py.get]. unfold preview_datastore. rewrite Hsearch. reflexivity.
Qed.

(** The [try] block writes three keys of [preview] and no other. *)
Lemma preview_datastore_keeps (resource_id preview_rows generate_stats : pyval)
    (base p : pydict) (stopped : option PyExn) (st st' : State) (k : string) :
  preview_datastore resource_id preview_rows generate_stats base st = ((p, stopped), st') ->
  k <> "preview_data"%string -> k <> "total_records"%string ->
  k <> "field_statistics"%string ->
  Py.dict_get k p = Py.dict_get k base.
Proof.
  intros Hrun Hk1 Hk2 Hk3. unfold preview_datastore in Hrun.
  apply String.eqb_neq in Hk1, Hk2, Hk3.
  rewrite String.eqb_sym in Hk1, Hk2, Hk3.
  destruct (_make_request "GET" _ None true st) as [[info|e] st1];
    [|injection Hrun as <- _ _; reflexivity].
  cbn [run_statements] in Hrun.
  destruct (Py.get info "records" (PList [])) as [records|e];
    [|injection Hrun as <- _ _; reflexivity].
  cbn [rbind] in Hrun.
  destruct (Py.get info "total" (PInt 0)) as [tot|e]; cbn [rbind] in Hrun;
    [|injection Hrun as <- _ _; rewrite dict_get_set, Hk1; reflexivity].
  destruct (rbind (if Py.truthy generate_stats then Py.get info "fields" PNone
                   else Ok (PBool false)) _) as [p'|e] eqn:Hstats;
    injection Hrun as <- _ _;
    [|rewrite !dict_get_set, Hk1, Hk2; reflexivity].
  revert Hstats.
  destruct (if Py.truthy generate_stats then Py.get info "fields" PNone else Ok (PBool false))
    as [fields|e]; [|discriminate]. cbn [rbind].
  destruct (Py.truthy fields).
  - intros Hstats. step_ok Hstats fs Ef. step_ok Hstats each Ee. step_ok Hstats stats Es.
    injection Hstats as <-. rewrite !dict_get_set, Hk1, Hk2, Hk3. reflexivity.
  - intros [= <-]. rewrite !dict_get_set, Hk1, Hk2. reflexivity.
Qed.

(** Whatever stops the [try] block, the preview that comes back has no
    preview data, the note, and every other key as the block left it. *)
Lemma preview_resource_stopped (resource_id preview_rows generate_stats : pyval)
    (fields p : pydict) (st st1 st2 : State) (e : PyExn) :
  _make_request "GET" ("resource_show?id=" +:+ Py.str resource_id) None true st
  = (Ok (PDict fields), st1) ->
  preview_datastore resource_id preview_rows generate_stats
    [ ("resource_id", resource_id); ("resource_name", field_or_none "name" fields);
      ("format", field_or_none "format" fields); ("url", field_or_none "url" fields);
      ("size", field_or_none "size" fields); ("created", field_or_none "created" fields);
      ("last_modified", field_or_none "last_modified" fields) ]%string st1
  = ((p, Some e), st2) ->
  exists preview,
    preview_resource resource_id preview_rows generate_stats st = (Ok (PDict preview), st2) /\
    Py.dict_get "preview_data" preview = Some PNone /\
    Py.dict_get "note" preview = Some (PStr datastore_note) /\
    Py.dict_get "resource_id" preview = Some resource_id /\
    forall k key,
      In (k, key) [ ("resource_name", "name"); ("format", "format"); ("url", "url");
                    ("size", "size"); ("created", "created");
                    ("last_modified", "last_modified") ]%string ->
      Py.dict_get k preview = Some (field_or_none key fields).
Proof.
  intros Hshow Htry. eexists. split.
  - unfold preview_resource, bind. rewrite Hshow. unfold lift. cbn [Py.get].
    fold (field_or_none "name" fields) (field_or_none "format" fields)
         (field_or_none "url" fields) (field_or_none "size" fields)
         (field_or_none "created" fields) (field_or_none "last_modified" fields).
    rewrite Htry. reflexivity.
  - rewrite !dict_get_set. cbn [String.eqb Ascii.eqb Bool.eqb].
    split; [reflexivity|]. split; [reflexivity|].
    split.
    + rewrite (preview_datastore_keeps _ _ _ _ _ _ _ _ "resource_id" Htry); [reflexivity|discriminate..].
    + intros k key Hin. cbn [In] in Hin.
      repeat (destruct Hin as [[= <- <-]|Hin];
              [rewrite !dict_get_set; cbn [String.eqb Ascii.eqb Bool.eqb];
               rewrite (preview_datastore_keeps _ _ _ _ _ _ _ _ _ Htry) by discriminate;
               reflexivity|]).
      destruct Hin.
Qed.

(** C8. When the datastore query of a resource preview fails, the
    operation does not: [preview_resource] returns the metadata fields of
    the resource as the first fetch gave them, with [preview_data] set to
    [None] and an explanatory note, and the dispatcher wraps that record
    in an envelope with [success] true. *)
Theorem preview_survives_datastore_failure (arguments fields : pydict)
    (resource_id : pyval) (c : CKANAPIClient) (w : World) (st1 st2 : State) (e : PyExn) :
  Py.dict_get "resource_id" arguments = Some resource_id ->
  let preview_rows := match Py.dict_get "preview_rows" arguments with
                      | Some n => n
                      | None => PInt 10
                      end in
  let generate_stats := match Py.dict_get "generate_stats" arguments with
                        | Some b => b
                        | None => PBool true
                        end in
  let st := {| client := c; world := w |} in
  _make_request "GET" ("resource_show?id=" +:+ Py.str resource_id) None true st
  = (Ok (PDict fields), st1) ->
  _make_request "GET" ("datastore_search?resource_id=" +:+ Py.str resource_id
                         +:+ "&limit=" +:+ Py.str preview_rows) None true st1
  = (Raise e, st2) ->
  let preview := degraded_preview resource_id fields in
  let r := fst (call_tool_response "ckan_resource_preview" (Some arguments)
                  {| ckan_client := Some c; outside := w |}) in
  preview_resource resource_id preview_rows generate_stats st = (Ok preview, st2) /\
  success r = true /\
  data r = preview /\
  Py.dict_get "success" (to_dict r) = Some (PBool true) /\
  Py.dict_get "data" (to_dict r) = Some preview /\
  Py.dict_get "error" (to_dict r) = None.
Proof.
  intros Hid preview_rows generate_stats st Hshow Hsearch preview r.
  pose proof (preview_resource_degrades _ _ generate_stats _ _ _ _ _ Hshow Hsearch) as Hrun.
  split; [exact Hrun|].
  assert (Hr : call_tool_response "ckan_resource_preview" (Some arguments)
                 {| ckan_client := Some c; outside := w |}
               = (set_execution_time
                    (StandardResponse_init (now (world st2)) true preview PNone)
                    (now w) (now (world st2)),
                  {| ckan_client := Some (client st2); outside := world st2 |})).
  { unfold call_tool_response. cbn [ckan_client outside args_value].
    rewrite dispatch_resource_preview. unfold bind at 1 2 3, lift.
    cbn [Py.getitem Py.get]. rewrite Hid.
    fold preview_rows generate_stats st. rewrite Hrun. reflexivity. }
  subst r. rewrite Hr. cbn [fst].
  destruct (to_dict_keys (set_execution_time
              (StandardResponse_init (now (world st2)) true preview PNone)
              (now w) (now (world st2)))) as (Hs & Hd & He).
  repeat split; assumption.
Qed.

End PreviewProofs.

(** A resource of a portal without a datastore. *)
Lemma preview_survives_datastore_failure_witness :
  let r := fst (@call_tool_response sample_runtime "ckan_resource_preview"
                  (Some [("resource_id", PStr "r1")]%string)
                  (server_on no_datastore_world)) in
  success r = true /\
  exists fields, data r = degraded_preview (PStr "r1") fields.
Proof.
  intros r.
  eassert (Hshow : @_make_request sample_runtime "GET"
                     ("resource_show?id=" +:+ @Py.str sample_runtime (PStr "r1")) None true
                     {| client := sample_client; world := no_datastore_world |}
                   = (Ok (PDict _), _)) by (vm_compute; reflexivity).
  eassert (Hsearch : @_make_request sample_runtime "GET" _ None true _ = (Raise _, _));
    [|destruct (@preview_survives_datastore_failure sample_runtime
                  [("resource_id", PStr "r1")]%string _ (PStr "r1") sample_client
                  no_datastore_world _ _ _ eq_refl Hshow Hsearch) as (_ & Hs & Hd & _)].
  - vm_compute. reflexivity.
  - split; [exact Hs|]. eexists. exact Hd.
Defined.

Example preview_without_datastore :
  data (fst (@call_tool_response sample_runtime "ckan_resource_preview"
               (Some [("resource_id", PStr "r1")]%string) (server_on no_datastore_world)))
  = PDict [ ("resource_id", PStr "r1"); ("resource_name", PStr "stations.csv");
            ("format", PStr "CSV"); ("url", PStr "https://example.org/stations.csv");
            ("size", PNone); ("created", PNone); ("last_modified", PNone);
            ("preview_data", PNone);
            ("note", PStr "DataStore not available for this resource") ]%string.
Proof. vm_compute. reflexivity. Qed.

(** ** Related datasets *)

Lemma take_length {A} (n : Z) (l : list A) :
  0 <= n -> Z.of_nat (length (Py.take n l)) <= n.
Proof.
  intros Hn. unfold Py.take. destruct (n <? 0) eqn:Hneg; [lia|].
  rewrite length_firstn. lia.
Qed.

Lemma take_nil {A} (n : Z) : Py.take n (@nil A) = [].
Proof. unfold Py.take. destruct (n <? 0); apply firstn_nil. Qed.

Section RelatedProofs.
Context `{PyRuntime}.

(** The comprehension keeps, in their order, the results whose id is not
    the source's. *)
Lemma drop_source_filter (dataset_id : pyval) (found kept : list pyval) :
  drop_source dataset_id found = Ok kept ->
  kept = List.filter (not_source dataset_id) found.
Proof.
  revert kept. induction found as [|ds r IH]; simpl; intros kept Hk.
  - injection Hk as <-. reflexivity.
  - step_ok Hk vid Eid. step_ok Hk rest Erest. injection Hk as <-.
    unfold not_source at 1. rewrite Eid, (IH rest eq_refl).
    destruct (Py.eq vid dataset_id); reflexivity.
Qed.

(** A source dataset without an organization entry, or with one that has
    no usable id: nothing is searched and the result is empty. *)
Lemma related_without_organization (dataset_id max_results : pyval) (d : pydict)
    (st st1 : State) (n : Z) :
  _make_request "GET" ("package_show?id=" +:+ Py.str dataset_id) None true st
  = (Ok (PDict d), st1) ->
  (Py.dict_get "organization" d = None \/
   exists o, Py.dict_get "organization" d = Some (PDict o) /\
             Py.truthy (field_or_none "id" o) = false) ->
  max_results = PInt n ->
  get_related_datasets dataset_id (PStr "organization") max_results st
  = (Ok (PList []), st1).
Proof.
  intros Hfetch Horg ->. unfold get_related_datasets, bind at 1. rewrite Hfetch.
  change (Py.eq_str (PStr "organization") "tags") with false.
  change (Py.eq_str (PStr "organization") "organization") with true.
  cbn iota. unfold bind, lift, ret. cbn [Py.get].
  destruct Horg as [Hnone|(o & Hsome & Hid)].
  - rewrite Hnone. cbn [Py.get Py.dict_get Py.truthy Py.slice_to]. rewrite take_nil. reflexivity.
  - rewrite Hsome. cbn [Py.get]. unfold field_or_none in Hid. rewrite Hid.
    cbn [Py.slice_to]. rewrite take_nil. reflexivity.
Qed.

(** A source dataset whose organization is [null]: the second [.get]
    raises, after the one fetch. *)
Lemma related_null_organization (dataset_id max_results : pyval) (d : pydict)
    (st st1 : State) :
  _make_request "GET" ("package_show?id=" +:+ Py.str dataset_id) None true st
  = (Ok (PDict d), st1) ->
  Py.dict_get "organization" d = Some PNone ->
  get_related_datasets dataset_id (PStr "organization") max_results st
  = (Raise {| exn_cls := ExAttributeError;
              exn_msg := "'NoneType' object has no attribute 'get'" |}, st1).
Proof.
  intros Hfetch Hnull. unfold get_related_datasets, bind at 1. rewrite Hfetch.
  change (Py.eq_str (PStr "organization") "tags") with false.
  change (Py.eq_str (PStr "organization") "organization") with true.
  cbn iota. unfold bind, lift, ret. cbn [Py.get]. rewrite Hnull. reflexivity.
Qed.

(** A search by organization that runs: the source is dropped from the
    portal's results and at most [n] of the others are returned. *)
Lemma related_by_organization (dataset_id org results : pyval) (d o : pydict)
    (found : list pyval) (st st1 st2 : State) (n : Z) (related : pyval) :
  _make_request "GET" ("package_show?id=" +:+ Py.str dataset_id) None true st
  = (Ok (PDict d), st1) ->
  Py.dict_get "organization" d = Some (PDict o) ->
  Py.dict_get "id" o = Some org -> Py.truthy org = true ->
  _make_request "GET" ("package_search?" +:+ ("q=organization:" +:+ Py.str org
                                                +:+ "&rows=" +:+ Py.str (PInt n))) None true st1
  = (Ok results, st2) ->
  rbind (Py.get results "results" (PList [])) Py.iter = Ok found ->
  get_related_datasets dataset_id (PStr "organization") (PInt n) st = (Ok related, st2) ->
  related = PList (Py.take n (List.filter (not_source dataset_id) found)) /\
  (0 <= n -> Z.of_nat (length (Py.take n (List.filter (not_source dataset_id) found))) <= n).
Proof.
  intros Hfetch Horg Hid Htruthy Hsearch Hfound Hrun.
  split; [|apply take_length].
  unfold get_related_datasets, bind at 1 in Hrun. rewrite Hfetch in Hrun.
  change (Py.eq_str (PStr "organization") "tags") with false in Hrun.
  change (Py.eq_str (PStr "organization") "organization") with true in Hrun.
  cbn iota in Hrun. unfold bind at 1 2 3, lift in Hrun. cbn [Py.get] in Hrun.
  rewrite Horg in Hrun. cbn [Py.get] in Hrun. rewrite Hid, Htruthy in Hrun.
  unfold related_search, bind, lift, ret in Hrun. rewrite Hsearch in Hrun.
  destruct (Py.get results "results" (PList [])) as [rs|?]; [|discriminate Hfound].
  cbn [rbind] in Hfound. rewrite Hfound in Hrun.
  destruct (drop_source dataset_id found) as [kept|?] eqn:Hkept; [|discriminate Hrun].
  apply drop_source_filter in Hkept. subst kept. cbn in Hrun.
  injection Hrun as <-. reflexivity.
Qed.

End RelatedProofs.

(** C7. On a dataset that CKAN reports with no organization, its
    [organization] being [null], [get_related_datasets] by organization
    sends the one request that fetches the dataset and then raises: it does
    not return the empty result. *)
Theorem related_raises_on_null_organization :
  exists st',
    @get_related_datasets sample_runtime (PStr "X") (PStr "organization") (PInt 10)
      {| client := sample_client; world := fixed_world (success_envelope orgless_dataset) |}
    = (Raise {| exn_cls := ExAttributeError;
                exn_msg := "'NoneType' object has no attribute 'get'" |}, st') /\
    length (sent (world st')) = 1%nat.
Proof.
  eassert (Hfetch : @_make_request sample_runtime "GET"
                      ("package_show?id=" +:+ @Py.str sample_runtime (PStr "X")) None true
                      {| client := sample_client;
                         world := fixed_world (success_envelope orgless_dataset) |}
                    = (Ok (PDict _), _)) by (vm_compute; reflexivity).
  eexists. split.
  - apply (@related_null_organization sample_runtime _ _ _ _ _ Hfetch). reflexivity.
  - reflexivity.
Qed.

(** The dispatcher turns that exception into a failure envelope. *)
Example related_null_organization_envelope :
  let r := fst (@call_tool_response sample_runtime "ckan_related_datasets"
                  (Some [("dataset_id", PStr "X"); ("relation_type", PStr "organization")]%string)
                  (server_on (fixed_world (success_envelope orgless_dataset)))) in
  success r = false /\
  Py.get (error r) "message" PNone = Ok (PStr "'NoneType' object has no attribute 'get'").
Proof. vm_compute. split; reflexivity. Qed.

(** The same dataset without the [organization] entry. *)
Example related_empty_without_organization :
  exists st',
    @get_related_datasets sample_runtime (PStr "X") (PStr "organization") (PInt 10)
      {| client := sample_client; world := fixed_world (success_envelope plain_dataset) |}
    = (Ok (PList []), st') /\
    length (sent (world st')) = 1%nat.
Proof. eexists. split; [vm_compute; reflexivity|reflexivity]. Qed.

(** ** One request, whatever its method *)

Lemma prefix_append (a b : string) : String.prefix a (a +:+ b) = true.
Proof.
  induction a as [|c a IH].
  - destruct b; reflexivity.
  - rewrite append_cons. simpl. destruct (ascii_dec c c) as [_|Hne]; [exact IH|destruct Hne; reflexivity].
Qed.

Section RequestProofs.
Context `{PyRuntime}.

(** The exchange with the portal, for any method: the reply decides the
    result; a payload is stored when the call may use the cache, and
    nothing is stored otherwise. *)
Lemma request_portal_run (method endpoint : string) (data : option pydict)
    (use_cache : bool) (key : string) (st : State) :
  session (client st) = true ->
  let rq := request_of st method endpoint data in
  let w' := after_request (world st) rq in
  let r := outcome_of_reply (fst (portal (world st) (now (world st)) rq)) in
  request_portal method endpoint data use_cache key st
  = (r, {| client := match r with
                     | Ok payload =>
                         if cacheable method use_cache
                         then with_entry (client st) key
                                {| entry_timestamp := now w'; entry_data := payload |}
                         else client st
                     | Raise _ => client st
                     end;
           world := w' |}).
Proof.
  intros Hsession rq w' r. subst r w'.
  unfold request_portal, try_except, bind, session_request, after_request.
  rewrite Hsession. fold (request_of st method endpoint data). fold rq.
  destruct (portal (world st) (now (world st)) rq) as [reply elapsed].
  cbn [fst snd]. destruct reply as [body|msg|msg]; [|reflexivity|reflexivity].
  destruct body as [| | | | |l|d]; try reflexivity.
  unfold outcome_of_reply, lift, raise. cbn [Py.get].
  destruct (Py.truthy (match Py.dict_get "success" d with
                       | Some flag => flag
                       | None => PBool false
                       end)); cbn [negb]; [|reflexivity].
  unfold cache_store, ret, with_entry.
  destruct (cacheable method use_cache); reflexivity.
Qed.

(** Without an open session the exchange fails before anything is sent. *)
Lemma request_portal_no_session (method endpoint : string) (data : option pydict)
    (use_cache : bool) (key : string) (st : State) :
  session (client st) = false ->
  request_portal method endpoint data use_cache key st
  = (Raise (Exception_ "Request failed: 'NoneType' object has no attribute 'request'"), st).
Proof.
  intros Hsession. unfold request_portal, try_except, bind, session_request.
  rewrite Hsession. reflexivity.
Qed.

Lemma cacheable_false (method : string) (use_cache : bool) :
  use_cache = false \/ method <> "GET"%string -> cacheable method use_cache = false.
Proof.
  unfold cacheable. intros [->|Hne]; [reflexivity|].
  destruct (String.eqb_spec method "GET") as [->|_]; [destruct Hne; reflexivity|].
  apply andb_false_r.
Qed.

(** A call that finds no valid entry, or may not use the cache, goes to
    the portal. *)
Lemma make_request_goes (method endpoint : string) (data : option pydict)
    (use_cache : bool) (st : State) :
  cacheable method use_cache = false
  \/ no_valid_entry st (_get_cache_key method endpoint data) ->
  _make_request method endpoint data use_cache st
  = request_portal method endpoint data use_cache (_get_cache_key method endpoint data) st.
Proof.
  intros Hgo. unfold _make_request.
  destruct (cacheable method use_cache) eqn:Hc; [|reflexivity].
  destruct Hgo as [Hgo|Hgo]; [discriminate Hgo|].
  destruct (cache (client st) !! _get_cache_key method endpoint data) as [e|] eqn:Hlook;
    [rewrite (Hgo e Hlook)|]; reflexivity.
Qed.

(** Either the cache answers and the state stays, or the call goes to the
    portal. *)
Lemma make_request_hit_or_goes (method endpoint : string) (data : option pydict)
    (use_cache : bool) (st : State) :
  (exists e, _make_request method endpoint data use_cache st = (Ok (entry_data e), st))
  \/ _make_request method endpoint data use_cache st
     = request_portal method endpoint data use_cache (_get_cache_key method endpoint data) st.
Proof.
  unfold _make_request.
  destruct (cacheable method use_cache); [|right; reflexivity].
  destruct (cache (client st) !! _get_cache_key method endpoint data) as [e|];
    [|right; reflexivity].
  destruct (_is_cache_valid st e); [left; exists e|right]; reflexivity.
Qed.

(** X1. A call that may not use the cache (its method is not GET, or
    [use_cache] is false) always goes to the portal, once, even when the
    cache holds a valid entry under its key; what it returns or raises is
    decided by the reply alone, and the client, its cache included, is
    left as it was. *)
Theorem uncached_request_reaches_portal (method endpoint : string) (data : option pydict)
    (use_cache : bool) (st : State) :
  use_cache = false \/ method <> "GET"%string ->
  session (client st) = true ->
  let rq := request_of st method endpoint data in
  _make_request method endpoint data use_cache st
  = (outcome_of_reply (fst (portal (world st) (now (world st)) rq)),
     {| client := client st; world := after_request (world st) rq |}).
Proof.
  intros Hno Hsession rq. apply cacheable_false in Hno.
  rewrite (make_request_goes _ _ _ _ _ (or_introl Hno)).
  rewrite (request_portal_run _ _ _ _ _ _ Hsession). fold rq. rewrite Hno.
  destruct (outcome_of_reply _); reflexivity.
Qed.

(** X2. A GET that finds no valid entry in the cache, on an open session:
    a reply that is a dict with a true [success] gives its [result] (or
    [{}] without one); a dict without a true [success] raises
    ["Request failed: CKAN API Error: "] followed by its [error]; a reply
    that is no dict raises ["Request failed: "] with the attribute error;
    an [aiohttp.ClientError] raises ["HTTP Error: "] and any other
    exception ["Request failed: "], followed by its message. *)
Theorem reply_decides_result (endpoint : string) (data : option pydict) (st : State) :
  no_valid_entry st (_get_cache_key "GET" endpoint data) ->
  session (client st) = true ->
  fst (_make_request "GET" endpoint data true st)
  = outcome_of_reply
      (fst (portal (world st) (now (world st)) (request_of st "GET" endpoint data))).
Proof.
  intros Hstale Hsession.
  rewrite (make_request_goes _ _ _ _ _ (or_intror Hstale)).
  rewrite (request_portal_run _ _ _ _ _ _ Hsession). reflexivity.
Qed.

Lemma outcome_raises (reply : Reply) (ex : PyExn) :
  outcome_of_reply reply = Raise ex ->
  exn_cls ex = ExException /\
  (String.prefix "HTTP Error: " (exn_msg ex) = true
   \/ String.prefix "Request failed: " (exn_msg ex) = true).
Proof.
  unfold outcome_of_reply. intros Hr.
  destruct reply as [body|msg|msg].
  - destruct body as [| | | | |l|d];
      try (injection Hr as <-; split; [reflexivity|right; apply prefix_append]).
    destruct (Py.truthy _); [discriminate Hr|].
    injection Hr as <-. split; [reflexivity|right].
    apply (prefix_append "Request failed: " ("CKAN API Error: " +:+ _)).
  - injection Hr as <-. split; [reflexivity|left; apply prefix_append].
  - injection Hr as <-. split; [reflexivity|right; apply prefix_append].
Qed.

(** X3. For a client whose address is plain (ASCII, without square
    brackets) and an endpoint that is (so that [urljoin], which runs
    before the [try], accepts them), [_make_request] raises nothing but a
    plain [Exception] whose
    message starts with ["HTTP Error: "] or ["Request failed: "], and a
    call that raises leaves the client, its cache included, as it was. *)
Theorem failed_request_stores_nothing (method endpoint : string) (data : option pydict)
    (use_cache : bool) (st st' : State) (ex : PyExn) :
  plain_address (base_url (client st)) = true -> plain_address endpoint = true ->
  _make_request method endpoint data use_cache st = (Raise ex, st') ->
  exn_cls ex = ExException /\
  (String.prefix "HTTP Error: " (exn_msg ex) = true
   \/ String.prefix "Request failed: " (exn_msg ex) = true) /\
  client st' = client st.
Proof.
  intros _ _ Hrun.
  destruct (make_request_hit_or_goes method endpoint data use_cache st) as [[e He]|Hgo].
  - rewrite He in Hrun. discriminate Hrun.
  - rewrite Hgo in Hrun. destruct (session (client st)) eqn:Hsession.
    + rewrite (request_portal_run _ _ _ _ _ _ Hsession) in Hrun.
      destruct (outcome_of_reply _) as [payload|ex'] eqn:Hout; [discriminate Hrun|].
      injection Hrun as <- <-.
      destruct (outcome_raises _ _ Hout) as [Hcls Hmsg]. repeat split; assumption.
    + rewrite (request_portal_no_session _ _ _ _ _ _ Hsession) in Hrun.
      injection Hrun as <- <-. repeat split. right. reflexivity.
Qed.

(** X4. Before [__aenter__] has opened the session, a call that finds no
    valid entry in the cache raises the attribute error of [None] behind
    ["Request failed: "] and sends nothing; a valid entry is served all
    the same. *)
Theorem closed_session_sends_nothing (endpoint : string) (data : option pydict)
    (st : State) :
  session (client st) = false ->
  (no_valid_entry st (_get_cache_key "GET" endpoint data) ->
   _make_request "GET" endpoint data true st
   = (Raise (Exception_ "Request failed: 'NoneType' object has no attribute 'request'"), st))
  /\
  (forall e, cache (client st) !! _get_cache_key "GET" endpoint data = Some e ->
             _is_cache_valid st e = true ->
             _make_request "GET" endpoint data true st = (Ok (entry_data e), st)).
Proof.
  intros Hsession. split.
  - intros Hstale. rewrite (make_request_goes _ _ _ _ _ (or_intror Hstale)).
    apply request_portal_no_session, Hsession.
  - intros e Hlook Hvalid. apply make_request_hit; assumption.
Qed.

End RequestProofs.

(** A POST with a warm cache, and a GET that bypasses it: one request each,
    the cache as it was. *)
Lemma uncached_request_reaches_portal_witness :
  let st := {| client := warm_client; world := status_world 1200 |} in
  @_make_request sample_runtime "POST" "status_show" None true st
  = (Ok status_payload,
     {| client := warm_client;
        world := after_request (status_world 1200)
                   (request_of st "POST" "status_show" None) |})
  /\
  @_make_request sample_runtime "GET" "status_show" None false st
  = (Ok status_payload,
     {| client := warm_client;
        world := after_request (status_world 1200)
                   (request_of st "GET" "status_show" None) |}).
Proof.
  intros st. split.
  - apply (@uncached_request_reaches_portal sample_runtime "POST" "status_show" None true st).
    + right. discriminate.
    + reflexivity.
  - apply (@uncached_request_reaches_portal sample_runtime "GET" "status_show" None false st).
    + left. reflexivity.
    + reflexivity.
Defined.

(** The portal's answer for a dataset it does not have. *)
Lemma reply_decides_result_witness :
  fst (@_make_request sample_runtime "GET" "package_show?id=none" None true
         {| client := sample_client; world := fixed_world not_found_body |})
  = Raise (Exception_
             "Request failed: CKAN API Error: {'message': 'Not found', '__type': 'Not Found Error'}").
Proof.
  apply (@reply_decides_result sample_runtime "package_show?id=none" None
           {| client := sample_client; world := fixed_world not_found_body |}).
  - intros e He. vm_compute in He. discriminate He.
  - reflexivity.
Defined.

Lemma failed_request_stores_nothing_witness :
  exists ex st',
    @_make_request sample_runtime "GET" "package_show?id=none" None true
      {| client := sample_client; world := fixed_world not_found_body |} = (Raise ex, st')
    /\ exn_cls ex = ExException /\ client st' = sample_client.
Proof.
  eexists _, _. split; [vm_compute; reflexivity|].
  eassert (Hrun : @_make_request sample_runtime "GET" "package_show?id=none" None true
                    {| client := sample_client; world := fixed_world not_found_body |}
                  = (Raise _, _)) by (vm_compute; reflexivity).
  destruct (@failed_request_stores_nothing sample_runtime "GET" "package_show?id=none" None true
              {| client := sample_client; world := fixed_world not_found_body |} _ _
              eq_refl eq_refl Hrun)
    as (Hc & _ & Hs).
  split; [exact Hc|exact Hs].
Defined.

(** A client built and never entered. *)
Lemma closed_session_sends_nothing_witness :
  let st := {| client := __init__ "https://demo.ckan.org/" None; world := status_world 0 |} in
  @_make_request sample_runtime "GET" "status_show" None true st
  = (Raise (Exception_ "Request failed: 'NoneType' object has no attribute 'request'"), st).
Proof.
  intros st.
  apply (@closed_session_sends_nothing sample_runtime "status_show" None st eq_refl).
  intros e He. vm_compute in He. discriminate He.
Defined.

(** ** What the operations send *)

Lemma same_config_refl (c : CKANAPIClient) : same_config c c.
Proof. repeat split. Qed.

Lemma same_config_trans (a b c : CKANAPIClient) :
  same_config a b -> same_config b c -> same_config a c.
Proof.
  intros (H1 & H2 & H3 & H4) (K1 & K2 & K3 & K4).
  repeat split; congruence.
Qed.

Lemma same_config_headers (c c' : CKANAPIClient) :
  same_config c c' -> _get_headers c' = _get_headers c.
Proof. intros (_ & Hk & _). unfold _get_headers. rewrite Hk. reflexivity. Qed.

Lemma is_read_same_config (c c' : CKANAPIClient) (rq : Request) :
  same_config c c' -> is_read c' rq -> is_read c rq.
Proof.
  intros Hsame (Hm & Hj & Hh & Hu).
  rewrite (same_config_headers _ _ Hsame) in Hh.
  destruct Hsame as (Hb & _). rewrite Hb in Hu.
  split; [exact Hm|]. split; [exact Hj|]. split; [exact Hh|exact Hu].
Qed.

Lemma reads_from_refl (n : nat) (st : State) : reads_from n st st.
Proof.
  split; [apply same_config_refl|]. split; [intros k Hk; exact Hk|].
  split; [reflexivity|]. exists []. rewrite app_nil_r.
  split; [reflexivity|]. split; [simpl; lia|constructor].
Qed.

Lemma reads_from_trans (n k : nat) (st st1 st2 : State) :
  reads_from n st st1 -> reads_from k st1 st2 -> reads_from (n + k) st st2.
Proof.
  intros (Hc1 & Hg1 & Hp1 & rqs1 & Hs1 & Hl1 & Hr1) (Hc2 & Hg2 & Hp2 & rqs2 & Hs2 & Hl2 & Hr2).
  split; [eapply same_config_trans; eassumption|].
  split; [intros key Hkey; apply Hg2, Hg1, Hkey|].
  split; [congruence|].
  exists (rqs1 ++ rqs2). split; [rewrite Hs2, Hs1, app_assoc; reflexivity|].
  split; [rewrite length_app; lia|].
  apply List.Forall_app. split; [exact Hr1|].
  eapply List.Forall_impl; [|exact Hr2]. intros rq. apply is_read_same_config, Hc1.
Qed.

Lemma reads_from_weaken (n k : nat) (st st' : State) :
  (n <= k)%nat -> reads_from n st st' -> reads_from k st st'.
Proof.
  intros Hle (Hc & Hg & Hp & rqs & Hs & Hl & Hr).
  split; [exact Hc|]. split; [exact Hg|]. split; [exact Hp|].
  exists rqs. split; [exact Hs|]. split; [lia|exact Hr].
Qed.

Section TraceProofs.
Context `{PyRuntime}.

(** One cached GET: nothing is sent, or one read is. *)
Lemma make_request_reads (endpoint : string) (st : State) :
  reads_from 1 st (snd (_make_request "GET" endpoint None true st)).
Proof.
  destruct (make_request_hit_or_goes "GET" endpoint None true st) as [[e He]|Hgo].
  - rewrite He. apply reads_from_refl.
  - rewrite Hgo. destruct (session (client st)) eqn:Hsession.
    + rewrite (request_portal_run _ _ _ _ _ _ Hsession). cbn [snd].
      split.
      { destruct (outcome_of_reply _); [rewrite cacheable_get|]; repeat split. }
      split.
      { intros k Hk. cbn [client]. destruct (outcome_of_reply _); [|exact Hk].
        rewrite cacheable_get. unfold with_entry. cbn [cache].
        destruct (decide (_get_cache_key "GET" endpoint None = k)) as [->|Hne].
        - rewrite lookup_insert_eq. eexists. reflexivity.
        - rewrite lookup_insert_ne by exact Hne. exact Hk. }
      split; [reflexivity|].
      exists [request_of st "GET" endpoint None].
      split; [reflexivity|]. split; [simpl; lia|].
      constructor; [|constructor]. repeat split. exists endpoint. reflexivity.
    + rewrite (request_portal_no_session _ _ _ _ _ _ Hsession). apply reads_from_refl.
Qed.

Lemma sends_weaken {A} (n k : nat) (m : M A) :
  (n <= k)%nat -> sends_at_most n m -> sends_at_most k m.
Proof. intros Hle Hm st. eapply reads_from_weaken; [exact Hle|apply Hm]. Qed.

Lemma sends_ret {A} (n : nat) (a : A) : sends_at_most n (ret a).
Proof. intros st. apply reads_from_refl. Qed.

Lemma sends_lift {A} (n : nat) (r : result A) : sends_at_most n (lift r).
Proof. intros st. apply reads_from_refl. Qed.

Lemma sends_raise {A} (n : nat) (e : PyExn) : sends_at_most n (@raise A e).
Proof. intros st. apply reads_from_refl. Qed.

Lemma sends_utcnow (n : nat) : sends_at_most n utcnow_isoformat.
Proof. intros st. apply reads_from_refl. Qed.

Lemma sends_get (n : nat) (endpoint : string) :
  sends_at_most (S n) (_make_request "GET" endpoint None true).
Proof.
  intros st. apply (reads_from_weaken 1); [lia|apply make_request_reads].
Qed.

Lemma sends_bind {A B} (n k : nat) (m : M A) (f : A -> M B) :
  sends_at_most n m -> (forall a, sends_at_most k (f a)) ->
  sends_at_most (n + k) (bind m f).
Proof.
  intros Hm Hf st. unfold bind. pose proof (Hm st) as H1.
  destruct (m st) as [[a|e] st1]; cbn [snd] in *.
  - eapply reads_from_trans; [exact H1|apply Hf].
  - apply (reads_from_weaken n); [lia|exact H1].
Qed.

Lemma sends_bind_pure {A B} (n : nat) (m : M A) (f : A -> M B) :
  sends_at_most 0 m -> (forall a, sends_at_most n (f a)) -> sends_at_most n (bind m f).
Proof. intros Hm Hf. apply (sends_bind 0 n); assumption. Qed.

Lemma sends_bind_get {B} (n : nat) (endpoint : string) (f : pyval -> M B) :
  (forall a, sends_at_most n (f a)) ->
  sends_at_most (S n) (bind (_make_request "GET" endpoint None true) f).
Proof. intros Hf. apply (sends_bind 1 n); [apply sends_get|exact Hf]. Qed.

(** The steps of a proof that a computation sends at most so many
    requests: a GET uses one of them, a pure step none. *)
Ltac sends_step :=
  first
    [ apply sends_ret | apply sends_lift | apply sends_raise | apply sends_utcnow
    | apply sends_bind_pure; [first [apply sends_lift | apply sends_utcnow]|intros ?]
    | apply sends_bind_get; intros ?
    | apply sends_get
    | match goal with
      | |- sends_at_most _ (if ?b then _ else _) => destruct b
      | |- sends_at_most _ (match ?l with [] => _ | _ :: _ => _ end) => destruct l
      end ].

Ltac sends := repeat sends_step.

Lemma faceted_search_sends (q facet_fields filters spatial_query date_range : pyval) :
  sends_at_most 1 (faceted_search q facet_fields filters spatial_query date_range).
Proof. unfold faceted_search. sends. Qed.

Lemma related_search_sends (n : nat) (dataset_id : pyval) (query_string : string) :
  sends_at_most (S n) (related_search dataset_id query_string).
Proof. unfold related_search. sends. Qed.

Lemma get_related_datasets_sends (dataset_id relation_type max_results : pyval) :
  sends_at_most 2 (get_related_datasets dataset_id relation_type max_results).
Proof.
  unfold get_related_datasets. apply sends_bind_get. intros source_dataset.
  apply (sends_bind 1 0); [|intros related; sends].
  sends; apply related_search_sends.
Qed.

Lemma check_data_quality_sends (dataset_id checks sample_size : pyval) :
  sends_at_most 1 (check_data_quality dataset_id checks sample_size).
Proof. unfold check_data_quality. sends. Qed.

Lemma site_metrics_sends : sends_at_most 4 site_metrics.
Proof. unfold site_metrics. sends. Qed.

Lemma get_dataset_analytics_sends (dataset_id time_range metrics : pyval) :
  sends_at_most 4 (get_dataset_analytics dataset_id time_range metrics).
Proof.
  unfold get_dataset_analytics. apply (sends_bind 4 0); [|intros m; sends].
  destruct (Py.eq_str dataset_id "all"); [apply site_metrics_sends|sends].
Qed.

Lemma preview_resource_sends (resource_id preview_rows generate_stats : pyval) :
  sends_at_most 2 (preview_resource resource_id preview_rows generate_stats).
Proof.
  unfold preview_resource. apply sends_bind_get. intros resource.
  do 6 (apply sends_bind_pure; [apply sends_lift|intros ?]).
  intros st. unfold preview_datastore.
  pose proof (make_request_reads
                ("datastore_search?resource_id=" +:+ Py.str resource_id
                   +:+ "&limit=" +:+ Py.str preview_rows) st) as Hget.
  destruct (_make_request "GET" _ None true st) as [[datastore_info|e] st'];
    cbn [snd] in Hget.
  - destruct (run_statements _ _) as [preview [e|]]; exact Hget.
  - exact Hget.
Qed.

Lemma export_each_sends (ids : list pyval) (export_format include_resources : pyval)
    (datasets : list pyval) :
  sends_at_most (length ids) (export_each ids export_format include_resources datasets).
Proof.
  revert datasets. induction ids as [|dataset_id rest IH]; intros datasets; simpl.
  - apply sends_ret.
  - apply sends_bind_get. intros dataset.
    apply sends_bind_pure; [sends|]. intros ds. apply IH.
Qed.

Lemma export_metadata_sends (dataset_ids export_format include_resources : pyval) :
  sends_at_most (length (ids_of dataset_ids))
    (export_metadata dataset_ids export_format include_resources).
Proof.
  intros st. unfold export_metadata, bind, utcnow_isoformat, lift, ids_of.
  destruct (Py.iter dataset_ids) as [ids|e]; [|apply reads_from_refl].
  pose proof (export_each_sends ids export_format include_resources [] st) as Hloop.
  destruct (export_each ids export_format include_resources [] st) as [[ds|e] st'];
    exact Hloop.
Qed.

Lemma search_packages_sends (query : string) (rows : Z) (organization tags : option string) :
  sends_at_most 1 (CKANExplorer.search_packages query rows organization tags).
Proof. unfold CKANExplorer.search_packages. sends. Qed.

Lemma get_statistics_sends : sends_at_most 4 CKANExplorer.get_statistics.
Proof. unfold CKANExplorer.get_statistics. sends. Qed.

(** The arguments a branch of the dispatcher reads before it calls the
    operation. *)
Ltac pure_args :=
  repeat lazymatch goal with
         | |- sends_at_most _ (bind (lift _) _) =>
             apply sends_bind_pure; [apply sends_lift|intros ?]
         end.

(** One branch of the dispatcher, for the tool named [tool]. *)
Ltac tool_branch name tool n :=
  destruct (String.eqb_spec name tool) as [->|?];
  [apply (sends_weaken n); [vm_compute; lia|unfold GET; sends]|].

Lemma dispatch_sends (name : string) (arguments : pyval) :
  sends_at_most (request_budget name arguments) (dispatch name arguments).
Proof.
  unfold dispatch.
  tool_branch name "ckan_package_list" 1%nat.
  tool_branch name "ckan_package_show" 1%nat.
  tool_branch name "ckan_package_search" 1%nat.
  tool_branch name "ckan_organization_list" 1%nat.
  tool_branch name "ckan_organization_show" 1%nat.
  tool_branch name "ckan_group_list" 1%nat.
  tool_branch name "ckan_tag_list" 1%nat.
  tool_branch name "ckan_resource_show" 1%nat.
  tool_branch name "ckan_site_read" 1%nat.
  tool_branch name "ckan_status_show" 1%nat.
  destruct (String.eqb_spec name "ckan_faceted_search") as [->|?].
  { apply (sends_weaken 1); [vm_compute; lia|].
    pure_args. apply faceted_search_sends. }
  destruct (String.eqb_spec name "ckan_related_datasets") as [->|?].
  { apply (sends_weaken 2); [vm_compute; lia|].
    pure_args. apply get_related_datasets_sends. }
  destruct (String.eqb_spec name "ckan_data_quality_check") as [->|?].
  { apply (sends_weaken 1); [vm_compute; lia|].
    pure_args. apply check_data_quality_sends. }
  destruct (String.eqb_spec name "ckan_dataset_analytics") as [->|?].
  { apply (sends_weaken 4); [vm_compute; lia|].
    pure_args. apply get_dataset_analytics_sends. }
  destruct (String.eqb_spec name "ckan_resource_preview") as [->|?].
  { apply (sends_weaken 2); [vm_compute; lia|].
    pure_args. apply preview_resource_sends. }
  destruct (String.eqb_spec name "ckan_metadata_exporter") as [->|?].
  { intros st. unfold request_budget, bind, lift. cbn [String.eqb Ascii.eqb Bool.eqb].
    destruct (Py.getitem arguments "dataset_ids") as [dataset_ids|e];
      [|apply reads_from_refl].
    destruct (Py.get arguments "export_format" (PStr "dcat")) as [export_format|e];
      [|apply reads_from_refl].
    destruct (Py.get arguments "include_resources" (PBool true)) as [include_resources|e];
      [|apply reads_from_refl].
    apply export_metadata_sends. }
  apply sends_raise.
Qed.

(** X5. The operations of the client only read, and send few requests:
    whatever their arguments and the state of the client, a faceted search
    and a quality check send at most one request, a search for related
    datasets and a resource preview at most two, the analytics at most
    four and an export at most one per dataset id; each request is a GET
    without a body, with the client's headers, to the address [urljoin]
    makes of [base_url/api/3/action/] and an endpoint; the client keeps
    its address, key, session and TTL, and no cache entry is removed. *)
Theorem operations_only_read :
  (forall q facet_fields filters spatial_query date_range,
      sends_at_most 1 (faceted_search q facet_fields filters spatial_query date_range)) /\
  (forall dataset_id relation_type max_results,
      sends_at_most 2 (get_related_datasets dataset_id relation_type max_results)) /\
  (forall dataset_id checks sample_size,
      sends_at_most 1 (check_data_quality dataset_id checks sample_size)) /\
  (forall dataset_id time_range metrics,
      sends_at_most 4 (get_dataset_analytics dataset_id time_range metrics)) /\
  (forall resource_id preview_rows generate_stats,
      sends_at_most 2 (preview_resource resource_id preview_rows generate_stats)) /\
  (forall dataset_ids export_format include_resources,
      sends_at_most (length (ids_of dataset_ids))
        (export_metadata dataset_ids export_format include_resources)).
Proof.
  split; [exact faceted_search_sends|].
  split; [exact get_related_datasets_sends|].
  split; [exact check_data_quality_sends|].
  split; [exact get_dataset_analytics_sends|].
  split; [exact preview_resource_sends|exact export_metadata_sends].
Qed.

(** X6. The methods of the command-line explorer only read: a search, the
    details of a package or of a resource and the datasets of an
    organization send at most one request, the portal statistics at most
    four; each request is a GET without a body, with the client's headers,
    to the address [urljoin] makes of [base_url/api/3/action/] and an
    endpoint; none of the methods changes the configuration of the client
    or removes a cache entry. *)
Theorem explorer_only_reads :
  (forall query rows organization tags,
      sends_at_most 1 (CKANExplorer.search_packages query rows organization tags)) /\
  (forall package_id, sends_at_most 1 (CKANExplorer.get_package_details package_id)) /\
  (forall resource_id, sends_at_most 1 (CKANExplorer.get_resource_details resource_id)) /\
  (forall org_id, sends_at_most 1 (CKANExplorer.list_organization_datasets org_id)) /\
  sends_at_most 4 CKANExplorer.get_statistics.
Proof.
  split; [exact search_packages_sends|].
  split; [intros package_id; apply sends_get|].
  split; [intros resource_id; apply sends_get|].
  split; [intros org_id; apply sends_get|exact get_statistics_sends].
Qed.

(** X7. A tool call on an initialized server, whatever the name of the
    tool and its arguments, and whether it succeeds or fails: the server
    keeps its client, with the same address, key, session and TTL and
    every cache entry it had; the portal is the same; the requests sent
    are GETs without a body, with the client's headers, to the address
    [urljoin] makes of [base_url/api/3/action/] and an endpoint, at most
    one per dataset id for the exporter, four
    for the analytics, two for the related datasets and the preview, one
    for any other declared tool and none for an unknown one. *)
Theorem tool_call_only_reads (name : string) (arguments : option pydict) (srv : Server)
    (c : CKANAPIClient) :
  ckan_client srv = Some c ->
  let srv' := snd (handle_call_tool name arguments srv) in
  exists c',
    ckan_client srv' = Some c' /\
    reads_from (request_budget name (args_value arguments))
      {| client := c; world := outside srv |}
      {| client := c'; world := outside srv' |}.
Proof.
  intros Hc srv'. subst srv'. unfold handle_call_tool, call_tool_response. rewrite Hc.
  pose proof (dispatch_sends name (args_value arguments)
                {| client := c; world := outside srv |}) as Hrun.
  destruct (dispatch name (args_value arguments) _) as [[result|e] [c' w']];
    cbn [snd client world ckan_client outside] in *; exists c'; split;
    try reflexivity; exact Hrun.
Qed.

End TraceProofs.

(** A status call on a fresh server: one GET, and the client as it was but
    for the new cache entry. *)
Lemma tool_call_only_reads_witness :
  let srv := server_on (status_world 0) in
  let srv' := snd (@handle_call_tool sample_runtime "ckan_status_show" None srv) in
  exists c',
    ckan_client srv' = Some c' /\
    reads_from 1 {| client := sample_client; world := status_world 0 |}
      {| client := c'; world := outside srv' |}.
Proof.
  intros srv srv'.
  exact (@tool_call_only_reads sample_runtime "ckan_status_show" None srv sample_client eq_refl).
Defined.

(** ** The declared tools and the dispatcher *)

Lemma dict_get_app (k k' : string) (v : pyval) (d : pydict) :
  Py.dict_get k' (d ++ [(k, v)])
  = match Py.dict_get k' d with
    | Some x => Some x
    | None => if String.eqb k k' then Some v else None
    end.
Proof.
  induction d as [|[k0 v0] r IH]; simpl.
  - reflexivity.
  - destruct (String.eqb k0 k'); [reflexivity|exact IH].
Qed.

(** An argument added at the end does not change what is read under
    another name. *)
Lemma get_app_other (k k' : string) (v default : pyval) (d : pydict) :
  String.eqb k k' = false ->
  Py.get (PDict (d ++ [(k, v)])) k' default = Py.get (PDict d) k' default.
Proof.
  intros Hne. unfold Py.get. rewrite dict_get_app, Hne.
  destruct (Py.dict_get k' d); reflexivity.
Qed.

(** An argument given with the value the call falls back on reads as if
    it were left out. *)
Lemma get_app_default (k : string) (v : pyval) (d : pydict) :
  Py.dict_get k d = None ->
  Py.get (PDict (d ++ [(k, v)])) k v = Py.get (PDict d) k v.
Proof.
  intros Hnone. unfold Py.get. rewrite dict_get_app, Hnone, String.eqb_refl. reflexivity.
Qed.

Lemma getitem_app_other (k k' : string) (v : pyval) (d : pydict) :
  String.eqb k k' = false ->
  Py.getitem (PDict (d ++ [(k, v)])) k' = Py.getitem (PDict d) k'.
Proof.
  intros Hne. unfold Py.getitem. rewrite dict_get_app, Hne.
  destruct (Py.dict_get k' d); reflexivity.
Qed.

Lemma truthy_app (kv : string * pyval) (d : pydict) : Py.truthy (PDict (d ++ [kv])) = true.
Proof. unfold Py.truthy. rewrite length_app. simpl. destruct (length d); reflexivity. Qed.

Section ToolProofs.
Context `{PyRuntime}.

Lemma get_if_any_app_other (k k' : string) (v default : pyval) (d : pydict) :
  String.eqb k k' = false ->
  get_if_any (PDict (d ++ [(k, v)])) k' default = get_if_any (PDict d) k' default.
Proof.
  intros Hne. unfold get_if_any. rewrite truthy_app, get_app_other by exact Hne.
  destruct d as [|kv r]; [reflexivity|].
  destruct (Py.truthy (PDict (kv :: r))) eqn:Ht; [reflexivity|].
  simpl in Ht. discriminate Ht.
Qed.

Lemma get_if_any_app_default (k : string) (v : pyval) (d : pydict) :
  Py.dict_get k d = None ->
  get_if_any (PDict (d ++ [(k, v)])) k v = get_if_any (PDict d) k v.
Proof.
  intros Hnone. unfold get_if_any. rewrite truthy_app, get_app_default by exact Hnone.
  destruct d as [|kv r]; [reflexivity|].
  destruct (Py.truthy (PDict (kv :: r))) eqn:Ht; [reflexivity|].
  simpl in Ht. discriminate Ht.
Qed.

(** The dispatcher on a name that is none of the sixteen. *)
Lemma dispatch_unknown (name : string) (arguments : pyval) (st : State) :
  ~ In name (map tool_name handle_list_tools) ->
  dispatch name arguments st = (Raise (Exception_ ("Unknown tool: " +:+ name)), st).
Proof.
  intros Hnot. unfold dispatch.
  repeat match goal with
         | |- context [String.eqb name ?tool] =>
             destruct (String.eqb_spec name tool) as [->|_];
             [exfalso; apply Hnot; simpl; tauto|]
         end.
  reflexivity.
Qed.

(** X8. The dispatcher refuses a name as an unknown tool, for every
    argument and every state, exactly when [handle_list_tools] does not
    declare a tool of that name: each of the sixteen declared tools has
    its branch, and no branch answers to another name. *)
Theorem declared_tools_are_dispatched (name : string) :
  (forall arguments st,
      dispatch name arguments st = (Raise (Exception_ ("Unknown tool: " +:+ name)), st))
  <-> ~ In name (map tool_name handle_list_tools).
Proof.
  split.
  - intros Hrefused Hin.
    pose proof (Hrefused PNone {| client := __init__ "" None; world := status_world 0 |})
      as Hrun.
    simpl in Hin.
    repeat (destruct Hin as [<-|Hin]; [vm_compute in Hrun; discriminate Hrun|]).
    destruct Hin.
  - intros Hnot arguments st. apply dispatch_unknown, Hnot.
Qed.

(** The branch of a tool that reads a required argument first. *)
Ltac missing_key Hnone :=
  unfold dispatch; cbn [String.eqb Ascii.eqb Bool.eqb];
  unfold bind, lift; cbn [Py.getitem]; rewrite Hnone; reflexivity.

Lemma dispatch_missing_required (t : Tool) (k : string) (d : pydict) (st : State) :
  In t handle_list_tools -> In k (required_of t) ->
  Py.dict_get k d = None ->
  dispatch (tool_name t) (PDict d) st
  = (Raise {| exn_cls := ExKeyError; exn_msg := Py.repr_str k |}, st).
Proof.
  intros Ht Hk Hnone. simpl in Ht.
  repeat (destruct Ht as [<-|Ht];
          [simpl in Hk;
           repeat (destruct Hk as [<-|Hk]; [missing_key Hnone|]); destruct Hk|]).
  destruct Ht.
Qed.

Lemma classify_missing_required (t : Tool) (k : string) :
  In t handle_list_tools -> In k (required_of t) ->
  classify (Py.repr_str k) = CKAN_API_ERROR.
Proof.
  intros Ht Hk. simpl in Ht.
  repeat (destruct Ht as [<-|Ht];
          [simpl in Hk; repeat (destruct Hk as [<-|Hk]; [reflexivity|]); destruct Hk|]).
  destruct Ht.
Qed.

(** X9. A call of a declared tool with a dict of arguments that lacks an
    argument its schema requires fails before any request is sent: the
    server and its cache are as they were, and the envelope has [success]
    false and an error of type [ckan_api_error] (not
    [invalid_parameters]) whose message is the missing name between
    quotes, as [str] writes a [KeyError]. *)
Theorem missing_required_argument (t : Tool) (k : string) (d : pydict)
    (c : CKANAPIClient) (w : World) :
  In t handle_list_tools -> In k (required_of t) ->
  Py.dict_get k d = None ->
  let srv := {| ckan_client := Some c; outside := w |} in
  let r := fst (call_tool_response (tool_name t) (Some d) srv) in
  snd (call_tool_response (tool_name t) (Some d) srv) = srv /\
  success r = false /\
  error r = PDict [ ("type", PStr "ckan_api_error");
                    ("message", PStr ("'" +:+ k +:+ "'"));
                    ("tool", PStr (tool_name t));
                    ("arguments", PDict d) ]%string.
Proof.
  intros Ht Hk Hnone srv r. subst r srv. unfold call_tool_response.
  cbn [ckan_client outside args_value].
  rewrite (dispatch_missing_required t k d _ Ht Hk Hnone).
  cbn [fst snd exn_msg client world success error set_execution_time StandardResponse_init].
  rewrite (classify_missing_required t k Ht Hk).
  split; [reflexivity|]. split; [reflexivity|].
  assert (Hrepr : Py.repr_str k = "'" +:+ k +:+ "'").
  { simpl in Ht.
    repeat (destruct Ht as [<-|Ht];
            [simpl in Hk; repeat (destruct Hk as [<-|Hk]; [reflexivity|]); destruct Hk|]).
    destruct Ht. }
  rewrite Hrepr. reflexivity.
Qed.

(** A branch of the dispatcher reads the same from the arguments with and
    without a default written out. *)
Ltac same_reads Hnone :=
  unfold dispatch; cbn [String.eqb Ascii.eqb Bool.eqb];
  rewrite ?(get_if_any_app_default _ _ _ Hnone), ?(get_app_default _ _ _ Hnone);
  rewrite ?get_if_any_app_other, ?get_app_other, ?getitem_app_other by reflexivity;
  reflexivity.

(** X10. The defaults the schemas declare are the ones the dispatcher
    applies: for every declared tool but [ckan_package_search], and every
    argument for which its schema declares a default, a call with a dict
    of arguments that leaves the argument out does exactly what the call
    with the default written out does (same result or exception, same
    requests, same state). A call whose arguments are [None] does what
    the call with the default alone does for [ckan_package_list],
    [ckan_organization_list] and [ckan_group_list], which test their
    arguments before they read them; for every other such tool it fails
    with an [AttributeError] or a [TypeError] before any request. *)
Theorem declared_defaults_are_applied (t : Tool) (k : string) (v : pyval) (d : pydict)
    (st : State) :
  In t handle_list_tools ->
  tool_name t <> "ckan_package_search"%string ->
  In (k, v) (defaults_of t) ->
  (Py.dict_get k d = None ->
   dispatch (tool_name t) (PDict (d ++ [(k, v)])) st = dispatch (tool_name t) (PDict d) st) /\
  (if guards_arguments (tool_name t)
   then dispatch (tool_name t) PNone st = dispatch (tool_name t) (PDict [(k, v)]) st
   else exists e, dispatch (tool_name t) PNone st = (Raise e, st) /\
                  (exn_cls e = ExAttributeError \/ exn_cls e = ExTypeError)).
Proof.
  intros Ht Hname Hkv.
  assert (Hin : In (tool_name t, (k, v))
                  (flat_map (fun t => map (pair (tool_name t)) (defaults_of t))
                     handle_list_tools)).
  { apply in_flat_map. exists t. split; [exact Ht|]. apply in_map, Hkv. }
  clear Ht Hkv. revert Hname. generalize dependent (tool_name t). intros name Hin Hname.
  vm_compute in Hin.
  repeat (destruct Hin as [Hin|Hin];
          [injection Hin as <- <- <-;
           first [ destruct Hname; reflexivity
                 | split;
                   [ intros Hnone; same_reads Hnone
                   | cbn [guards_arguments existsb String.eqb Ascii.eqb Bool.eqb orb];
                     first [ reflexivity
                           | eexists; split;
                             [reflexivity|first [left; reflexivity|right; reflexivity]] ] ] ]|]).
  destruct Hin.
Qed.

End ToolProofs.

(** A call of [ckan_package_show] that names the dataset under [name]
    instead of [id]. *)
Lemma missing_required_argument_witness :
  let srv := server_on (status_world 0) in
  let arguments := [("name", PStr "rainfall")]%string in
  tool_name package_show_tool = "ckan_package_show"%string /\
  snd (@call_tool_response sample_runtime "ckan_package_show" (Some arguments) srv) = srv /\
  error (fst (@call_tool_response sample_runtime "ckan_package_show" (Some arguments) srv))
  = PDict [ ("type", PStr "ckan_api_error"); ("message", PStr "'id'");
            ("tool", PStr "ckan_package_show"); ("arguments", PDict arguments) ]%string.
Proof.
  intros srv arguments. split; [reflexivity|].
  destruct (@missing_required_argument sample_runtime package_show_tool "id" arguments
              sample_client (status_world 0)) as (Hsrv & _ & Herr).
  - right. left. reflexivity.
  - left. reflexivity.
  - reflexivity.
  - split; [exact Hsrv|exact Herr].
Defined.

(** A listing with an offset and no limit, and the same with the limit of
    100 written out. *)
Lemma declared_defaults_are_applied_witness :
  let st := {| client := sample_client; world := status_world 0 |} in
  @dispatch sample_runtime "ckan_package_list"
    (PDict [("offset", PInt 5); ("limit", PInt 100)]%string) st
  = @dispatch sample_runtime "ckan_package_list" (PDict [("offset", PInt 5)]%string) st.
Proof.
  intros st.
  refine (proj1 (@declared_defaults_are_applied sample_runtime package_list_tool "limit"
                   (PInt 100) [("offset", PInt 5)]%string st _ _ _) eq_refl).
  - left. reflexivity.
  - discriminate.
  - left. reflexivity.
Defined.

(** ** The reports of the derived operations *)

Lemma In_firstn {A} (n : nat) (l : list A) (x : A) : In x (firstn n l) -> In x l.
Proof.
  revert l. induction n as [|n IH]; intros [|y r]; simpl; try tauto.
  intros [->|Hx]; [left; reflexivity|right; apply IH, Hx].
Qed.

Lemma Forall_take {A} (P : A -> Prop) (n : Z) (l : list A) :
  List.Forall P l -> List.Forall P (Py.take n l).
Proof.
  intros Hl. unfold Py.take. destruct (n <? 0); apply List.Forall_forall;
    intros x Hx; apply In_firstn in Hx; exact (proj1 (List.Forall_forall P l) Hl x Hx).
Qed.

Lemma Forall_filter_holds {A} (p : A -> bool) (l : list A) :
  List.Forall (fun x => p x = true) (List.filter p l).
Proof.
  apply List.Forall_forall. intros x Hx. apply filter_In in Hx. exact (proj2 Hx).
Qed.

Lemma rmap_length {A B} (f : A -> result B) (l : list A) (out : list B) :
  rmap f l = Ok out -> length out = length l.
Proof.
  revert out. induction l as [|x r IH]; simpl; intros out Hout.
  - injection Hout as <-. reflexivity.
  - step_ok Hout y Ey. step_ok Hout ys Eys. injection Hout as <-.
    simpl. rewrite (IH ys eq_refl). reflexivity.
Qed.

Section OperationProofs.
Context `{PyRuntime}.

(** *** Metadata export *)

Lemma export_each_length (ids : list pyval) (export_format include_resources : pyval)
    (acc datasets : list pyval) (st st' : State) :
  export_each ids export_format include_resources acc st = (Ok datasets, st') ->
  length datasets
  = (length acc + if known_format export_format then length ids else 0)%nat.
Proof.
  unfold known_format.
  revert acc st. induction ids as [|dataset_id rest IH]; intros acc st Hrun.
  - injection Hrun as <- <-. destruct (_ || _); simpl; lia.
  - cbn [export_each] in Hrun. unfold bind at 1 in Hrun.
    destruct (_make_request "GET" _ None true st) as [[dataset|e] st1]; [|discriminate Hrun].
    unfold bind at 1 in Hrun.
    destruct (Py.eq_str export_format "dcat").
    + unfold bind, lift, ret in Hrun.
      destruct (dcat_dataset_of dataset include_resources) as [d|e]; [|discriminate Hrun].
      rewrite (IH _ _ Hrun), length_app. simpl. lia.
    + destruct (Py.eq_str export_format "schema_org").
      * unfold bind, lift, ret in Hrun.
        destruct (schema_dataset_of dataset include_resources) as [d|e]; [|discriminate Hrun].
        rewrite (IH _ _ Hrun), length_app. simpl. lia.
      * destruct (Py.eq_str export_format "ckan_native"); unfold ret in Hrun;
          rewrite (IH _ _ Hrun), ?length_app; simpl; lia.
Qed.

(** X11. An export that returns has the format as it was asked, a
    timestamp and the list of datasets, with one entry per dataset id
    when the format is [dcat], [schema_org] or [ckan_native]; for any
    other format the list is empty, whatever the ids. *)
Theorem export_has_one_entry_per_id (dataset_ids export_format include_resources : pyval)
    (st st' : State) (report : pyval) :
  export_metadata dataset_ids export_format include_resources st = (Ok report, st') ->
  exists timestamp datasets,
    report = PDict [ ("export_format", export_format);
                     ("timestamp", PStr timestamp);
                     ("datasets", PList datasets) ]%string /\
    length datasets
    = if known_format export_format then length (ids_of dataset_ids) else 0%nat.
Proof.
  unfold export_metadata, bind, utcnow_isoformat, lift, ret, ids_of. intros Hrun.
  destruct (Py.iter dataset_ids) as [ids|e]; [|discriminate Hrun].
  destruct (export_each ids export_format include_resources [] st) as [[datasets|e] st1] eqn:Hloop;
    [|discriminate Hrun].
  injection Hrun as <- <-. eexists _, datasets. split; [reflexivity|].
  rewrite (export_each_length _ _ _ _ _ _ _ Hloop). reflexivity.
Qed.

(** The distributions of a dataset: one per resource. *)
Lemma distributions_length (dataset : pyval) (type : string) (fields : list (string * string))
    (ds : pyval) :
  distributions dataset type fields = Ok ds ->
  exists l resources,
    ds = PList l /\ rbind (Py.get dataset "resources" (PList [])) Py.iter = Ok resources /\
    length l = length resources.
Proof.
  unfold distributions. intros Hd.
  step_ok Hd resources Er. step_ok Hd each Ee. step_ok Hd l El.
  injection Hd as <-. exists l, each. split; [reflexivity|].
  split; [exact Ee|]. apply (rmap_length _ _ _ El).
Qed.

(** X12. The DCAT record and the schema.org record of a dataset have a
    distribution entry ([dcat:distribution], [distribution]) exactly when
    [include_resources] is true; it is then a list with one distribution
    per resource of the dataset. *)
Theorem export_distribution_per_resource (dataset include_resources record : pyval) :
  (dcat_dataset_of dataset include_resources = Ok record ->
   entry_of "@type" record = Some (PStr "dcat:Dataset") /\
   if Py.truthy include_resources
   then exists l resources,
       entry_of "dcat:distribution" record = Some (PList l) /\
       rbind (Py.get dataset "resources" (PList [])) Py.iter = Ok resources /\
       length l = length resources
   else entry_of "dcat:distribution" record = None)
  /\
  (schema_dataset_of dataset include_resources = Ok record ->
   entry_of "@type" record = Some (PStr "Dataset") /\
   if Py.truthy include_resources
   then exists l resources,
       entry_of "distribution" record = Some (PList l) /\
       rbind (Py.get dataset "resources" (PList [])) Py.iter = Ok resources /\
       length l = length resources
   else entry_of "distribution" record = None).
Proof.
  split.
  - unfold dcat_dataset_of. intros Hr.
    step_ok Hr vid Eid. step_ok Hr title Et. step_ok Hr notes En. step_ok Hr keyword Ek.
    step_ok Hr issued Ei. step_ok Hr modified Em. step_ok Hr publisher Ep.
    destruct (Py.truthy include_resources).
    + step_ok Hr ds Ed. injection Hr as <-.
      destruct (distributions_length _ _ _ _ Ed) as (l & resources & -> & Hres & Hlen).
      split; [reflexivity|]. exists l, resources. repeat split; assumption.
    + injection Hr as <-. split; reflexivity.
  - unfold schema_dataset_of. intros Hr.
    step_ok Hr title Et. step_ok Hr notes En. step_ok Hr vid Eid. step_ok Hr keyword Ek.
    step_ok Hr issued Ei. step_ok Hr modified Em. step_ok Hr publisher Ep.
    destruct (Py.truthy include_resources).
    + step_ok Hr ds Ed. injection Hr as <-.
      destruct (distributions_length _ _ _ _ Ed) as (l & resources & -> & Hres & Hlen).
      split; [reflexivity|]. exists l, resources. repeat split; assumption.
    + injection Hr as <-. split; reflexivity.
Qed.

(** *** Related datasets *)

Lemma related_search_kept (dataset_id : pyval) (query_string : string)
    (st st' : State) (kept : list pyval) :
  related_search dataset_id query_string st = (Ok kept, st') ->
  List.Forall (fun ds => not_source dataset_id ds = true) kept.
Proof.
  unfold related_search, bind, lift. intros Hrun.
  destruct (_make_request "GET" _ None true st) as [[results|e] st1]; [|discriminate Hrun].
  destruct (Py.get results "results" (PList [])) as [found|e]; [|discriminate Hrun].
  destruct (Py.iter found) as [each|e]; [|discriminate Hrun].
  destruct (drop_source dataset_id each) as [l|e] eqn:Hdrop; [|discriminate Hrun].
  injection Hrun as <- <-. rewrite (drop_source_filter _ _ _ Hdrop).
  apply Forall_filter_holds.
Qed.

(** X13. Whatever the relation type, the related datasets that come back
    for a limit [n >= 0] are a list of at most [n] datasets, each with an
    [id] that differs from the [dataset_id] the call was given (the
    comparison is with the argument of the call, not with the [id] of the
    dataset fetched for it); a relation type other than [tags],
    [organization] and [theme] gives the empty list. *)
Theorem related_excludes_source (dataset_id relation_type : pyval) (n : Z)
    (st st' : State) (related : pyval) :
  0 <= n ->
  get_related_datasets dataset_id relation_type (PInt n) st = (Ok related, st') ->
  exists l,
    related = PList l /\
    Z.of_nat (length l) <= n /\
    List.Forall (fun ds => not_source dataset_id ds = true) l /\
    (Py.eq_str relation_type "tags" = false ->
     Py.eq_str relation_type "organization" = false ->
     Py.eq_str relation_type "theme" = false -> l = []).
Proof.
  intros Hn Hrun. unfold get_related_datasets, bind at 1 in Hrun.
  destruct (_make_request "GET" _ None true st) as [[source_dataset|e] st1];
    [|discriminate Hrun].
  unfold bind at 1 in Hrun.
  match type of Hrun with
  | match ?branch st1 with _ => _ end = _ =>
      destruct (branch st1) as [[found|e] st2] eqn:Hbranch; [|discriminate Hrun]
  end.
  unfold bind, lift, ret in Hrun. cbn [Py.slice_to] in Hrun. injection Hrun as <- <-.
  exists (Py.take n found). split; [reflexivity|]. split; [apply take_length, Hn|].
  assert (Hfound : List.Forall (fun ds => not_source dataset_id ds = true) found
                   /\ (Py.eq_str relation_type "tags" = false ->
                       Py.eq_str relation_type "organization" = false ->
                       Py.eq_str relation_type "theme" = false -> found = [])).
  { destruct (Py.eq_str relation_type "tags").
    - split; [|discriminate]. unfold bind at 1 2 3, lift in Hbranch.
      destruct (Py.get source_dataset "tags" (PList [])) as [tags|e]; [|discriminate Hbranch].
      destruct (Py.iter tags) as [each|e]; [|discriminate Hbranch].
      destruct (rmap _ each) as [[|tag names]|e]; [| |discriminate Hbranch].
      + injection Hbranch as <- _. constructor.
      + eapply related_search_kept, Hbranch.
    - destruct (Py.eq_str relation_type "organization").
      + split; [|discriminate]. unfold bind at 1 2, lift in Hbranch.
        destruct (Py.get source_dataset "organization" (PDict [])) as [organization|e];
          [|discriminate Hbranch].
        destruct (Py.get organization "id" PNone) as [org|e]; [|discriminate Hbranch].
        destruct (Py.truthy org).
        * eapply related_search_kept, Hbranch.
        * injection Hbranch as <- _. constructor.
      + destruct (Py.eq_str relation_type "theme").
        * split; [|discriminate]. unfold bind at 1, lift in Hbranch.
          destruct (Py.get source_dataset "groups" (PList [])) as [groups|e];
            [|discriminate Hbranch].
          destruct (Py.truthy groups).
          -- unfold bind at 1 2, lift in Hbranch.
             destruct (Py.iter groups) as [gs|e]; [|discriminate Hbranch].
             destruct (rmap _ gs) as [ids|e]; [|discriminate Hbranch].
             eapply related_search_kept, Hbranch.
          -- injection Hbranch as <- _. constructor.
        * injection Hbranch as <- _. split; [constructor|reflexivity]. }
  destruct Hfound as [Hall Hnone]. split; [apply Forall_take, Hall|].
  intros H1 H2 H3. rewrite (Hnone H1 H2 H3). apply take_nil.
Qed.

(** *** Dataset analytics *)

Lemma dataset_metrics_names (metrics dataset : pyval) (m : pydict) :
  dataset_metrics metrics dataset = Ok m ->
  (forall k, Py.has_key k m = true -> In k dataset_metric_names) /\
  Py.has_key "created" m = true /\ Py.has_key "modified" m = true /\
  Py.has_key "tags_count" m = true /\ Py.has_key "organization" m = true.
Proof.
  unfold dataset_metrics. intros Hm.
  step_ok Hm w1 E1. step_ok Hm m1 Em1.
  step_ok Hm w2 E2. step_ok Hm m2 Em2.
  step_ok Hm w3 E3. step_ok Hm m3 Em3.
  step_ok Hm created Ec. step_ok Hm modified Emo. step_ok Hm tags Et.
  step_ok Hm tags_count Etc. step_ok Hm organization Eo. step_ok Hm oname Eon.
  injection Hm as <-.
  assert (H1 : forall k, Py.has_key k m1 = true -> k = "resource_count"%string).
  { intros k. destruct w1.
    - step_ok Em1 resources Er. step_ok Em1 n En. injection Em1 as <-.
      unfold Py.has_key. cbn [Py.dict_get].
      destruct (String.eqb_spec "resource_count" k) as [<-|_];
        [intros _; reflexivity|discriminate].
    - injection Em1 as <-. discriminate. }
  assert (H2 : forall k, Py.has_key k m2 = true ->
                         k = "views"%string \/ k = "resource_count"%string).
  { intros k. destruct w2.
    - step_ok Em2 v Ev. injection Em2 as <-. rewrite has_key_set.
      destruct (String.eqb_spec "views" k) as [<-|_]; [left; reflexivity|].
      cbn [orb]. intros Hk. right. apply H1, Hk.
    - injection Em2 as <-. intros Hk. right. apply H1, Hk. }
  assert (H3 : forall k, Py.has_key k m3 = true ->
                         k = "downloads"%string \/ k = "views"%string
                         \/ k = "resource_count"%string).
  { intros k. destruct w3.
    - step_ok Em3 v Ev. injection Em3 as <-. rewrite has_key_set.
      destruct (String.eqb_spec "downloads" k) as [<-|_]; [left; reflexivity|].
      cbn [orb]. intros Hk. right. apply H2, Hk.
    - injection Em3 as <-. intros Hk. right. apply H2, Hk. }
  split.
  - intros k. rewrite !has_key_set. unfold dataset_metric_names.
    destruct (String.eqb_spec "organization" k) as [<-|_]; [simpl; tauto|].
    destruct (String.eqb_spec "tags_count" k) as [<-|_]; [simpl; tauto|].
    destruct (String.eqb_spec "modified" k) as [<-|_]; [simpl; tauto|].
    destruct (String.eqb_spec "created" k) as [<-|_]; [simpl; tauto|].
    cbn [orb]. intros Hk. destruct (H3 k Hk) as [-> | [-> | ->]]; simpl; tauto.
  - rewrite !has_key_set. cbn [String.eqb Ascii.eqb Bool.eqb orb].
    rewrite ?orb_true_r. repeat split.
Qed.

(** X14. The report on one dataset has under [metrics] only entries
    named [resource_count], [views], [downloads], [created], [modified],
    [tags_count] and [organization]; the last four are there whatever
    metrics were asked, and [api_calls], which the default metrics name,
    never is. *)
Theorem dataset_report_fields (dataset_id time_range metrics : pyval)
    (st st' : State) (report : pyval) :
  Py.eq_str dataset_id "all" = false ->
  get_dataset_analytics dataset_id time_range metrics st = (Ok report, st') ->
  (forall k v, metric_of k report = Some v -> In k dataset_metric_names) /\
  metric_of "api_calls" report = None /\
  (forall k, In k ["created"; "modified"; "tags_count"; "organization"]%string ->
             exists v, metric_of k report = Some v).
Proof.
  intros Hone Hrun.
  unfold get_dataset_analytics in Hrun. rewrite Hone in Hrun. unfold bind, lift, ret in Hrun.
  destruct (_make_request "GET" _ None true st) as [[dataset|e] st1]; [|discriminate Hrun].
  destruct (dataset_metrics _ dataset) as [m|e] eqn:Hm; [|discriminate Hrun].
  injection Hrun as <- <-.
  destruct (dataset_metrics_names _ _ _ Hm) as (Hnames & Hc & Hmo & Ht & Ho).
  assert (Hkey : forall k v, Py.dict_get k m = Some v -> Py.has_key k m = true).
  { intros k v Hk. unfold Py.has_key. rewrite Hk. reflexivity. }
  assert (Hsome : forall k, Py.has_key k m = true -> exists v, Py.dict_get k m = Some v).
  { intros k. unfold Py.has_key. destruct (Py.dict_get k m) as [v|]; [eauto|discriminate]. }
  split; [|split].
  - intros k v Hk. apply Hnames, (Hkey k v). exact Hk.
  - change (Py.dict_get "api_calls" m = None).
    destruct (Py.dict_get "api_calls" m) as [v|] eqn:Hv; [|reflexivity].
    pose proof (Hnames _ (Hkey _ _ Hv)) as Hin. simpl in Hin.
    repeat (destruct Hin as [Hin|Hin]; [discriminate Hin|]). destruct Hin.
  - intros k Hin. change (exists v, Py.dict_get k m = Some v). apply Hsome.
    simpl in Hin. repeat (destruct Hin as [<-|Hin]; [assumption|]). destruct Hin.
Qed.

(** X15. The report on the whole site ([dataset_id] equal to ["all"]) has
    under [metrics] exactly the total of datasets, the site status, the
    count of recent datasets and the popular datasets, whatever metrics
    were asked; the popular datasets are at most five. *)
Theorem site_report_fields (dataset_id time_range metrics : pyval)
    (st st' : State) (report : pyval) :
  Py.eq_str dataset_id "all" = true ->
  get_dataset_analytics dataset_id time_range metrics st = (Ok report, st') ->
  exists total_datasets site_status recent_datasets popular_datasets,
    metrics_of report
    = Some (PDict [ ("total_datasets", PInt total_datasets);
                    ("site_status", site_status);
                    ("recent_datasets", recent_datasets);
                    ("popular_datasets", PList popular_datasets) ]%string) /\
    (length popular_datasets <= 5)%nat.
Proof.
  intros Hall Hrun.
  unfold get_dataset_analytics in Hrun. rewrite Hall in Hrun.
  unfold bind at 1 in Hrun.
  destruct (site_metrics st) as [[m|e] st1] eqn:Hsite; [|discriminate Hrun].
  unfold ret in Hrun. injection Hrun as <- <-.
  unfold site_metrics, bind, lift, ret in Hsite.
  destruct (_make_request "GET" "status_show" None true st) as [[site_stats|e] s1];
    [|discriminate Hsite].
  destruct (_make_request "GET" "package_list" None true s1) as [[package_list|e] s2];
    [|discriminate Hsite].
  destruct (Py.len package_list) as [total|e]; [|discriminate Hsite].
  destruct (_make_request "GET" _ None true s2) as [[recent|e] s3]; [|discriminate Hsite].
  destruct (Py.get recent "count" (PInt 0)) as [recent_count|e]; [|discriminate Hsite].
  destruct (_make_request "GET" _ None true s3) as [[popular|e] s4]; [|discriminate Hsite].
  destruct (Py.get popular "results" (PList [])) as [results|e]; [|discriminate Hsite].
  destruct (Py.slice_val results 5) as [top|e] eqn:Htop; [|discriminate Hsite].
  destruct (Py.iter top) as [each|e] eqn:Heach; [|discriminate Hsite].
  destruct (rmap popular_entry each) as [entries|e] eqn:Hentries; [|discriminate Hsite].
  injection Hsite as <- <-.
  exists total, site_stats, recent_count, entries. split; [reflexivity|].
  destruct results; try discriminate Htop; injection Htop as <-.
  - destruct (string_of_list_ascii _) as [|c r]; cbn in Heach; injection Heach as <-.
    + injection Hentries as <-. simpl. lia.
    + discriminate Hentries.
  - cbn [Py.iter] in Heach. injection Heach as <-. rewrite (rmap_length _ _ _ Hentries).
    pose proof (take_length 5 l ltac:(lia)). lia.
Qed.

(** *** Faceted search *)

(** X16. A date range adds one clause to the filter of a faceted search
    and changes no other parameter: the clause is [field:[start TO end]],
    on [metadata_created] when the range names no field and open ([*])
    at an end the range leaves out; it comes after the clause of the
    filters, joined by [AND], and stands alone when there are none. *)
Theorem date_range_clause (q facet_fields filters spatial_query : pyval)
    (date_range params : pydict) :
  date_range <> [] ->
  faceted_search_params q facet_fields filters spatial_query (PDict date_range) = Ok params ->
  let start_date := match Py.dict_get "start" date_range with Some v => v | None => PStr "*" end in
  let end_date := match Py.dict_get "end" date_range with Some v => v | None => PStr "*" end in
  let date_field := match Py.dict_get "field" date_range with
                    | Some v => v
                    | None => PStr "metadata_created"
                    end in
  let date_fq := Py.str date_field +:+ ":[" +:+ Py.str start_date +:+ " TO "
                   +:+ Py.str end_date +:+ "]" in
  exists before,
    faceted_search_params q facet_fields filters spatial_query PNone = Ok before /\
    Py.dict_get "fq" params
    = Some (PStr (match Py.dict_get "fq" before with
                  | Some fq => Py.str fq +:+ " AND " +:+ date_fq
                  | None => date_fq
                  end)) /\
    forall k, k <> "fq"%string -> Py.dict_get k params = Py.dict_get k before.
Proof.
  intros Hne Hp start_date end_date date_field date_fq.
  unfold faceted_search_params in *.
  match type of Hp with
  | rbind ?c _ = _ => destruct c as [p1|e]; [|discriminate Hp]
  end.
  cbn [rbind] in *.
  match type of Hp with
  | rbind ?c _ = _ => destruct c as [p2|e]; [|discriminate Hp]
  end.
  cbn [rbind] in *.
  assert (Ht : Py.truthy (PDict date_range) = true).
  { destruct date_range; [destruct Hne; reflexivity|reflexivity]. }
  rewrite Ht in Hp. cbn [Py.get rbind Py.truthy] in *.
  fold start_date end_date date_field in Hp. fold date_fq in Hp.
  exists p2. split; [reflexivity|].
  destruct (Py.dict_get "fq" p2) as [fq|]; injection Hp as <-;
    (split; [rewrite dict_get_set, String.eqb_refl; reflexivity|]);
    intros k Hk; rewrite dict_get_set;
    destruct (String.eqb_spec "fq" k) as [<-|_]; try reflexivity; destruct Hk; reflexivity.
Qed.

(** X17. Of the two spatial filters a faceted search takes at most one:
    a spatial query with a [bbox] gives the parameter [ext_bbox], its
    first four coordinates separated by commas, and no [ext_spatial],
    whether or not it also has a point and a radius; without a [bbox] it
    gives [ext_spatial] exactly when it has both a [point] and a [radius],
    and never [ext_bbox]. *)
Theorem spatial_filter_choice (q facet_fields filters date_range : pyval)
    (spatial_query params : pydict) :
  faceted_search_params q facet_fields filters (PDict spatial_query) date_range = Ok params ->
  match Py.dict_get "bbox" spatial_query with
  | Some bbox =>
      (exists b0 b1 b2 b3,
          Py.getitem_int bbox 0 = Ok b0 /\ Py.getitem_int bbox 1 = Ok b1 /\
          Py.getitem_int bbox 2 = Ok b2 /\ Py.getitem_int bbox 3 = Ok b3 /\
          Py.dict_get "ext_bbox" params
          = Some (PStr (Py.str b0 +:+ "," +:+ Py.str b1 +:+ "," +:+ Py.str b2
                          +:+ "," +:+ Py.str b3))) /\
      Py.has_key "ext_spatial" params = false
  | None =>
      Py.has_key "ext_bbox" params = false /\
      Py.has_key "ext_spatial" params
      = Py.has_key "point" spatial_query && Py.has_key "radius" spatial_query
  end.
Proof.
  intros Hp. unfold faceted_search_params in Hp.
  match type of Hp with
  | rbind ?c _ = _ => destruct c as [p1|e] eqn:Hfilters; [|discriminate Hp]
  end.
  cbn [rbind] in Hp.
  assert (H1 : Py.has_key "ext_bbox" p1 = false /\ Py.has_key "ext_spatial" p1 = false).
  { destruct (Py.truthy filters).
    - step_ok Hfilters items Ei. injection Hfilters as <-. split; reflexivity.
    - injection Hfilters as <-. split; reflexivity. }
  destruct H1 as [Hb1 Hs1].
  match type of Hp with
  | rbind ?c _ = _ => destruct c as [p2|e] eqn:Hspatial; [|discriminate Hp]
  end.
  cbn [rbind] in Hp.
  assert (Hlast : Py.has_key "ext_bbox" params = Py.has_key "ext_bbox" p2 /\
                  Py.has_key "ext_spatial" params = Py.has_key "ext_spatial" p2 /\
                  Py.dict_get "ext_bbox" params = Py.dict_get "ext_bbox" p2).
  { destruct (Py.truthy date_range).
    - step_ok Hp start_date Es. step_ok Hp end_date Ee. step_ok Hp date_field Ef.
      destruct (Py.dict_get "fq" p2); injection Hp as <-;
        rewrite !has_key_set, dict_get_set; repeat split.
    - injection Hp as <-. repeat split. }
  destruct Hlast as (Hb & Hs & Hv). rewrite Hb, Hs, Hv. clear Hb Hs Hv Hp.
  change (Py.has_key "point" spatial_query)
    with (match Py.dict_get "point" spatial_query with Some _ => true | None => false end).
  change (Py.has_key "radius" spatial_query)
    with (match Py.dict_get "radius" spatial_query with Some _ => true | None => false end).
  destruct (Py.truthy (PDict spatial_query)) eqn:Htruthy.
  - cbn [Py.contains rbind] in Hspatial. unfold Py.has_key at 1 in Hspatial.
    cbn [Py.getitem] in Hspatial.
    destruct (Py.dict_get "bbox" spatial_query) as [bbox|].
    + cbn [rbind] in Hspatial.
      step_ok Hspatial b0 E0. step_ok Hspatial b1 E1. step_ok Hspatial b2 E2.
      step_ok Hspatial b3 E3. injection Hspatial as <-. split.
      * exists b0, b1, b2, b3. repeat split; try assumption.
        rewrite dict_get_set, String.eqb_refl. reflexivity.
      * rewrite has_key_set. exact Hs1.
    + cbn [rbind] in Hspatial. unfold Py.has_key in Hspatial.
      destruct (Py.dict_get "point" spatial_query) as [point|]; cbn [rbind andb] in Hspatial.
      * destruct (Py.dict_get "radius" spatial_query) as [radius|]; cbn [rbind andb] in Hspatial.
        -- step_ok Hspatial p0 E0. step_ok Hspatial p1' E1. injection Hspatial as <-.
           rewrite !has_key_set, Hb1. split; reflexivity.
        -- injection Hspatial as <-. split; assumption.
      * injection Hspatial as <-. split; assumption.
  - injection Hspatial as <-.
    destruct spatial_query as [|kv r]; [|discriminate Htruthy].
    cbn. split; assumption.
Qed.

(** *** Resource preview *)

(** X18. When the resource and its datastore records are both fetched,
    the preview is the seven metadata fields of the resource followed by
    the records ([[]] without any), their total (0 without one) and, when
    statistics are asked and the datastore names its fields, one
    statistics entry per field; it has no note. *)
Theorem preview_with_datastore (resource_id preview_rows generate_stats : pyval)
    (fields info : pydict) (st st1 st2 : State) (stats : list pyval) :
  _make_request "GET" ("resource_show?id=" +:+ Py.str resource_id) None true st
  = (Ok (PDict fields), st1) ->
  _make_request "GET" ("datastore_search?resource_id=" +:+ Py.str resource_id
                         +:+ "&limit=" +:+ Py.str preview_rows) None true st1
  = (Ok (PDict info), st2) ->
  let wanted := Py.truthy generate_stats && Py.truthy (field_or_none "fields" info) in
  (wanted = true ->
   rbind (Py.iter (field_or_none "fields" info)) (rmap field_stat) = Ok stats) ->
  preview_resource resource_id preview_rows generate_stats st
  = (Ok (PDict (List.app
                  [ ("resource_id", resource_id);
                  ("resource_name", field_or_none "name" fields);
                  ("format", field_or_none "format" fields);
                  ("url", field_or_none "url" fields);
                  ("size", field_or_none "size" fields);
                  ("created", field_or_none "created" fields);
                  ("last_modified", field_or_none "last_modified" fields);
                  ("preview_data", match Py.dict_get "records" info with
                                   | Some records => records
                                   | None => PList []
                                   end);
                  ("total_records", match Py.dict_get "total" info with
                                    | Some n => n
                                    | None => PInt 0
                                    end) ]%string
                  (if wanted then [("field_statistics"%string, PList stats)] else []))),
     st2)
  /\ (wanted = true -> length stats = length (ids_of (field_or_none "fields" info))).
Proof.
  intros Hshow Hsearch wanted Hstats. split.
  - unfold preview_resource, bind. rewrite Hshow. unfold lift. cbn [Py.get].
    unfold preview_datastore. rewrite Hsearch.
    cbn [run_statements Py.get rbind Py.dict_set String.eqb Ascii.eqb Bool.eqb].
    subst wanted. unfold field_or_none in *.
    destruct (Py.truthy generate_stats); cbn [andb rbind] in *.
    + destruct (Py.dict_get "fields" info) as [fs|]; cbn [Py.truthy] in *; [|reflexivity].
      destruct (Py.truthy fs); [|reflexivity].
      specialize (Hstats eq_refl).
      destruct (Py.iter fs) as [each|e]; [|discriminate Hstats]. cbn [rbind] in *.
      rewrite Hstats. reflexivity.
    + reflexivity.
  - intros Hw. specialize (Hstats Hw). unfold ids_of.
    destruct (Py.iter (field_or_none "fields" info)) as [each|e]; [|discriminate Hstats].
    apply (rmap_length _ _ _ Hstats).
Qed.

End OperationProofs.

(** An export of two datasets in the portal's own format. *)
Lemma export_has_one_entry_per_id_witness :
  exists report st' timestamp datasets,
    @export_metadata sample_runtime (PList [PStr "X"; PStr "Y"]) (PStr "ckan_native")
      (PBool true) catalogue_state = (Ok report, st') /\
    report = PDict [ ("export_format", PStr "ckan_native");
                     ("timestamp", PStr timestamp);
                     ("datasets", PList datasets) ]%string /\
    length datasets = 2%nat.
Proof.
  eassert (Hrun : @export_metadata sample_runtime (PList [PStr "X"; PStr "Y"])
                    (PStr "ckan_native") (PBool true) catalogue_state = (Ok _, _))
    by (vm_compute; reflexivity).
  destruct (@export_has_one_entry_per_id sample_runtime _ _ _ _ _ _ Hrun)
    as (timestamp & datasets & Hreport & Hlen).
  eexists _, _, timestamp, datasets. split; [exact Hrun|]. split; [exact Hreport|exact Hlen].
Defined.

(** The datasets related by tags to a dataset the search finds again. *)
Lemma related_excludes_source_witness :
  exists l st',
    @get_related_datasets sample_runtime (PStr "X") (PStr "tags") (PInt 10) catalogue_state
    = (Ok (PList l), st') /\
    Z.of_nat (length l) <= 10 /\
    List.Forall (fun ds => not_source (PStr "X") ds = true) l.
Proof.
  eassert (Hrun : @get_related_datasets sample_runtime (PStr "X") (PStr "tags") (PInt 10)
                    catalogue_state = (Ok _, _)) by (vm_compute; reflexivity).
  destruct (@related_excludes_source sample_runtime _ _ 10 _ _ _ ltac:(lia) Hrun)
    as (l & Hl & Hlen & Hall & _).
  exists l. eexists. split; [rewrite <- Hl; exact Hrun|]. split; [exact Hlen|exact Hall].
Defined.

Lemma dataset_report_fields_witness :
  exists report st',
    @get_dataset_analytics sample_runtime (PStr "X") PNone PNone catalogue_state
    = (Ok report, st') /\
    metric_of "api_calls" report = None /\
    exists v, metric_of "organization" report = Some v.
Proof.
  eassert (Hrun : @get_dataset_analytics sample_runtime (PStr "X") PNone PNone catalogue_state
                  = (Ok _, _)) by (vm_compute; reflexivity).
  destruct (@dataset_report_fields sample_runtime (PStr "X") PNone PNone _ _ _ eq_refl Hrun)
    as (_ & Hno & Hfixed).
  eexists _, _. split; [exact Hrun|]. split; [exact Hno|].
  apply Hfixed. simpl. tauto.
Defined.

Lemma site_report_fields_witness :
  exists report st' popular_datasets,
    @get_dataset_analytics sample_runtime (PStr "all") PNone PNone catalogue_state
    = (Ok report, st') /\
    entry_of "popular_datasets" (match metrics_of report with Some m => m | None => PNone end)
    = Some (PList popular_datasets) /\
    (length popular_datasets <= 5)%nat.
Proof.
  eassert (Hrun : @get_dataset_analytics sample_runtime (PStr "all") PNone PNone catalogue_state
                  = (Ok _, _)) by (vm_compute; reflexivity).
  destruct (@site_report_fields sample_runtime (PStr "all") PNone PNone _ _ _ eq_refl Hrun)
    as (total & status & recent & popular & Hm & Hlen).
  eexists _, _, popular. split; [exact Hrun|]. rewrite Hm. split; [reflexivity|exact Hlen].
Defined.

(** A range with a start and nothing else, after a filter. *)
Lemma date_range_clause_witness :
  exists params,
    @faceted_search_params sample_runtime (PStr "*:*") PNone
      (PDict [("organization", PStr "met")]%string) PNone
      (PDict [("start", PStr "2024-01-01T00:00:00Z")]%string) = Ok params /\
    Py.dict_get "fq" params
    = Some (PStr "organization:met AND metadata_created:[2024-01-01T00:00:00Z TO *]").
Proof.
  eassert (Hp : @faceted_search_params sample_runtime (PStr "*:*") PNone
                  (PDict [("organization", PStr "met")]%string) PNone
                  (PDict [("start", PStr "2024-01-01T00:00:00Z")]%string) = Ok _)
    by (vm_compute; reflexivity).
  destruct (@date_range_clause sample_runtime _ _ _ _
              [("start", PStr "2024-01-01T00:00:00Z")]%string _ ltac:(discriminate) Hp)
    as (before & Hb & Hfq & _).
  eexists. split; [exact Hp|].
  vm_compute in Hb. injection Hb as <-. exact Hfq.
Defined.

(** A spatial query with a box, a point and a radius: the box wins. *)
Lemma spatial_filter_choice_witness :
  exists params,
    @faceted_search_params sample_runtime (PStr "*:*") PNone PNone
      (PDict [ ("point", PList [PInt 1; PInt 2]); ("radius", PInt 5);
               ("bbox", PList [PInt 0; PInt 0; PInt 10; PInt 20]) ]%string) PNone = Ok params /\
    Py.dict_get "ext_bbox" params = Some (PStr "0,0,10,20") /\
    Py.has_key "ext_spatial" params = false.
Proof.
  eassert (Hp : @faceted_search_params sample_runtime (PStr "*:*") PNone PNone
                  (PDict [ ("point", PList [PInt 1; PInt 2]); ("radius", PInt 5);
                           ("bbox", PList [PInt 0; PInt 0; PInt 10; PInt 20]) ]%string) PNone
                = Ok _) by (vm_compute; reflexivity).
  pose proof (@spatial_filter_choice sample_runtime _ _ _ _ _ _ Hp) as Hchoice.
  cbn [Py.dict_get String.eqb Ascii.eqb Bool.eqb] in Hchoice.
  destruct Hchoice as [(b0 & b1 & b2 & b3 & E0 & E1 & E2 & E3 & Hbox) Hnone].
  vm_compute in E0, E1, E2, E3.
  injection E0 as <-. injection E1 as <-. injection E2 as <-. injection E3 as <-.
  eexists. split; [exact Hp|]. split; [exact Hbox|exact Hnone].
Defined.

(** A resource whose datastore has one record and two fields. *)
Lemma preview_with_datastore_witness :
  exists preview st' stats,
    @preview_resource sample_runtime (PStr "r1") (PInt 10) (PBool true) catalogue_state
    = (Ok (PDict preview), st') /\
    Py.dict_get "field_statistics" preview = Some (PList stats) /\
    length stats = 2%nat /\
    Py.dict_get "note" preview = None.
Proof.
  set (st1 := snd (@_make_request sample_runtime "GET"
                     ("resource_show?id=" +:+ @Py.str sample_runtime (PStr "r1")) None true
                     catalogue_state)).
  eassert (Hshow : @_make_request sample_runtime "GET"
                     ("resource_show?id=" +:+ @Py.str sample_runtime (PStr "r1")) None true
                     catalogue_state = (Ok (PDict _), st1)) by (vm_compute; reflexivity).
  eassert (Hsearch : @_make_request sample_runtime "GET"
                       ("datastore_search?resource_id=" +:+ @Py.str sample_runtime (PStr "r1")
                          +:+ "&limit=" +:+ @Py.str sample_runtime (PInt 10)) None true st1
                     = (Ok (PDict _), _)) by (vm_compute; reflexivity).
  eassert (Hstats : _ = true -> rbind (Py.iter _) (rmap field_stat) = Ok _);
    [|destruct (@preview_with_datastore sample_runtime (PStr "r1") (PInt 10) (PBool true)
                  _ _ _ _ _ _ Hshow Hsearch Hstats) as [Hrun Hlen]].
  - intros _. vm_compute. reflexivity.
  - eexists _, _, _. split; [exact Hrun|]. split; [reflexivity|].
    split; [exact (Hlen eq_refl)|reflexivity].
Defined.

(** ** Operations that share the cache *)

Section CompositionProofs.
Context `{PyRuntime}.

(** A quality check that returns has fetched the dataset, and nothing
    after the fetch changes the state. *)
Lemma check_data_quality_fetch (dataset_id checks sample_size report : pyval)
    (st st' : State) :
  check_data_quality dataset_id checks sample_size st = (Ok report, st') ->
  exists dataset,
    _make_request "GET" ("package_show?id=" +:+ Py.str dataset_id) None true st
    = (Ok dataset, st').
Proof.
  unfold check_data_quality, bind, utcnow_isoformat, lift. intros Hrun.
  destruct (_make_request "GET" _ None true st) as [[dataset|e] st1]; [|discriminate Hrun].
  destruct (quality_report_of _ _ _ _) as [r|e]; [|discriminate Hrun].
  injection Hrun as _ <-. exists dataset. reflexivity.
Qed.

(** X19. The operations on one dataset share its cache entry: a
    quality check that returned has left the dataset in the cache, and for
    as long as that entry is younger than the TTL the analytics of the
    same dataset, another quality check of it and an export of it alone
    read it from there: they send no request and leave the client and the
    world as they were. *)
Theorem quality_check_warms_cache (dataset_id checks sample_size report : pyval)
    (st st' : State) :
  Py.eq_str dataset_id "all" = false ->
  check_data_quality dataset_id checks sample_size st = (Ok report, st') ->
  exists entry,
    cache (client st') !! _get_cache_key "GET" ("package_show?id=" +:+ Py.str dataset_id) None
    = Some entry /\
    forall w : World,
      (now w - entry_timestamp entry < cache_ttl (client st'))%Q ->
      let later := {| client := client st'; world := w |} in
      (forall time_range metrics,
          snd (get_dataset_analytics dataset_id time_range metrics later) = later) /\
      (forall checks' sample_size',
          snd (check_data_quality dataset_id checks' sample_size' later) = later) /\
      (forall export_format include_resources,
          snd (export_metadata (PList [dataset_id]) export_format include_resources later)
          = later).
Proof.
  intros Hone Hrun.
  destruct (check_data_quality_fetch _ _ _ _ _ _ Hrun) as [dataset Hfetch].
  destruct (get_again_within_ttl _ _ _ _ _ Hfetch) as (entry & Hlook & _ & _ & Hagain).
  exists entry. split; [exact Hlook|]. intros w Hfresh later.
  specialize (Hagain w Hfresh). fold later in Hagain.
  split; [|split].
  - intros time_range metrics.
    unfold get_dataset_analytics. rewrite Hone. unfold bind, lift, ret. rewrite Hagain.
    destruct (dataset_metrics _ dataset); reflexivity.
  - intros checks' sample_size'.
    unfold check_data_quality, bind, utcnow_isoformat, lift. rewrite Hagain.
    destruct (quality_report_of _ _ _ _); reflexivity.
  - intros export_format include_resources.
    unfold export_metadata, utcnow_isoformat, bind, lift, ret. cbn [Py.iter export_each].
    unfold bind, lift, ret. rewrite Hagain.
    destruct (Py.eq_str export_format "dcat").
    + destruct (dcat_dataset_of dataset include_resources); reflexivity.
    + destruct (Py.eq_str export_format "schema_org").
      * destruct (schema_dataset_of dataset include_resources); reflexivity.
      * destruct (Py.eq_str export_format "ckan_native"); reflexivity.
Qed.

End CompositionProofs.

(** A quality check at instant 1000 and the analytics of the same dataset
    a minute later. *)
Lemma quality_check_warms_cache_witness :
  exists report st',
    @check_data_quality sample_runtime (PStr "X") PNone (PInt 100) catalogue_state
    = (Ok report, st') /\
    let later := {| client := client st';
                    world := {| now := 1060; portal := portal (world st'); sent := [] |} |} in
    snd (@get_dataset_analytics sample_runtime (PStr "X") PNone PNone later) = later.
Proof.
  eassert (Hrun : @check_data_quality sample_runtime (PStr "X") PNone (PInt 100) catalogue_state
                  = (Ok _, _)) by (vm_compute; reflexivity).
  destruct (@quality_check_warms_cache sample_runtime (PStr "X") PNone (PInt 100) _ _ _ eq_refl
              Hrun)
    as (entry & Hlook & Hlater).
  eexists _, _. split; [exact Hrun|]. intros later.
  assert (Hfresh : (now (world later) - entry_timestamp entry < cache_ttl (client later))%Q).
  { vm_compute in Hlook. injection Hlook as <-. vm_compute. reflexivity. }
  exact (proj1 (Hlater (world later) Hfresh) PNone PNone).
Defined.

(** ** The classification of failures *)

Lemma lower_upper_char (c : ascii) :
  PyStr.lower_char (PyStr.upper_char c) = PyStr.lower_char c.
Proof.
  destruct c as [[] [] [] [] [] [] [] []]; reflexivity.
Qed.

Lemma lower_lower_char (c : ascii) :
  PyStr.lower_char (PyStr.lower_char c) = PyStr.lower_char c.
Proof.
  destruct c as [[] [] [] [] [] [] [] []]; reflexivity.
Qed.

Lemma lower_upper (s : string) : PyStr.lower (PyStr.upper s) = PyStr.lower s.
Proof.
  unfold PyStr.lower, PyStr.upper.
  induction s as [|c r IH]; simpl; [reflexivity|]. rewrite lower_upper_char, IH. reflexivity.
Qed.

Lemma lower_lower (s : string) : PyStr.lower (PyStr.lower s) = PyStr.lower s.
Proof.
  unfold PyStr.lower.
  induction s as [|c r IH]; simpl; [reflexivity|]. rewrite lower_lower_char, IH. reflexivity.
Qed.

Section TextProofs.
Context `{PyRuntime}.

(** X20. The kind of a failure does not depend on the case of its
    message: a message of ASCII characters, the same in capitals and the
    same in small letters are classified alike. *)
Theorem classify_ignores_case (message : string) :
  all_chars is_ascii message = true ->
  classify (PyStr.upper message) = classify message /\
  classify (PyStr.lower message) = classify message.
Proof.
  intros _. unfold classify. rewrite lower_upper, lower_lower. split; reflexivity.
Qed.

End TextProofs.

(** A refusal of the portal, as it comes and in capitals. *)
Lemma classify_ignores_case_witness :
  classify "ACCESS DENIED: PERMISSION REQUIRED" = classify "Access denied: permission required" /\
  classify "Access denied: permission required" = PERMISSION_DENIED.
Proof.
  split; [|reflexivity].
  exact (proj1 (classify_ignores_case "Access denied: permission required" eq_refl)).
Defined.

(** ** The client [main] builds *)

Lemma rstrip_by_spec (p : ascii -> bool) (s : string) :
  exists t, s = PyStr.rstrip_by p s +:+ t /\ all_chars p t = true /\
            match last_char (PyStr.rstrip_by p s) with
            | Some c => p c = false
            | None => True
            end.
Proof.
  induction s as [|c r (t & Hs & Ht & Hlast)].
  - exists EmptyString. repeat split.
  - cbn [PyStr.rstrip_by].
    destruct (PyStr.rstrip_by p r) as [|c' r'] eqn:Hr.
    + destruct (p c) eqn:Hc.
      * exists (String c r). split; [reflexivity|]. split; [|exact I].
        rewrite Hs. cbn [all_chars]. rewrite Hc. rewrite append_nil in *. exact Ht.
      * exists r. split; [reflexivity|]. split; [|exact Hc].
        rewrite Hs at 1. rewrite append_nil. exact Ht.
    + exists t. split; [rewrite append_cons, <- Hs; reflexivity|].
      split; [exact Ht|]. exact Hlast.
Qed.

(** X22. [main] refuses to start without a [CKAN_URL], be it missing or
    empty, with the same error; with any other it builds a client whose
    session is open, whose cache is empty, whose TTL is 300 seconds, whose
    key is [CKAN_API_KEY] and whose address is the URL without its trailing
    slashes: the URL is the address followed by slashes only, and the
    address does not end in a slash. *)
Theorem main_builds_client (url : string) (ckan_api_key : option string) :
  main None ckan_api_key = Raise (Exception_ "CKAN_URL environment variable is required") /\
  main (Some ""%string) ckan_api_key
  = Raise (Exception_ "CKAN_URL environment variable is required") /\
  (url <> ""%string ->
   exists c,
     main (Some url) ckan_api_key = Ok c /\
     session c = true /\ cache c = ∅ /\ cache_ttl c = 300%Q /\ api_key c = ckan_api_key /\
     exists slashes,
       url = base_url c +:+ slashes /\
       all_chars is_slash slashes = true /\
       match last_char (base_url c) with
       | Some last => is_slash last = false
       | None => True
       end).
Proof.
  split; [reflexivity|]. split; [reflexivity|]. intros Hne.
  unfold main. destruct (String.eqb_spec url "") as [->|_]; [destruct Hne; reflexivity|].
  eexists. split; [reflexivity|].
  cbn [__aenter__ __init__ session cache cache_ttl api_key base_url].
  repeat (split; [reflexivity|]).
  destruct (rstrip_by_spec is_slash url) as (t & Hs & Ht & Hlast).
  exists t. split; [exact Hs|]. split; [exact Ht|exact Hlast].
Qed.

(** The demo portal, given with two slashes too many. *)
Lemma main_builds_client_witness :
  exists c,
    main (Some "https://demo.ckan.org//"%string) None = Ok c /\
    base_url c = "https://demo.ckan.org"%string /\ session c = true.
Proof.
  destruct (main_builds_client "https://demo.ckan.org//" None) as (_ & _ & Hbuilt).
  destruct (Hbuilt ltac:(discriminate)) as (c & Hmain & Hsession & _).
  exists c. split; [exact Hmain|]. split; [|exact Hsession].
  vm_compute in Hmain. injection Hmain as <-. reflexivity.
Defined.

(** ** The shape of a cache key *)

Lemma le_bytes_length (n : nat) (x : Z) : length (MD5.le_bytes n x) = n.
Proof.
  revert x. induction n as [|n IH]; intros x; simpl; [reflexivity|].
  rewrite IH. reflexivity.
Qed.

Lemma le_bytes_range (n : nat) (x : Z) :
  List.Forall (fun b => 0 <= b < 256) (MD5.le_bytes n x).
Proof.
  revert x. induction n as [|n IH]; intros x; simpl; constructor.
  - apply Z.mod_pos_bound. lia.
  - apply IH.
Qed.

Lemma hex_digit_lower (k : nat) :
  (k < 16)%nat -> is_lower_hex (PyStr.hex_digit false k) = true.
Proof.
  intros Hk. do 16 (destruct k as [|k]; [reflexivity|]). lia.
Qed.

Lemma hex2_lower (b : Z) :
  0 <= b < 256 -> all_chars is_lower_hex (PyStr.hex2 false (Z.to_nat b)) = true.
Proof.
  intros Hb. unfold PyStr.hex2. cbn [all_chars].
  rewrite !hex_digit_lower; [reflexivity| |].
  - apply Nat.mod_upper_bound. lia.
  - apply Nat.Div0.div_lt_upper_bound. lia.
Qed.

Lemma all_chars_append (p : ascii -> bool) (s t : string) :
  all_chars p (s +:+ t) = all_chars p s && all_chars p t.
Proof.
  induction s as [|c r IH]; [rewrite append_nil; reflexivity|].
  rewrite append_cons. cbn [all_chars]. rewrite IH, andb_assoc. reflexivity.
Qed.

Lemma concat_hex (bs : list Z) :
  List.Forall (fun b => 0 <= b < 256) bs ->
  let text := String.concat EmptyString (map (fun b => PyStr.hex2 false (Z.to_nat b)) bs) in
  String.length text = (2 * length bs)%nat /\ all_chars is_lower_hex text = true.
Proof.
  induction 1 as [|b r Hb Hr IH]; [split; reflexivity|].
  destruct IH as [Hlen Hall]. cbn [map String.concat].
  destruct (map (fun b => PyStr.hex2 false (Z.to_nat b)) r) as [|y ys] eqn:Hmap.
  - destruct r; [|discriminate Hmap]. split; [reflexivity|apply hex2_lower, Hb].
  - change (String.append ?a ?b) with (a +:+ b).
    rewrite append_nil. split.
    + rewrite append_length, Hlen. simpl. lia.
    + rewrite all_chars_append, Hall, hex2_lower by exact Hb. reflexivity.
Qed.

(** X23. Every cache key is a text of 32 characters, each of them a digit
    or a letter from [a] to [f], whatever the method, the endpoint and the
    body it is made from. *)
Theorem cache_key_shape `{PyRuntime} (method endpoint : string) (data : option pydict) :
  String.length (_get_cache_key method endpoint data) = 32%nat /\
  all_chars is_lower_hex (_get_cache_key method endpoint data) = true.
Proof.
  unfold _get_cache_key, MD5.hexdigest, MD5.digest_bytes.
  generalize (fold_left MD5.compress
                (MD5.blocks
                   (length (MD5.pad (map (fun c => Z.of_nat (nat_of_ascii c))
                                       (list_ascii_of_string (cache_data method endpoint data)))) / 64)
                   64
                   (MD5.pad (map (fun c => Z.of_nat (nat_of_ascii c))
                               (list_ascii_of_string (cache_data method endpoint data)))))
                MD5.init).
  intros d.
  destruct (concat_hex (MD5.le_bytes 4 (MD5.dA d) ++ MD5.le_bytes 4 (MD5.dB d)
                          ++ MD5.le_bytes 4 (MD5.dC d) ++ MD5.le_bytes 4 (MD5.dD d)))
    as [Hlen Hall].
  { repeat (apply List.Forall_app; split); apply le_bytes_range. }
  split; [|exact Hall].
  rewrite Hlen, !length_app, !le_bytes_length. reflexivity.
Qed.

(** ** Sizes *)

Lemma Qltb_ge (x y : Q) : Qltb x y = false <-> (y <= x)%Q.
Proof. unfold Qltb, Qle. rewrite Z.ltb_ge. reflexivity. Qed.

(** The loop of [format_size] divides by 1024 until the size is below
    1024 or the units run out. *)
Lemma scale_size_spec (units : list string) (x : Q) :
  (0 < x)%Q ->
  exists (k : nat) (v : Q),
    (k <= length units)%nat /\
    scale_size units x = fixed2 v +:+ " " +:+ nth k (units ++ ["TB"%string]) ""%string /\
    (v * inject_Z (1024 ^ Z.of_nat k) == x)%Q /\
    ((k < length units)%nat -> (v < 1024)%Q) /\
    ((0 < k)%nat -> (1 <= v)%Q) /\
    (0 < v)%Q.
Proof.
  revert x. induction units as [|unit rest IH]; intros x Hx.
  - exists 0%nat, x. split; [simpl; lia|]. split; [reflexivity|].
    split; [change (inject_Z (1024 ^ Z.of_nat 0)) with 1%Q; apply Qmult_1_r|].
    split; [simpl; lia|]. split; [lia|exact Hx].
  - cbn [scale_size]. destruct (Qltb x 1024) eqn:Hlt.
    + exists 0%nat, x. split; [simpl; lia|]. split; [reflexivity|].
      split; [change (inject_Z (1024 ^ Z.of_nat 0)) with 1%Q; apply Qmult_1_r|].
      split; [intros _; apply Qltb_lt, Hlt|]. split; [lia|exact Hx].
    + apply Qltb_ge in Hlt.
      assert (Hx' : (0 < x / 1024)%Q).
      { apply Qlt_shift_div_l; [reflexivity|]. rewrite Qmult_0_l. exact Hx. }
      destruct (IH _ Hx') as (k & v & Hk & Hs & Hv & Hsmall & Hbig & Hpos).
      exists (S k), v. split; [simpl; lia|]. split; [exact Hs|].
      split; [|split; [|split; [|exact Hpos]]].
      * rewrite Nat2Z.inj_succ, Z.pow_succ_r by lia. rewrite inject_Z_mult.
        assert (E : (v * (inject_Z 1024 * inject_Z (1024 ^ Z.of_nat k))
                     == (v * inject_Z (1024 ^ Z.of_nat k)) * 1024)%Q) by ring.
        rewrite E, Hv. field.
      * intros Hlen. apply Hsmall. simpl in Hlen. lia.
      * intros _. destruct k as [|k].
        -- change (inject_Z (1024 ^ Z.of_nat 0)) with 1%Q in Hv.
           rewrite Qmult_1_r in Hv. rewrite Hv.
           apply Qle_shift_div_l; [reflexivity|]. rewrite Qmult_1_l. exact Hlt.
        -- apply Hbig. lia.
Qed.

(** Rounding to the nearest integer does not cross an integer. *)
Lemma round_half_even_le (x : Q) (n : Z) : (x <= inject_Z n)%Q -> round_half_even x <= n.
Proof.
  destruct x as [p d]. unfold Qle, round_half_even. cbn [Qnum Qden inject_Z].
  intros Hle. rewrite Z.mul_1_r in Hle.
  pose proof (Z.div_mod p (Zpos d) ltac:(lia)) as Hdiv.
  pose proof (Z.mod_pos_bound p (Zpos d) ltac:(lia)) as Hmod.
  assert (Hq : p / Zpos d <= n) by nia.
  assert (Hq1 : 0 < p mod Zpos d -> p / Zpos d + 1 <= n) by nia.
  destruct (2 * (p mod Zpos d) <? Zpos d) eqn:H1; [exact Hq|].
  apply Z.ltb_ge in H1.
  destruct (Zpos d <? 2 * (p mod Zpos d)); [apply Hq1; lia|].
  destruct (Z.even (p / Zpos d)); [exact Hq|apply Hq1; lia].
Qed.

Lemma round_half_even_ge (x : Q) (n : Z) : (inject_Z n <= x)%Q -> n <= round_half_even x.
Proof.
  destruct x as [p d]. unfold Qle, round_half_even. cbn [Qnum Qden inject_Z].
  intros Hle. rewrite Z.mul_1_r in Hle.
  pose proof (Z.div_mod p (Zpos d) ltac:(lia)) as Hdiv.
  pose proof (Z.mod_pos_bound p (Zpos d) ltac:(lia)) as Hmod.
  assert (Hq : n <= p / Zpos d) by nia.
  destruct (2 * (p mod Zpos d) <? Zpos d); [exact Hq|].
  destruct (Zpos d <? 2 * (p mod Zpos d)); [lia|].
  destruct (Z.even (p / Zpos d)); lia.
Qed.

(** The text of a number that is not negative: its hundredths, rounded,
    written with a point before the last two digits. *)
Lemma fixed2_hundredths (v : Q) :
  (0 <= v)%Q ->
  let c := round_half_even (v * 100) in
  fixed2 v = PyStr.of_Z (c / 100) +:+ "." +:+ PyStr.of_Z (c mod 100 / 10) +:+ PyStr.of_Z (c mod 10).
Proof.
  intros Hv c. unfold fixed2.
  assert (Hsign : Qltb v 0 = false) by (apply Qltb_ge; exact Hv).
  rewrite Hsign. reflexivity.
Qed.

(** X24. [format_size] answers [Unknown] for a size that is missing or
    zero, and stops with a type error at the comparison for a size that is
    a text. For a positive whole number of bytes it divides the size by
    1024 as many times as it takes to bring it below 1024, four times at
    most, and prints the quotient rounded to two decimals with the unit
    that goes with that many divisions (B, KB, MB, GB, TB). The quotient is
    below 1024 unless the unit is TB and at least 1 unless the unit is B;
    the figure printed is the rounded one, so it is at most 1024.00 unless
    the unit is TB and at least 1.00 unless the unit is B, and 1024.00 is
    printed: 1048575 bytes are [1024.00 KB]. *)
Theorem format_size_scales (n : Z) :
  0 < n < 2 ^ 53 ->
  format_size PNone = Ok "Unknown"%string /\
  format_size (PInt 0) = Ok "Unknown"%string /\
  (forall s, s <> ""%string ->
             format_size (PStr s)
             = Py.type_error "'<' not supported between instances of 'str' and 'float'") /\
  format_size (PInt 1048575) = Ok "1024.00 KB"%string /\
  exists (k : nat) (v : Q),
    (k <= 4)%nat /\
    format_size (PInt n) = Ok (fixed2 v +:+ " " +:+ nth k size_units ""%string) /\
    (v * inject_Z (1024 ^ Z.of_nat k) == inject_Z n)%Q /\
    ((k < 4)%nat -> (v < 1024)%Q) /\
    ((0 < k)%nat -> (1 <= v)%Q) /\
    let hundredths := round_half_even (v * 100) in
    fixed2 v = PyStr.of_Z (hundredths / 100) +:+ "."
                 +:+ PyStr.of_Z (hundredths mod 100 / 10) +:+ PyStr.of_Z (hundredths mod 10) /\
    0 <= hundredths /\
    ((k < 4)%nat -> hundredths <= 102400) /\
    ((0 < k)%nat -> 100 <= hundredths).
Proof.
  intros Hn. split; [reflexivity|]. split; [reflexivity|]. split; [|split; [reflexivity|]].
  - intros s Hs. unfold format_size. cbn [Py.truthy].
    destruct (String.eqb_spec s "") as [->|_]; [destruct Hs; reflexivity|]. reflexivity.
  - unfold format_size. cbn [Py.truthy Py.as_number].
    destruct (Z.eqb_spec n 0) as [->|_]; [lia|]. cbn [negb].
    assert (Hpos : (0 < inject_Z n)%Q).
    { unfold Qlt. simpl. lia. }
    destruct (scale_size_spec ["B"; "KB"; "MB"; "GB"]%string _ Hpos)
      as (k & v & Hk & Hs & Hv & Hsmall & Hbig & Hvpos).
    exists k, v. split; [exact Hk|]. split; [rewrite Hs; reflexivity|].
    split; [exact Hv|]. split; [exact Hsmall|]. split; [exact Hbig|].
    split; [apply fixed2_hundredths, Qlt_le_weak, Hvpos|].
    assert (Hscale : forall m : Z, (inject_Z m * 100 == inject_Z (m * 100))%Q).
    { intros m. rewrite inject_Z_mult. reflexivity. }
    split; [|split].
    + apply round_half_even_ge. change (inject_Z 0) with (0 * 100)%Q.
      apply Qmult_le_compat_r; [apply Qlt_le_weak, Hvpos|discriminate].
    + intros Hlt. apply round_half_even_le.
      change 102400 with (1024 * 100). rewrite <- Hscale.
      apply Qmult_le_compat_r; [apply Qlt_le_weak, (Hsmall Hlt)|discriminate].
    + intros Hlt. apply round_half_even_ge.
      change 100 with (1 * 100) at 1. rewrite <- Hscale.
      apply Qmult_le_compat_r; [exact (Hbig Hlt)|discriminate].
Qed.

(** One kilobyte and a half. *)
Lemma format_size_scales_witness :
  format_size (PInt 1536) = Ok "1.50 KB"%string /\
  exists (k : nat) (v : Q),
    format_size (PInt 1536) = Ok (fixed2 v +:+ " " +:+ nth k size_units ""%string) /\
    (v * inject_Z (1024 ^ Z.of_nat k) == 1536)%Q /\
    0 <= round_half_even (v * 100).
Proof.
  split; [reflexivity|].
  destruct (format_size_scales 1536 ltac:(lia))
    as (_ & _ & _ & _ & k & v & _ & Hs & Hv & _ & _ & _ & Hc & _).
  exists k, v. split; [exact Hs|]. split; [exact Hv|exact Hc].
Defined.

(** ** The query string of a faceted search *)

Lemma hex_digit_upper_safe (k : nat) :
  (k < 16)%nat -> PyStr.quote_safe (PyStr.hex_digit true k) = true.
Proof.
  intros Hk. do 16 (destruct k as [|k]; [reflexivity|]). lia.
Qed.

(** A percent-encoded text is made of the characters [quote] keeps, of
    [%] and of the capital hexadecimal digits, which are among those it
    keeps. *)
Lemma quote_chars (s : string) : all_chars is_quoted_char (PyStr.quote s) = true.
Proof.
  induction s as [|c r IH]; [reflexivity|]. cbn [PyStr.quote].
  destruct (PyStr.quote_safe c) eqn:Hsafe.
  - cbn [all_chars]. unfold is_quoted_char at 1. rewrite Hsafe, IH. reflexivity.
  - unfold PyStr.hex2. rewrite !append_cons, append_nil. cbn [all_chars].
    unfold is_quoted_char at 1 2 3.
    rewrite !hex_digit_upper_safe, IH; [reflexivity| |].
    + apply Nat.mod_upper_bound. lia.
    + apply Nat.Div0.div_lt_upper_bound. pose proof (nat_ascii_bounded c). lia.
Qed.

Lemma all_chars_impl (p q : ascii -> bool) (s : string) :
  (forall c, p c = true -> q c = true) -> all_chars p s = true -> all_chars q s = true.
Proof.
  intros Hpq. induction s as [|c r IH]; [reflexivity|]. cbn [all_chars].
  intros Hs. apply andb_true_iff in Hs. destruct Hs as [Hc Hr].
  rewrite (Hpq c Hc), (IH Hr). reflexivity.
Qed.

Lemma quoted_not_amp (c : ascii) : is_quoted_char c = true -> not_amp c = true.
Proof.
  unfold not_amp. destruct (Ascii.eqb_spec c "&") as [->|_]; [discriminate|reflexivity].
Qed.

(** A text without the separator is one field. *)
Lemma split_whole (s : string) :
  all_chars not_amp s = true -> PyStr.split "&" s = [s].
Proof.
  induction s as [|c r IH]; [reflexivity|]. cbn [all_chars PyStr.split].
  intros Hs. apply andb_true_iff in Hs. destruct Hs as [Hc Hr].
  unfold not_amp in Hc. destruct (Ascii.eqb c "&"); [discriminate Hc|].
  rewrite (IH Hr). reflexivity.
Qed.

Lemma split_first (s t : string) :
  all_chars not_amp s = true ->
  PyStr.split "&" (s +:+ "&" +:+ t) = s :: PyStr.split "&" t.
Proof.
  induction s as [|c r IH].
  - intros _. rewrite append_nil. reflexivity.
  - cbn [all_chars]. intros Hs. apply andb_true_iff in Hs. destruct Hs as [Hc Hr].
    rewrite append_cons. cbn [PyStr.split].
    unfold not_amp in Hc. destruct (Ascii.eqb c "&"); [discriminate Hc|].
    rewrite (IH Hr). reflexivity.
Qed.

(** Splitting undoes joining when no part holds the separator. *)
Lemma split_join (parts : list string) :
  parts <> [] ->
  List.Forall (fun part => all_chars not_amp part = true) parts ->
  PyStr.split "&" (PyStr.join "&" parts) = parts.
Proof.
  intros Hne Hall. induction Hall as [|part rest Hp Hrest IH]; [destruct Hne; reflexivity|].
  unfold PyStr.join in *. cbn [String.concat]. destruct rest as [|next rest'].
  - apply split_whole, Hp.
  - change (String.append ?a ?b) with (a +:+ b).
    rewrite (split_first _ _ Hp), IH by discriminate. reflexivity.
Qed.

Lemma keys_dict_set (P : string -> Prop) (k : string) (v : pyval) (d : pydict) :
  P k -> List.Forall (fun kv => P (fst kv)) d ->
  List.Forall (fun kv => P (fst kv)) (Py.dict_set k v d).
Proof.
  intros Hk Hd. induction Hd as [|[k' v'] r Hkv Hr IH]; cbn [Py.dict_set].
  - constructor; [exact Hk|constructor].
  - destruct (String.eqb k' k); constructor; assumption.
Qed.

Section QueryProofs.
Context `{PyRuntime}.

(** The parameters of a faceted search have their names among seven. *)
Lemma faceted_parameter_keys (q facet_fields filters spatial_query date_range : pyval)
    (params : pydict) :
  faceted_search_params q facet_fields filters spatial_query date_range = Ok params ->
  params <> [] /\
  List.Forall (fun kv => In (fst kv) faceted_parameter_names) params.
Proof.
  unfold faceted_search_params. intros Hp.
  assert (Hset : forall k v d,
             In k faceted_parameter_names ->
             d <> [] /\ List.Forall (fun kv => In (fst kv) faceted_parameter_names) d ->
             Py.dict_set k v d <> [] /\
             List.Forall (fun kv => In (fst kv) faceted_parameter_names) (Py.dict_set k v d)).
  { intros k v d Hk [Hd Hall]. split; [|apply (keys_dict_set (fun name => In name faceted_parameter_names)); assumption].
    destruct d as [|[k' v'] r]; [destruct Hd; reflexivity|].
    cbn [Py.dict_set]. destruct (String.eqb k' k); discriminate. }
  match type of Hp with
  | rbind ?c _ = _ => destruct c as [p1|e] eqn:Hfilters; [|discriminate Hp]
  end.
  cbn [rbind] in Hp.
  assert (H1 : p1 <> [] /\ List.Forall (fun kv => In (fst kv) faceted_parameter_names) p1).
  { destruct (Py.truthy filters).
    - destruct (Py.items filters) as [items|e]; [|discriminate Hfilters].
      cbn [rbind] in Hfilters. injection Hfilters as <-.
      split; [discriminate|]. repeat constructor; simpl; tauto.
    - injection Hfilters as <-. split; [discriminate|].
      repeat constructor; simpl; tauto. }
  match type of Hp with
  | rbind ?c _ = _ => destruct c as [p2|e] eqn:Hspatial; [|discriminate Hp]
  end.
  cbn [rbind] in Hp.
  assert (H2 : p2 <> [] /\ List.Forall (fun kv => In (fst kv) faceted_parameter_names) p2).
  { destruct (Py.truthy spatial_query); [|injection Hspatial as <-; exact H1].
    destruct (Py.contains "bbox" spatial_query) as [[|]|e]; [| |discriminate Hspatial];
      cbn [rbind] in Hspatial.
    - destruct (Py.getitem spatial_query "bbox") as [bbox|e]; [|discriminate Hspatial].
      cbn [rbind] in Hspatial.
      destruct (Py.getitem_int bbox 0) as [b0|e]; [|discriminate Hspatial].
      destruct (Py.getitem_int bbox 1) as [b1|e]; [|discriminate Hspatial].
      destruct (Py.getitem_int bbox 2) as [b2|e]; [|discriminate Hspatial].
      destruct (Py.getitem_int bbox 3) as [b3|e]; [|discriminate Hspatial].
      cbn [rbind] in Hspatial. injection Hspatial as <-.
      apply Hset; [simpl; tauto|exact H1].
    - destruct (Py.contains "point" spatial_query) as [has_point|e]; [|discriminate Hspatial].
      cbn [rbind] in Hspatial.
      destruct (if has_point then Py.contains "radius" spatial_query else Ok false)
        as [has_radius|e]; [|discriminate Hspatial].
      cbn [rbind] in Hspatial.
      destruct (has_point && has_radius); [|injection Hspatial as <-; exact H1].
      destruct (Py.getitem spatial_query "point") as [point|e]; [|discriminate Hspatial].
      destruct (Py.getitem spatial_query "radius") as [radius|e]; [|discriminate Hspatial].
      cbn [rbind] in Hspatial.
      destruct (Py.getitem_int point 0) as [p0|e]; [|discriminate Hspatial].
      destruct (Py.getitem_int point 1) as [p1'|e]; [|discriminate Hspatial].
      cbn [rbind] in Hspatial. injection Hspatial as <-.
      apply Hset; [simpl; tauto|exact H1]. }
  destruct (Py.truthy date_range); [|injection Hp as <-; exact H2].
  destruct (Py.get date_range "start" (PStr "*")) as [start_date|e]; [|discriminate Hp].
  destruct (Py.get date_range "end" (PStr "*")) as [end_date|e]; [|discriminate Hp].
  destruct (Py.get date_range "field" (PStr "metadata_created")) as [date_field|e];
    [|discriminate Hp].
  cbn [rbind] in Hp.
  destruct (Py.dict_get "fq" p2); injection Hp as <-;
    (apply Hset; [simpl; tauto|exact H2]).
Qed.

(** X25. The query string of a faceted search can be taken apart again:
    split at [&], it gives back one [name=value] field per parameter, in
    order, whatever the query, the filters and the ranges hold, because
    every value is percent-encoded (it is made of letters, digits,
    [_.-~/] and [%] only) and the names are among seven fixed ones. *)
Theorem query_string_splits_back (q facet_fields filters spatial_query date_range : pyval)
    (params : pydict) :
  faceted_search_params q facet_fields filters spatial_query date_range = Ok params ->
  PyStr.split "&" (query_string_of params)
  = map (fun kv => fst kv +:+ "=" +:+ PyStr.quote (Py.str (snd kv))) params /\
  List.Forall (fun kv => In (fst kv) faceted_parameter_names /\
                         all_chars is_quoted_char (PyStr.quote (Py.str (snd kv))) = true)
    params.
Proof.
  intros Hp. destruct (faceted_parameter_keys _ _ _ _ _ _ Hp) as [Hne Hkeys]. split.
  - unfold query_string_of. apply split_join.
    + destruct params; [destruct Hne; reflexivity|discriminate].
    + apply List.Forall_map. eapply List.Forall_impl; [|exact Hkeys].
      intros [k v] Hk. cbn [fst snd] in *.
      rewrite !all_chars_append.
      rewrite (all_chars_impl _ _ _ quoted_not_amp (quote_chars _)).
      simpl in Hk.
      repeat (destruct Hk as [<-|Hk]; [reflexivity|]). destruct Hk.
  - eapply List.Forall_impl; [|exact Hkeys].
    intros kv Hk. split; [exact Hk|apply quote_chars].
Qed.

End QueryProofs.

(** A query with an ampersand in it: one field still. *)
Lemma query_string_splits_back_witness :
  exists params,
    @faceted_search_params sample_runtime (PStr "rain&rows=1000") PNone PNone PNone PNone
    = Ok params /\
    length (PyStr.split "&" (@query_string_of sample_runtime params)) = 4%nat.
Proof.
  eassert (Hp : @faceted_search_params sample_runtime (PStr "rain&rows=1000") PNone PNone PNone
                  PNone = Ok _) by (vm_compute; reflexivity).
  destruct (@query_string_splits_back sample_runtime _ _ _ _ _ _ Hp) as [Hsplit _].
  eexists. split; [exact Hp|]. rewrite Hsplit. reflexivity.
Defined.

(** ** What a tool call can fail with *)

Lemma raises_ok {A} (a : A) : raises_builtin (Ok a).
Proof. intros e He. discriminate He. Qed.

Lemma raises_rbind {A B} (c : result A) (k : A -> result B) :
  raises_builtin c -> (forall a, raises_builtin (k a)) -> raises_builtin (rbind c k).
Proof.
  intros Hc Hk e He. destruct c as [a|e']; cbn [rbind] in He.
  - exact (Hk a e He).
  - injection He as <-. apply Hc. reflexivity.
Qed.

Lemma raises_attribute_error {A} (v : pyval) (attr : string) :
  raises_builtin (@Py.attribute_error A v attr).
Proof. intros e [= <-]. right. left. reflexivity. Qed.

Lemma raises_type_error {A} (msg : string) : raises_builtin (@Py.type_error A msg).
Proof. intros e [= <-]. right. right. left. reflexivity. Qed.

Lemma raises_index_error {A} (what : string) : raises_builtin (@Py.index_error A what).
Proof. intros e [= <-]. right. right. right. left. reflexivity. Qed.

Lemma raises_key_error {A} (msg : string) :
  raises_builtin (@Raise A {| exn_cls := ExKeyError; exn_msg := msg |}).
Proof. intros e [= <-]. left. reflexivity. Qed.

(** The steps of a proof that a pure function raises built-in errors
    only. *)
Ltac builtin_step :=
  first
    [ apply raises_ok | apply raises_attribute_error | apply raises_type_error
    | apply raises_index_error | apply raises_key_error
    | apply raises_rbind; [|intros ?]
    | match goal with
      | |- raises_builtin (match ?x with _ => _ end) => destruct x
      | |- raises_builtin (if ?b then _ else _) => destruct b
      end ].

Ltac builtin := repeat builtin_step.

Lemma raises_get (v : pyval) (k : string) (default : pyval) :
  raises_builtin (Py.get v k default).
Proof. unfold Py.get. builtin. Qed.

Lemma raises_getitem (v : pyval) (k : string) : raises_builtin (Py.getitem v k).
Proof. unfold Py.getitem. builtin. Qed.

Lemma raises_getitem_int (v : pyval) (i : Z) : raises_builtin (Py.getitem_int v i).
Proof. unfold Py.getitem_int. builtin. Qed.

Lemma raises_contains (k : string) (v : pyval) : raises_builtin (Py.contains k v).
Proof. unfold Py.contains. builtin. Qed.

Lemma raises_len (v : pyval) : raises_builtin (Py.len v).
Proof. unfold Py.len. builtin. Qed.

Lemma raises_iter (v : pyval) : raises_builtin (Py.iter v).
Proof. unfold Py.iter. builtin. Qed.

Lemma raises_upper (v : pyval) : raises_builtin (Py.upper v).
Proof. unfold Py.upper. builtin. Qed.

Lemma raises_items (v : pyval) : raises_builtin (Py.items v).
Proof. unfold Py.items. builtin. Qed.

Lemma raises_slice_to (l : list pyval) (n : pyval) : raises_builtin (Py.slice_to l n).
Proof. unfold Py.slice_to. builtin. Qed.

Lemma raises_slice_val (v : pyval) (n : Z) : raises_builtin (Py.slice_val v n).
Proof. unfold Py.slice_val. builtin. Qed.

(** The same steps, with the operations on values. *)
Ltac pure_step :=
  first
    [ apply raises_get | apply raises_getitem | apply raises_getitem_int
    | apply raises_contains | apply raises_len | apply raises_iter | apply raises_upper
    | apply raises_items | apply raises_slice_to | apply raises_slice_val
    | builtin_step ].

Ltac pure := repeat pure_step.

Section FailureProofs.
Context `{PyRuntime}.

Lemma raises_rmap {A B} (f : A -> result B) (l : list A) :
  (forall x, raises_builtin (f x)) -> raises_builtin (rmap f l).
Proof.
  intros Hf. induction l as [|x r IH]; cbn [rmap]; [apply raises_ok|].
  apply raises_rbind; [apply Hf|]. intros y.
  apply raises_rbind; [exact IH|]. intros ys. apply raises_ok.
Qed.

Lemma raises_drop_source (dataset_id : pyval) (l : list pyval) :
  raises_builtin (drop_source dataset_id l).
Proof.
  induction l as [|ds r IH]; cbn [drop_source]; [apply raises_ok|].
  apply raises_rbind; [apply raises_getitem|]. intros vid.
  apply raises_rbind; [exact IH|]. intros rest. apply raises_ok.
Qed.

Lemma raises_count_present (dataset : pyval) (fields : list string) :
  raises_builtin (count_present dataset fields).
Proof.
  induction fields as [|field r IH]; cbn [count_present]; [apply raises_ok|].
  apply raises_rbind; [apply raises_get|]. intros v.
  apply raises_rbind; [exact IH|]. intros n. apply raises_ok.
Qed.

Lemma raises_faceted_search_params (q facet_fields filters spatial_query date_range : pyval) :
  raises_builtin (faceted_search_params q facet_fields filters spatial_query date_range).
Proof. unfold faceted_search_params. pure. Qed.

Lemma raises_format_score_of (resource : pyval) : raises_builtin (format_score_of resource).
Proof. unfold format_score_of. pure. Qed.

Lemma raises_has_either (dataset : pyval) (a b : string) :
  raises_builtin (has_either dataset a b).
Proof. unfold has_either. pure. Qed.

Lemma raises_completeness_check (dataset : pyval) :
  raises_builtin (completeness_check dataset).
Proof.
  unfold completeness_check. apply raises_rbind; [apply raises_count_present|].
  intros n. apply raises_ok.
Qed.

Lemma raises_format_validation_check (dataset : pyval) :
  raises_builtin (format_validation_check dataset).
Proof.
  unfold format_validation_check.
  apply raises_rbind; [apply raises_get|]. intros resources.
  apply raises_rbind; [apply raises_iter|]. intros each.
  apply raises_rbind; [apply raises_rmap, raises_format_score_of|]. intros scores.
  apply raises_rbind; [apply raises_len|]. intros n. apply raises_ok.
Qed.

Lemma raises_schema_compliance_check (dataset : pyval) :
  raises_builtin (schema_compliance_check dataset).
Proof.
  unfold schema_compliance_check.
  apply raises_rbind; [apply raises_get|]. intros license_id.
  do 3 (apply raises_rbind; [apply raises_has_either|]; intros ?).
  apply raises_rbind; [apply raises_get|]. intros spatial. apply raises_ok.
Qed.

Lemma raises_run_check (name : string) (check : pyval -> result (pyval * pyval))
    (checks dataset : pyval) (acc : pydict * list pyval) :
  (forall d, raises_builtin (check d)) ->
  raises_builtin (run_check name check checks dataset acc).
Proof.
  intros Hcheck. unfold run_check.
  apply raises_rbind; [apply raises_contains|]. intros [|]; [|apply raises_ok].
  apply raises_rbind; [apply Hcheck|]. intros scored. apply raises_ok.
Qed.

Lemma raises_quality_report_of (dataset_id checks dataset : pyval) (timestamp : string) :
  raises_builtin (quality_report_of dataset_id checks dataset timestamp).
Proof.
  unfold quality_report_of.
  apply raises_rbind; [apply raises_get|]. intros dataset_name.
  apply raises_rbind; [apply raises_run_check, raises_completeness_check|]. intros acc1.
  apply raises_rbind; [apply raises_run_check, raises_format_validation_check|]. intros acc2.
  apply raises_rbind; [apply raises_run_check, raises_schema_compliance_check|]. intros acc3.
  apply raises_ok.
Qed.

Lemma raises_popular_entry (ds : pyval) : raises_builtin (popular_entry ds).
Proof. unfold popular_entry. pure. Qed.

Lemma raises_tracking (dataset : pyval) (field : string) :
  raises_builtin (tracking dataset field).
Proof. unfold tracking. pure. Qed.

Lemma raises_dataset_metrics (metrics dataset : pyval) :
  raises_builtin (dataset_metrics metrics dataset).
Proof.
  unfold dataset_metrics.
  repeat first [ apply raises_tracking | pure_step ].
Qed.

Lemma raises_tag_names (dataset : pyval) : raises_builtin (tag_names dataset).
Proof.
  unfold tag_names.
  apply raises_rbind; [apply raises_get|]. intros tags.
  apply raises_rbind; [apply raises_iter|]. intros each.
  apply raises_rbind; [apply raises_rmap; intros tag; apply raises_getitem|]. intros names.
  apply raises_ok.
Qed.

Lemma raises_organization_name (dataset : pyval) :
  raises_builtin (organization_name dataset).
Proof. unfold organization_name. pure. Qed.

Lemma raises_distributions (dataset : pyval) (type : string)
    (fields : list (string * string)) :
  raises_builtin (distributions dataset type fields).
Proof.
  unfold distributions.
  apply raises_rbind; [apply raises_get|]. intros resources.
  apply raises_rbind; [apply raises_iter|]. intros each.
  apply raises_rbind; [|intros ds; apply raises_ok].
  apply raises_rmap. intros resource.
  apply raises_rbind; [|intros values; apply raises_ok].
  apply raises_rmap. intros kf.
  apply raises_rbind; [apply raises_get|]. intros v. apply raises_ok.
Qed.

Lemma raises_dcat_dataset_of (dataset include_resources : pyval) :
  raises_builtin (dcat_dataset_of dataset include_resources).
Proof.
  unfold dcat_dataset_of.
  repeat first [ apply raises_tag_names | apply raises_organization_name
               | apply raises_distributions | pure_step ].
Qed.

Lemma raises_schema_dataset_of (dataset include_resources : pyval) :
  raises_builtin (schema_dataset_of dataset include_resources).
Proof.
  unfold schema_dataset_of.
  repeat first [ apply raises_tag_names | apply raises_organization_name
               | apply raises_distributions | pure_step ].
Qed.

Lemma raises_raw_query_string (params : pyval) : raises_builtin (raw_query_string params).
Proof. unfold raw_query_string. pure. Qed.

Lemma raises_get_if_any (arguments : pyval) (k : string) (default : pyval) :
  raises_builtin (get_if_any arguments k default).
Proof. unfold get_if_any. pure. Qed.

(** *** Computations *)

Lemma fails_ret {A} (a : A) : fails_known (ret a).
Proof. intros st e st' He. discriminate He. Qed.

Lemma fails_lift {A} (r : result A) : raises_builtin r -> fails_known (lift r).
Proof. intros Hr st e st' He. injection He as He _. left. apply Hr, He. Qed.

Lemma fails_utcnow : fails_known utcnow_isoformat.
Proof. intros st e st' He. discriminate He. Qed.

Lemma fails_bind {A B} (m : M A) (f : A -> M B) :
  fails_known m -> (forall a, fails_known (f a)) -> fails_known (bind m f).
Proof.
  intros Hm Hf st e st' He. unfold bind in He.
  destruct (m st) as [[a|e0] st1] eqn:Hrun.
  - exact (Hf a _ _ _ He).
  - injection He as <- <-. exact (Hm _ _ _ Hrun).
Qed.

Lemma fails_make_request (method endpoint : string) (data : option pydict)
    (use_cache : bool) :
  fails_known (_make_request method endpoint data use_cache).
Proof.
  intros st e st' Hrun. right.
  destruct (make_request_hit_or_goes method endpoint data use_cache st) as [[entry He]|Hgo].
  - rewrite He in Hrun. discriminate Hrun.
  - rewrite Hgo in Hrun. destruct (session (client st)) eqn:Hsession.
    + rewrite (request_portal_run _ _ _ _ _ _ Hsession) in Hrun.
      destruct (outcome_of_reply _) as [payload|e'] eqn:Hout; [discriminate Hrun|].
      injection Hrun as <- _. exact (outcome_raises _ _ Hout).
    + rewrite (request_portal_no_session _ _ _ _ _ _ Hsession) in Hrun.
      injection Hrun as <- _. split; [reflexivity|right; reflexivity].
Qed.

(** The steps of a proof that a computation fails in the known ways. *)
Ltac fails_step :=
  first
    [ apply fails_ret | apply fails_utcnow | apply fails_make_request
    | apply fails_bind; [|intros ?]
    | apply fails_lift
    | match goal with
      | |- fails_known (if ?b then _ else _) => destruct b
      | |- fails_known (match ?l with [] => _ | _ :: _ => _ end) => destruct l
      end ].

Ltac fails := repeat fails_step.

Lemma fails_faceted_search (q facet_fields filters spatial_query date_range : pyval) :
  fails_known (faceted_search q facet_fields filters spatial_query date_range).
Proof. unfold faceted_search. fails. apply raises_faceted_search_params. Qed.

Lemma fails_related_search (dataset_id : pyval) (query_string : string) :
  fails_known (related_search dataset_id query_string).
Proof.
  unfold related_search. fails;
    first [apply raises_get | apply raises_iter | apply raises_drop_source].
Qed.

Lemma fails_get_related_datasets (dataset_id relation_type max_results : pyval) :
  fails_known (get_related_datasets dataset_id relation_type max_results).
Proof.
  unfold get_related_datasets.
  repeat first [ apply fails_related_search | fails_step ];
    first [ apply raises_get | apply raises_iter | apply raises_slice_to
          | apply raises_rmap; intros x; apply raises_getitem ].
Qed.

Lemma fails_check_data_quality (dataset_id checks sample_size : pyval) :
  fails_known (check_data_quality dataset_id checks sample_size).
Proof. unfold check_data_quality. fails. apply raises_quality_report_of. Qed.

Lemma fails_site_metrics : fails_known site_metrics.
Proof.
  unfold site_metrics. fails;
    first [ apply raises_get | apply raises_len | apply raises_slice_val | apply raises_iter
          | apply raises_rmap, raises_popular_entry ].
Qed.

Lemma fails_get_dataset_analytics (dataset_id time_range metrics : pyval) :
  fails_known (get_dataset_analytics dataset_id time_range metrics).
Proof.
  unfold get_dataset_analytics. apply fails_bind; [|intros m; apply fails_ret].
  destruct (Py.eq_str dataset_id "all"); [apply fails_site_metrics|].
  fails. apply raises_dataset_metrics.
Qed.

Lemma fails_preview_resource (resource_id preview_rows generate_stats : pyval) :
  fails_known (preview_resource resource_id preview_rows generate_stats).
Proof.
  unfold preview_resource. apply fails_bind; [apply fails_make_request|]. intros resource.
  do 6 (apply fails_bind; [apply fails_lift, raises_get|]; intros ?).
  intros st e st' Hrun.
  destruct (preview_datastore _ _ _ _ st) as [[preview [stopped|]] st1]; discriminate Hrun.
Qed.

Lemma fails_export_each (ids : list pyval) (export_format include_resources : pyval)
    (datasets : list pyval) :
  fails_known (export_each ids export_format include_resources datasets).
Proof.
  revert datasets. induction ids as [|dataset_id rest IH]; intros datasets;
    cbn [export_each]; [apply fails_ret|].
  apply fails_bind; [apply fails_make_request|]. intros dataset.
  apply fails_bind; [|intros ds; apply IH].
  fails; first [apply raises_dcat_dataset_of | apply raises_schema_dataset_of].
Qed.

Lemma fails_export_metadata (dataset_ids export_format include_resources : pyval) :
  fails_known (export_metadata dataset_ids export_format include_resources).
Proof.
  unfold export_metadata.
  apply fails_bind; [apply fails_utcnow|]. intros timestamp.
  apply fails_bind; [apply fails_lift, raises_iter|]. intros ids.
  apply fails_bind; [apply fails_export_each|]. intros datasets. apply fails_ret.
Qed.

(** The arguments a branch of the dispatcher reads. *)
Ltac known_args :=
  repeat lazymatch goal with
         | |- fails_known (bind (lift _) _) =>
             apply fails_bind;
             [apply fails_lift;
              first [ apply raises_get | apply raises_getitem | apply raises_get_if_any
                    | apply raises_raw_query_string ]
             |intros ?]
         end.

(** One branch of the dispatcher, for the tool named [tool], which ends
    in the computation that [finish] handles. *)
Ltac known_branch name tool finish :=
  destruct (String.eqb_spec name tool) as [->|?]; [known_args; finish|].

Lemma fails_dispatch (name : string) (arguments : pyval) :
  In name (map tool_name handle_list_tools) -> fails_known (dispatch name arguments).
Proof.
  intros Hin. unfold dispatch, GET.
  known_branch name "ckan_package_list" ltac:(apply fails_make_request).
  known_branch name "ckan_package_show" ltac:(apply fails_make_request).
  known_branch name "ckan_package_search" ltac:(apply fails_make_request).
  known_branch name "ckan_organization_list" ltac:(apply fails_make_request).
  known_branch name "ckan_organization_show" ltac:(apply fails_make_request).
  known_branch name "ckan_group_list" ltac:(apply fails_make_request).
  known_branch name "ckan_tag_list" ltac:(apply fails_make_request).
  known_branch name "ckan_resource_show" ltac:(apply fails_make_request).
  known_branch name "ckan_site_read" ltac:(apply fails_make_request).
  known_branch name "ckan_status_show" ltac:(apply fails_make_request).
  known_branch name "ckan_faceted_search" ltac:(apply fails_faceted_search).
  known_branch name "ckan_related_datasets" ltac:(apply fails_get_related_datasets).
  known_branch name "ckan_data_quality_check" ltac:(apply fails_check_data_quality).
  known_branch name "ckan_dataset_analytics" ltac:(apply fails_get_dataset_analytics).
  known_branch name "ckan_resource_preview" ltac:(apply fails_preview_resource).
  known_branch name "ckan_metadata_exporter" ltac:(apply fails_export_metadata).
  exfalso. simpl in Hin.
  repeat (destruct Hin as [Hin|Hin]; [congruence|]). destruct Hin.
Qed.


End FailureProofs.


(** ** Arguments without a value *)

Section ArgumentProofs.
Context `{PyRuntime}.

(** The query string of the raw tools: the arguments that are given, in
    order. *)
Lemma raw_query_string_given (d : pydict) :
  raw_query_string (Py.or_ (PDict d) (PDict []))
  = Ok (PyStr.join "&" (map (fun kv => fst kv +:+ "=" +:+ Py.str (snd kv))
                          (List.filter is_given d))).
Proof.
  assert (Hor : Py.or_ (PDict d) (PDict []) = PDict d).
  { unfold Py.or_. destruct d; reflexivity. }
  rewrite Hor. unfold raw_query_string. cbn [Py.items rbind].
  assert (Hsame : forall l : pydict,
             flat_map (fun kv => match snd kv with
                                 | PNone => []
                                 | value => [fst kv +:+ "=" +:+ Py.str value]
                                 end) l
             = map (fun kv => fst kv +:+ "=" +:+ Py.str (snd kv)) (List.filter is_given l)).
  { induction l as [|[k v] r IH]; [reflexivity|].
    cbn [flat_map List.filter]. unfold is_given at 1. cbn [snd fst].
    rewrite IH. destruct v; reflexivity. }
  rewrite Hsame. reflexivity.
Qed.

Lemma filter_given_twice (d : pydict) :
  List.filter is_given (List.filter is_given d) = List.filter is_given d.
Proof.
  induction d as [|kv r IH]; [reflexivity|]. cbn [List.filter].
  destruct (is_given kv) eqn:Hg; [|exact IH].
  cbn [List.filter]. rewrite Hg, IH. reflexivity.
Qed.

(** X27. The raw search and tag tools leave out the arguments whose
    value is [None]: a call does exactly what the call without those
    arguments does, and a call whose arguments are all [None] does what
    the call without any arguments does; the endpoint of the search is
    [package_search?] followed by the given arguments as [name=value]
    joined by [&], the values as they are, without percent-encoding. *)
Theorem null_arguments_are_left_out (name : string) (d : pydict) (st : State) :
  name = "ckan_package_search"%string \/ name = "ckan_tag_list"%string ->
  dispatch name (PDict d) st = dispatch name (PDict (List.filter is_given d)) st /\
  (List.filter is_given d = [] -> dispatch name (PDict d) st = dispatch name PNone st) /\
  dispatch "ckan_package_search" (PDict d) st
  = GET ("package_search?"
           +:+ PyStr.join "&" (map (fun kv => fst kv +:+ "=" +:+ Py.str (snd kv))
                                 (List.filter is_given d))) st.
Proof.
  intros Hname.
  assert (Hsearch : forall d', dispatch "ckan_package_search" (PDict d') st
                    = GET ("package_search?"
                             +:+ PyStr.join "&"
                                   (map (fun kv => fst kv +:+ "=" +:+ Py.str (snd kv))
                                      (List.filter is_given d'))) st).
  { intros d'. unfold dispatch. cbn [String.eqb Ascii.eqb Bool.eqb].
    unfold bind, lift. rewrite raw_query_string_given. reflexivity. }
  assert (Htags : forall d', dispatch "ckan_tag_list" (PDict d') st
                    = (let query_string :=
                         PyStr.join "&" (map (fun kv => fst kv +:+ "=" +:+ Py.str (snd kv))
                                           (List.filter is_given d')) in
                       GET (if String.eqb query_string "" then "tag_list"
                            else "tag_list?" +:+ query_string) st)).
  { intros d'. unfold dispatch. cbn [String.eqb Ascii.eqb Bool.eqb].
    unfold bind, lift. rewrite raw_query_string_given. reflexivity. }
  split; [|split].
  - destruct Hname as [->| ->].
    + rewrite !Hsearch, filter_given_twice. reflexivity.
    + rewrite !Htags, filter_given_twice. reflexivity.
  - intros Hnone. destruct Hname as [->| ->].
    + rewrite Hsearch, Hnone. reflexivity.
    + rewrite Htags, Hnone. reflexivity.
  - apply Hsearch.
Qed.

(** X28. The portal statistics of the command-line explorer, when they
    come back, are a dict with exactly the four entries
    [total_packages], [total_organizations], [total_tags] and
    [ckan_version], in that order, so that none of the four subscripts of
    [main] can fail; the two totals are lengths, hence whole numbers that
    are not negative. *)
Theorem statistics_have_four_entries (st st' : State) (stats : pyval) :
  CKANExplorer.get_statistics st = (Ok stats, st') ->
  exists total_packages total_organizations total_tags ckan_version,
    stats = PDict [ ("total_packages", total_packages);
                    ("total_organizations", PInt total_organizations);
                    ("total_tags", PInt total_tags);
                    ("ckan_version", ckan_version) ]%string /\
    0 <= total_organizations /\ 0 <= total_tags.
Proof.
  unfold CKANExplorer.get_statistics, bind, lift, ret. intros Hrun.
  destruct (_make_request "GET" "package_search?q=*:*&rows=1" None true st)
    as [[search|e] s1]; [|discriminate Hrun].
  destruct (Py.get search "count" (PInt 0)) as [count|e]; [|discriminate Hrun].
  destruct (_make_request "GET" "organization_list" None true s1)
    as [[orgs|e] s2]; [|discriminate Hrun].
  destruct (Py.len orgs) as [n_orgs|e] eqn:Horgs; [|discriminate Hrun].
  destruct (_make_request "GET" "tag_list" None true s2)
    as [[tags|e] s3]; [|discriminate Hrun].
  destruct (Py.len tags) as [n_tags|e] eqn:Htags; [|discriminate Hrun].
  destruct (_make_request "GET" "status_show" None true s3)
    as [[site|e] s4]; [|discriminate Hrun].
  destruct (Py.get site "ckan_version" (PStr "Unknown")) as [version|e]; [|discriminate Hrun].
  injection Hrun as <- _.
  exists count, n_orgs, n_tags, version. split; [reflexivity|].
  assert (Hlen : forall v n, Py.len v = Ok n -> 0 <= n).
  { intros v n Hv. destruct v; try discriminate Hv; injection Hv as <-; lia. }
  split; [exact (Hlen _ _ Horgs)|exact (Hlen _ _ Htags)].
Qed.

End ArgumentProofs.

(** A search with a query and two arguments left at [None]. *)
Lemma null_arguments_are_left_out_witness :
  let st := {| client := sample_client; world := status_world 0 |} in
  @dispatch sample_runtime "ckan_package_search"
    (PDict [("q", PStr "rain"); ("fq", PNone); ("sort", PNone)]%string) st
  = @dispatch sample_runtime "ckan_package_search" (PDict [("q", PStr "rain")]%string) st.
Proof.
  intros st.
  exact (proj1 (@null_arguments_are_left_out sample_runtime "ckan_package_search"
                  [("q", PStr "rain"); ("fq", PNone); ("sort", PNone)]%string st
                  (or_introl eq_refl))).
Defined.

Lemma statistics_have_four_entries_witness :
  exists stats st' version,
    @CKANExplorer.get_statistics sample_runtime
      {| client := sample_client; world := status_world 0 |} = (Ok stats, st') /\
    entry_of "ckan_version" stats = Some version.
Proof.
  eassert (Hrun : @CKANExplorer.get_statistics sample_runtime
                    {| client := sample_client; world := status_world 0 |} = (Ok _, _))
    by (vm_compute; reflexivity).
  destruct (@statistics_have_four_entries sample_runtime _ _ _ Hrun)
    as (packages & orgs & tags & version & Hstats & _).
  eexists _, _, version. split; [exact Hrun|]. rewrite Hstats. reflexivity.
Defined.
